(** * Wheelchair-journey tracker: motion-event classification pipeline

    A shallow embedding of the tracking screens of the repository and the
    properties of their event-classification core.

    Sources embedded here:
    - [src/app.tsx], screen "tracking_without_API_2" (lines 222-1375):
      module [TrackingWithoutAPI2];
    - [src/app.tsx], screen "stop implemention" (lines 1378-2190):
      module [StopImplementation];
    - [src/unnamed/part_000], hook "backward" (lines 1-137): the geodesic
      helpers [computeBearing] and [computeDistance], module [Geo];
    - [src/app.tsx], first screen: the location callback and
      calculateDistance on binary64 numbers (lines 911-981 and 998-1011),
      module [Binary64];
    - [src/app.tsx], first screen: the over-speed effect (lines 818-838),
      module [SpeedMonitor]; the Start button (lines 1050-1063), module
      [Countdown]; the figures of the summary (lines 1115-1120), module
      [Summary];
    - [src/unnamed/part_000]: the hook "backward" itself (lines 49-135),
      module [BackwardDetection]; the hook "back_sensor" (lines 433-523),
      module [BackSensor]; the favorites of the web player (lines 297-308
      and 379-431), module [Favorites].

    Number model.  The GPS pipeline (coordinates, distances, speeds) is
    modelled over the real numbers in the two screens and the hooks:
    the properties stated there are properties of the haversine and
    bearing formulas, and they are stated as such.  What the program
    computes is a rounding of these formulas, and rounding can leave
    their range: module [Binary64] holds the location callback of the
    first screen over IEEE-754 binary64 numbers, the very numbers of
    JavaScript, with the trigonometric functions as a parameter (they
    have no bit-exact specification).  The inertial pipeline
    (accelerometer and gyroscope samples) is modelled over binary64
    numbers throughout, because its properties depend on comparisons
    with NaN and on division by zero.  Timestamps ([Date.now()]) are
    integers.

    Execution model.  JavaScript runs one callback at a time.  An event
    (a sensor sample, a button, the one-second tick) carries the time
    [now] at which it is delivered; the timers due by then fire first.
    The state updates a callback requests ([setX]) and the effects of the
    render that follows (the refs that mirror state, the subscriptions
    that depend on [tracking] and [paused]) are complete before the next
    event; the clock reads of one callback give one [now].  A callback
    that closes over a state variable instead of a ref keeps the value of
    the render that created it; where the source does that, the state
    below holds the captured value explicitly.  An updater function
    passed to [setX] runs during the callback or after it, as the React
    root decides ([Host.batchedUpdates]).  No callback tests whether it
    is still wanted: beginTracking runs whenever a position request made
    by the Start button succeeds, whatever the screen shows by then. *)

From Stdlib Require Import ZArith List Bool Lia String.
From Stdlib Require Import Floats.
From Stdlib Require Import Reals Lra.
Import ListNotations.

Set Warnings "-inexact-float".

(* ================================================================== *)
(** * Part I: the program *)
(* ================================================================== *)

(** ** Geo Math *)

Module Geo.
Local Open Scope R_scope.

Definition Rltb (x y : R) : bool := if Rlt_dec x y then true else false.
Definition Rleb (x y : R) : bool := if Rle_dec x y then true else false.

(** [Math.atan2(y, x)] on real numbers (one zero, no NaN): the angle of the
    point [(x, y)], in (-PI, PI]. *)
Definition Math_atan2 (y x : R) : R :=
  if Rlt_dec 0 x then atan (y / x)
  else if Rlt_dec x 0 then
         if Rle_dec 0 y then atan (y / x) + PI else atan (y / x) - PI
       else if Rlt_dec 0 y then PI / 2
            else if Rlt_dec y 0 then - (PI / 2)
                 else 0.

(** Truncation toward zero, and the remainder operator [%] of JavaScript,
    whose result has the sign of the dividend. *)
Definition Rtrunc (x : R) : Z :=
  if Rle_dec 0 x then Int_part x else (- Int_part (- x))%Z.

Definition js_rem (a m : R) : R := a - m * IZR (Rtrunc (a / m)).

(** part_000, lines 7-8. *)
Definition toRadians (deg : R) : R := deg * (PI / 180).
Definition toDegrees (rad : R) : R := rad * (180 / PI).

(** part_000, lines 13-23. *)
Definition computeBearing (lat1 lon1 lat2 lon2 : R) : R :=
  let phi1 := toRadians lat1 in
  let phi2 := toRadians lat2 in
  let dlambda := toRadians (lon2 - lon1) in
  let y := sin dlambda * cos phi2 in
  let x := cos phi1 * sin phi2 - sin phi1 * cos phi2 * cos dlambda in
  let theta := Math_atan2 y x in
  js_rem (toDegrees theta + 360) 360.

(** part_000, lines 28-39. *)
Definition computeDistance (lat1 lon1 lat2 lon2 : R) : R :=
  let earthR := 6371000 in
  let phi1 := toRadians lat1 in
  let phi2 := toRadians lat2 in
  let dphi := toRadians (lat2 - lat1) in
  let dlambda := toRadians (lon2 - lon1) in
  let a := sin (dphi / 2) ^ 2 + cos phi1 * cos phi2 * sin (dlambda / 2) ^ 2 in
  let c := 2 * Math_atan2 (sqrt a) (sqrt (1 - a)) in
  earthR * c.

Record coord : Type := mkCoord { latitude : R; longitude : R }.

(** app.tsx, lines 998-1011 and, word for word, lines 1805-1818. *)
Definition calculateDistance (coord1 coord2 : coord) : R :=
  let lat1 := latitude coord1 in
  let lon1 := longitude coord1 in
  let lat2 := latitude coord2 in
  let lon2 := longitude coord2 in
  let earthR := 6371000 in
  let phi1 := lat1 * PI / 180 in
  let phi2 := lat2 * PI / 180 in
  let dphi := (lat2 - lat1) * PI / 180 in
  let dlambda := (lon2 - lon1) * PI / 180 in
  let a := sin (dphi / 2) ^ 2 + cos phi1 * cos phi2 * sin (dlambda / 2) ^ 2 in
  let c := 2 * Math_atan2 (sqrt a) (sqrt (1 - a)) in
  earthR * c.

End Geo.

(** ** The host: sensors, timers, notifications, [Math] *)

Module Host.

(** An accelerometer or gyroscope sample [{x, y, z}]. *)
Record vec3 : Type := mkVec3 { vx : float; vy : float; vz : float }.

(** [position.coords] of a location fix; the optional fields are [None]
    when the provider leaves them [null] or [undefined]. *)
Record Coords : Type := mkCoords {
  c_latitude : R;
  c_longitude : R;
  c_accuracy : option R;
  c_speed : option R;
  c_heading : option R }.

(** What the screens hand to the notification sink. *)
Inductive Intensity : Type :=
| Label (text : string)
| Fixed2 (value : float).          (* [value.toFixed(2)] *)

Inductive Notification : Type :=
| Toast (cause : string) (intensity : Intensity)   (* showToastNotification *)
| AssistanceToast                                   (* showAssistanceAlertToast *)
| Speak (text : string).                            (* Tts.speak *)

(** Truthiness of a JavaScript number-or-null. *)
Definition truthyZ (o : option Z) : bool :=
  match o with Some t => negb (t =? 0)%Z | None => false end.

Definition truthyR (o : option R) : bool :=
  match o with Some r => if Req_dec_T r 0 then false else true | None => false end.

(** [ToNumber] of a number-or-null: [null] is [0]. *)
Definition numZ (o : option Z) : Z := match o with Some t => t | None => 0%Z end.
Definition numR (o : option R) : R := match o with Some r => r | None => 0%R end.

(** *** Timers ([setTimeout] / [clearTimeout])

    The queue is kept ordered by due time; timers with the same due time
    fire in the order they were set. *)
Section Timers.
Context {A : Type}.

Record Timer : Type := mkTimer { tid : positive; due : Z; act : A }.

Fixpoint insert_timer (t : Timer) (q : list Timer) : list Timer :=
  match q with
  | [] => [t]
  | u :: q' => if (due t <? due u)%Z then t :: u :: q'
               else u :: insert_timer t q'
  end.

Definition clear_timer (id : positive) (q : list Timer) : list Timer :=
  filter (fun t => negb (Pos.eqb (tid t) id)) q.

Fixpoint due_timers (now : Z) (q : list Timer) : list Timer :=
  match q with
  | [] => []
  | t :: q' => if (due t <=? now)%Z then t :: due_timers now q' else []
  end.

Fixpoint pending_timers (now : Z) (q : list Timer) : list Timer :=
  match q with
  | [] => []
  | t :: q' => if (due t <=? now)%Z then pending_timers now q' else q
  end.

(** The queue is ordered by due time. *)
Fixpoint sorted_queue (q : list Timer) : Prop :=
  match q with
  | [] => True
  | t :: q' => Forall (fun u => (due t <= due u)%Z) q' /\ sorted_queue q'
  end.

End Timers.
Arguments Timer A : clear implicits.

(** *** [Math] on binary64 numbers *)

Definition Math_PI : float := 0x1.921fb54442d18p+1%float.
Definition Math_abs (x : float) : float := PrimFloat.abs x.
Definition Math_sqrt (x : float) : float := PrimFloat.sqrt x.

Definition Math_max (a b : float) : float :=
  if (is_nan a || is_nan b)%bool then nan
  else if (a <? b)%float then b else a.

(** What the handlers take from the host, as a parameter.

    [Math.acos] is a host function: ECMAScript fixes its value only at
    the exceptional arguments recorded below and calls the rest
    "implementation-approximated".

    [batchedUpdates] says how the React root applies the state updates a
    sensor or timer callback requests.  A root that batches them (React
    18's [createRoot]) runs an updater function [prev => ...] in the
    render that follows the callback, after the callback has returned; a
    legacy root runs it before [setState] returns.  The difference shows
    where an updater reads a ref that the callback writes afterwards
    (finalizeStop). *)
Record MathHost : Type := mkMathHost {
  Math_acos : float -> float;
  batchedUpdates : bool;
  acos_nan : Math_acos nan = nan;
  acos_above : forall x, (1 <? x)%float = true -> Math_acos x = nan;
  acos_below : forall x, (x <? -1)%float = true -> Math_acos x = nan }.

(** Two reference hosts, to run the handlers on concrete samples: arc
    cosine by [acos x = 2 atan (sqrt (1 - x) / sqrt (1 + x))], the arc
    tangent by two angle halvings and its Taylor series; [refMath] batches
    state updates, [refLegacy] does not. *)
Section ReferenceHost.
Local Open Scope float_scope.

Fixpoint atan_terms (n : nat) (t2 pow k acc : float) : float :=
  match n with
  | O => acc
  | S n' => atan_terms n' t2 (- (pow * t2)) (k + 2) (acc + pow / k)
  end.

Definition atan_halve (t : float) : float := t / (1 + PrimFloat.sqrt (1 + t * t)).

Definition atan_unit (t : float) : float :=
  let u := atan_halve (atan_halve t) in
  4 * atan_terms 16 (u * u) u 1 0.

Definition atan_nonneg (t : float) : float :=
  if 1 <? t then Math_PI / 2 - atan_unit (1 / t) else atan_unit t.

Definition acos_ref (x : float) : float :=
  if (is_nan x || (1 <? x) || (x <? -1))%bool then nan
  else 2 * atan_nonneg (PrimFloat.sqrt (1 - x) / PrimFloat.sqrt (1 + x)).

Definition refHost (batched : bool) : MathHost.
Proof.
  refine (mkMathHost acos_ref batched eq_refl _ _);
    intros x H; unfold acos_ref; rewrite H, ?orb_true_r; reflexivity.
Defined.

Definition refMath : MathHost := refHost true.
Definition refLegacy : MathHost := refHost false.

End ReferenceHost.

End Host.

(** ** Screen "tracking_without_API_2" (app.tsx, lines 222-1375) *)

Module TrackingWithoutAPI2.
Import Geo Host.

(** Constants, lines 257-278. *)
Definition NOISE_THRESHOLD : R := 3.
Definition STILLNESS_DURATION : Z := 15000.
Definition STANDING_STILL_THRESHOLD : float := 0.05%float.
Definition noiseFloorGyro : float := 0.1%float.
Definition MINOR_JERK_THRESHOLD : float := 2.5%float.
Definition MAJOR_JERK_THRESHOLD : float := 5.0%float.
Definition bumpThreshold : float := 0.5%float.
Definition bumpMajorThreshold : float := 1.2%float.

(** The integer counters kept with [useState], lines 567-582. *)
Inductive Counter : Type :=
| minorJerkCount | majorJerkCount | sharpLeftCount | sharpRightCount
| bumpMajorCount | bumpMinorCount | stopCount | overSpeedCount
| fallCount | crashCount | backwardCount | inclineCount.

Definition Counter_eqb (a b : Counter) : bool :=
  match a, b with
  | minorJerkCount, minorJerkCount | majorJerkCount, majorJerkCount
  | sharpLeftCount, sharpLeftCount | sharpRightCount, sharpRightCount
  | bumpMajorCount, bumpMajorCount | bumpMinorCount, bumpMinorCount
  | stopCount, stopCount | overSpeedCount, overSpeedCount
  | fallCount, fallCount | crashCount, crashCount
  | backwardCount, backwardCount | inclineCount, inclineCount => true
  | _, _ => false
  end.

(** An entry of [stops]: [{start, end, duration}]. *)
Record Stop : Type := mkStop { start : option Z; end_ : Z; duration : Z }.

(** Journey aggregates (React state). *)
Record Journey : Type := mkJourney {
  counts : Counter -> nat;
  totalStopTime : Z;
  stops : list Stop;
  isFallen : bool;
  rating : nat }.

(** Location refs and the state the location callback sets, lines 553-600. *)
Record LocationRefs : Type := mkLocationRefs {
  lastLocation : option coord;
  lastLocationTimeRef : option Z;
  speedReadings : list R;
  filteredLocation : option coord;
  pLat : option R;
  pLon : option R;
  cumulativeDistance : R;
  speed : R;
  location : option (coord * Z);
  heading : option R }.

(** Detector refs, lines 585-604. *)
Record DetectorRefs : Type := mkDetectorRefs {
  lastAccelRef : option vec3;
  currentStopStartRef : option Z;
  stillAlertTimeoutRef : option positive;
  baselineZRef : option float;
  crashCooldownInternalRef : bool;
  baselineFallRef : option vec3;
  fallDetectionStartRef : option Z }.

(** Session state and refs ([duration_s] is the state [duration], in
    seconds).  [heading] is kept with the location refs; [forwardHeading]
    and [previousSpeedRef], which only the commented-out backward hook and
    the over-speed effect read, are left out. *)
Record Session : Type := mkSession {
  tracking : bool;
  paused : bool;
  pausedRef : bool;
  showResults : bool;
  resultShownRef : bool;
  startTime : option Z;
  distanceTraveled : R;
  averageSpeed : R;
  duration_s : R;
  locationSubscription : option Z }.

(** What a timer does when it fires: the closure at lines 688-690, and
    the closures at lines 443-445 and 805-807. *)
Inductive TimerAction : Type :=
| StillAlert
| CooldownOff.

(** The host side: pending timers, active location watches, and the
    notifications emitted so far (oldest first). *)
Record Env : Type := mkEnv {
  timers : list (Timer TimerAction);
  nextTimer : positive;
  watches : list Z;
  nextWatch : Z;
  notifications : list Notification }.

Record App : Type := mkApp {
  journey : Journey;
  loc : LocationRefs;
  det : DetectorRefs;
  session : Session;
  env : Env }.

Definition with_journey (j : Journey) (s : App) : App :=
  mkApp j (loc s) (det s) (session s) (env s).
Definition with_loc (l : LocationRefs) (s : App) : App :=
  mkApp (journey s) l (det s) (session s) (env s).
Definition with_det (d : DetectorRefs) (s : App) : App :=
  mkApp (journey s) (loc s) d (session s) (env s).
Definition with_session (x : Session) (s : App) : App :=
  mkApp (journey s) (loc s) (det s) x (env s).
Definition with_env (e : Env) (s : App) : App :=
  mkApp (journey s) (loc s) (det s) (session s) e.

(** [setX(prev => prev + 1)]. *)
Definition incr (c : Counter) (s : App) : App :=
  let j := journey s in
  with_journey
    (mkJourney (fun k => if Counter_eqb k c then S (counts j k) else counts j k)
               (totalStopTime j) (stops j) (isFallen j) (rating j)) s.

Definition setIsFallen (b : bool) (s : App) : App :=
  let j := journey s in
  with_journey (mkJourney (counts j) (totalStopTime j) (stops j) b (rating j)) s.

Definition notify (n : Notification) (s : App) : App :=
  let e := env s in
  with_env (mkEnv (timers e) (nextTimer e) (watches e) (nextWatch e)
                  (notifications e ++ [n])) s.

Definition showToastNotification (cause : string) (i : Intensity) : App -> App :=
  notify (Toast cause i).

(** [setTimeout(action, delay)] at time [now]; the result is the timer id. *)
Definition setTimeout (now : Z) (a : TimerAction) (delay : Z) (s : App)
  : positive * App :=
  let e := env s in
  (nextTimer e,
   with_env (mkEnv (insert_timer (mkTimer (nextTimer e) (now + delay) a) (timers e))
                   (Pos.succ (nextTimer e)) (watches e) (nextWatch e)
                   (notifications e)) s).

Definition clearTimeout (id : positive) (s : App) : App :=
  let e := env s in
  with_env (mkEnv (clear_timer id (timers e)) (nextTimer e) (watches e)
                  (nextWatch e) (notifications e)) s.

Definition set_cooldown (b : bool) (s : App) : App :=
  let d := det s in
  with_det (mkDetectorRefs (lastAccelRef d) (currentStopStartRef d)
              (stillAlertTimeoutRef d) (baselineZRef d) b
              (baselineFallRef d) (fallDetectionStartRef d)) s.

Definition set_stillAlertTimeoutRef (o : option positive) (s : App) : App :=
  let d := det s in
  with_det (mkDetectorRefs (lastAccelRef d) (currentStopStartRef d) o
              (baselineZRef d) (crashCooldownInternalRef d)
              (baselineFallRef d) (fallDetectionStartRef d)) s.

Definition set_currentStopStartRef (o : option Z) (s : App) : App :=
  let d := det s in
  with_det (mkDetectorRefs (lastAccelRef d) o (stillAlertTimeoutRef d)
              (baselineZRef d) (crashCooldownInternalRef d)
              (baselineFallRef d) (fallDetectionStartRef d)) s.

Definition set_lastAccelRef (o : option vec3) (s : App) : App :=
  let d := det s in
  with_det (mkDetectorRefs o (currentStopStartRef d) (stillAlertTimeoutRef d)
              (baselineZRef d) (crashCooldownInternalRef d)
              (baselineFallRef d) (fallDetectionStartRef d)) s.

Definition set_baselineZRef (o : option float) (s : App) : App :=
  let d := det s in
  with_det (mkDetectorRefs (lastAccelRef d) (currentStopStartRef d)
              (stillAlertTimeoutRef d) o (crashCooldownInternalRef d)
              (baselineFallRef d) (fallDetectionStartRef d)) s.

Definition set_baselineFallRef (o : option vec3) (s : App) : App :=
  let d := det s in
  with_det (mkDetectorRefs (lastAccelRef d) (currentStopStartRef d)
              (stillAlertTimeoutRef d) (baselineZRef d)
              (crashCooldownInternalRef d) o (fallDetectionStartRef d)) s.

Definition set_fallDetectionStartRef (o : option Z) (s : App) : App :=
  let d := det s in
  with_det (mkDetectorRefs (lastAccelRef d) (currentStopStartRef d)
              (stillAlertTimeoutRef d) (baselineZRef d)
              (crashCooldownInternalRef d) (baselineFallRef d) o) s.

(** A timer fires. *)
Definition fire (a : TimerAction) (s : App) : App :=
  match a with
  | StillAlert => notify AssistanceToast s
  | CooldownOff => set_cooldown false s
  end.

(** The event loop runs the timers that are due before it delivers an
    event stamped [now]. *)
Definition run_timers (now : Z) (s : App) : App :=
  let e := env s in
  fold_left (fun s t => fire (act t) s) (due_timers now (timers e))
    (with_env (mkEnv (pending_timers now (timers e)) (nextTimer e) (watches e)
                     (nextWatch e) (notifications e)) s).

(** handleBumpEvent, lines 429-446. *)
Definition handleBumpEvent (now : Z) (adjustedZ : float) (s : App) : App :=
  let s :=
    if (bumpMajorThreshold <=? Math_abs adjustedZ)%float
    then showToastNotification "Bump" (Label "Major") (incr bumpMajorCount s)
    else showToastNotification "Bump" (Label "Minor") (incr bumpMinorCount s) in
  let s := set_cooldown true s in
  snd (setTimeout now CooldownOff 1000 s).

(** finalizeStop, lines 621-640.  The entry is built by the updater
    passed to [setStops] (lines 629-636): [duration] is the constant
    computed at line 626, but [start] is [currentStopStartRef.current]
    as the updater finds it when it runs.  Under batched updates that is
    after line 639 has set the ref to [null]; under a legacy root it is
    before. *)
Definition finalizeStop (M : MathHost) (now : Z) (s : App) : App :=
  let s :=
    match stillAlertTimeoutRef (det s) with
    | Some id => set_stillAlertTimeoutRef None (clearTimeout id s)
    | None => s
    end in
  let stopDuration := (now - numZ (currentStopStartRef (det s)))%Z in
  let s :=
    if (STILLNESS_DURATION <=? stopDuration)%Z then
      let s := incr stopCount s in
      let j := journey s in
      let start :=
        if batchedUpdates M then None else currentStopStartRef (det s) in
      with_journey
        (mkJourney (counts j) (totalStopTime j + stopDuration)%Z
           (stops j ++ [mkStop start now stopDuration])
           (isFallen j) (rating j)) s
    else s in
  set_currentStopStartRef None s.

(** Stillness detection, lines 677-696. *)
Definition stillness (M : MathHost) (now : Z) (a : vec3) (s : App) : App :=
  match lastAccelRef (det s) with
  | Some l =>
      let deltaX := Math_abs (vx a - vx l)%float in
      let deltaY := Math_abs (vy a - vy l)%float in
      let deltaZ := Math_abs (vz a - vz l)%float in
      if ((deltaX <? STANDING_STILL_THRESHOLD)%float
          && (deltaY <? STANDING_STILL_THRESHOLD)%float
          && (deltaZ <? STANDING_STILL_THRESHOLD)%float)%bool
      then
        if negb (truthyZ (currentStopStartRef (det s))) then
          let s := set_currentStopStartRef (Some now) s in
          let '(id, s) := setTimeout now StillAlert STILLNESS_DURATION s in
          set_stillAlertTimeoutRef (Some id) s
        else s
      else if truthyZ (currentStopStartRef (det s)) then finalizeStop M now s
           else s
  | None => s
  end.

(** Vertical bump detection, lines 698-716. *)
Definition adaptBaselineZ (o : option float) (z : float) : float :=
  match o with
  | None => z
  | Some b => if (Math_abs (z - b) <? 0.2)%float
              then (b * 0.95 + z * 0.05)%float else b
  end.

Definition bumpDetection (now : Z) (a : vec3) (s : App) : App :=
  if (negb (isFallen (journey s))
      && negb (crashCooldownInternalRef (det s)))%bool
  then
    let b := adaptBaselineZ (baselineZRef (det s)) (vz a) in
    let s := set_baselineZRef (Some b) s in
    let adjustedZ := (vz a - b)%float in
    if (bumpThreshold <? Math_abs adjustedZ)%float
    then handleBumpEvent now adjustedZ s
    else s
  else s.

(** Fall detection against the gravity baseline, lines 718-754.  The
    squares [v ** 2] of line 728 are written as products. *)
Definition FALL_ANGLE_THRESHOLD : float := 45%float.
Definition FALL_DETECTION_DURATION : Z := 500.

Definition fallAngle (M : MathHost) (a b : vec3) : float :=
  let dot := (vx a * vx b + vy a * vy b + vz a * vz b)%float in
  let magCurrent := Math_sqrt (vx a * vx a + vy a * vy a + vz a * vz a)%float in
  let magBaseline := Math_sqrt (vx b * vx b + vy b * vy b + vz b * vz b)%float in
  (Math_acos M (dot / (magCurrent * magBaseline)) * (180 / Math_PI))%float.

Definition fallDetection (M : MathHost) (now : Z) (a : vec3) (s : App) : App :=
  let s :=
    match baselineFallRef (det s) with
    | None => set_baselineFallRef (Some a) s
    | Some _ => s
    end in
  let b := match baselineFallRef (det s) with Some b => b | None => a end in
  let angle := fallAngle M a b in
  if negb (isFallen (journey s)) then
    if (FALL_ANGLE_THRESHOLD <? angle)%float then
      match fallDetectionStartRef (det s) with
      | None => set_fallDetectionStartRef (Some now) s
      | Some t0 =>
          if (FALL_DETECTION_DURATION <=? now - t0)%Z then
            let s := showToastNotification "Fall" (Fixed2 angle) s in
            let s := incr fallCount s in
            let s := setIsFallen true s in
            set_fallDetectionStartRef None s
          else s
      end
    else set_fallDetectionStartRef None s
  else if (angle <? FALL_ANGLE_THRESHOLD)%float then setIsFallen false s
       else s.

(** The accelerometer subscriber, lines 673-756. *)
Definition accelerometer_callback (M : MathHost) (now : Z) (a : vec3) (s : App)
  : App :=
  if resultShownRef (session s) then s
  else if negb (pausedRef (session s)) then
    let s := stillness M now a s in
    let s := set_lastAccelRef (Some a) s in
    let s := bumpDetection now a s in
    fallDetection M now a s
  else s.

(** The gyroscope subscriber, lines 770-808. *)
Definition gyroscope_callback (now : Z) (g : vec3) (s : App) : App :=
  if resultShownRef (session s) then s
  else if crashCooldownInternalRef (det s) then s
  else
    let absX := Math_abs (vx g) in
    let absZ := Math_abs (vz g) in
    if ((absX <? noiseFloorGyro)%float && (absZ <? noiseFloorGyro)%float)%bool
    then s
    else
      let maxVal := Math_max absX absZ in
      if (maxVal <? MINOR_JERK_THRESHOLD)%float then s
      else
        let major := (MAJOR_JERK_THRESHOLD <=? maxVal)%float in
        let left :=
          if (absZ <=? absX)%float then (0 <? vx g)%float
          else (0 <? vz g)%float in
        let direction :=
          if left then "Sharp Left Turn"%string else "Sharp Right Turn"%string in
        let s := if left then incr sharpLeftCount s else incr sharpRightCount s in
        let s := if major then incr majorJerkCount s else incr minorJerkCount s in
        let s := showToastNotification direction
                   (Label (if major then "Major" else "Minor")) s in
        let s := set_cooldown true s in
        snd (setTimeout now CooldownOff 1000 s).

(** The location watcher, lines 926-981. *)
Section Location.
Local Open Scope R_scope.

(** [accuracy && accuracy > 20], line 933. *)
Definition lowAccuracy (accuracy : option R) : bool :=
  (truthyR accuracy && Rltb 20 (numR accuracy))%bool.

(** Lines 934-944. *)
Definition computeSpeed (now : Z) (coords : Coords) (l : LocationRefs) : R :=
  if match c_speed coords with Some v => Rleb 0 v | None => false end
  then numR (c_speed coords)
  else
    match lastLocation l with
    | Some prev =>
        if truthyZ (lastLocationTimeRef l) then
          let dt := IZR (now - numZ (lastLocationTimeRef l)) / 1000 in
          let dist :=
            calculateDistance prev
              (mkCoord (c_latitude coords) (c_longitude coords)) in
          if Rltb 0 dt then dist / dt else 0
        else 0
    | None => 0
    end.

Definition watchPosition_callback (now : Z) (coords : Coords) (s : App) : App :=
  if resultShownRef (session s) then s
  else if negb (pausedRef (session s)) then
    let rawLat := c_latitude coords in
    let rawLon := c_longitude coords in
    if lowAccuracy (c_accuracy coords) then s
    else
      let l := loc s in
      let computedSpeed := computeSpeed now coords l in
      let heading' :=
        match c_heading coords with Some h => Some h | None => heading l end in
      match filteredLocation l with
      | None =>
          with_loc
            (mkLocationRefs (Some (mkCoord rawLat rawLon)) (Some now)
               (speedReadings l ++ [computedSpeed])
               (Some (mkCoord rawLat rawLon)) (Some 1) (Some 1)
               (cumulativeDistance l) computedSpeed
               (Some (mkCoord rawLat rawLon, now)) heading') s
      | Some f =>
          let R_ := 1 / 10000 in
          let Q_ := 1 / 10000 in
          let kalmanGainLat := numR (pLat l) / (numR (pLat l) + R_) in
          let newLat := latitude f + kalmanGainLat * (rawLat - latitude f) in
          let pLat' := (1 - kalmanGainLat) * numR (pLat l) + Q_ in
          let kalmanGainLon := numR (pLon l) / (numR (pLon l) + R_) in
          let newLon := longitude f + kalmanGainLon * (rawLon - longitude f) in
          let pLon' := (1 - kalmanGainLon) * numR (pLon l) + Q_ in
          let newFilteredLocation := mkCoord newLat newLon in
          let deltaDistance := calculateDistance f newFilteredLocation in
          let cumulative' :=
            if (Rltb NOISE_THRESHOLD deltaDistance
                || Rltb (2 / 10) computedSpeed)%bool
            then cumulativeDistance l + deltaDistance
            else cumulativeDistance l in
          with_loc
            (mkLocationRefs (Some (mkCoord rawLat rawLon)) (Some now)
               (speedReadings l ++ [computedSpeed])
               (Some newFilteredLocation) (Some pLat') (Some pLon')
               cumulative' computedSpeed
               (Some (mkCoord rawLat rawLon, now)) heading') s
      end
  else s.

(** beginTracking, lines 911-996, entered from the position callback of
    startTrackingFunc (lines 883-896), whose writes to [lastLocation] and
    [lastLocationTimeRef] beginTracking overwrites with [null]. *)
Definition beginTracking (now : Z) (coords : Coords) (s : App) : App :=
  let l := loc s in
  let d := det s in
  let x := session s in
  let e := env s in
  mkApp (journey s)
    (mkLocationRefs None None [] None None None 0 (speed l) (location l)
       (match c_heading coords with Some h => Some h | None => heading l end))
    (mkDetectorRefs (lastAccelRef d) (currentStopStartRef d)
       (stillAlertTimeoutRef d) None (crashCooldownInternalRef d) None
       (fallDetectionStartRef d))
    (mkSession true false false (showResults x) (resultShownRef x) (Some now)
       0 (averageSpeed x) (duration_s x) (Some (nextWatch e)))
    (mkEnv (timers e) (nextTimer e) (nextWatch e :: watches e)
       (nextWatch e + 1)%Z (notifications e)).

(** [Geolocation.clearWatch]. *)
Definition clearWatch (id : Z) (s : App) : App :=
  let e := env s in
  with_env (mkEnv (timers e) (nextTimer e)
              (filter (fun w => negb (w =? id)%Z) (watches e))
              (nextWatch e) (notifications e)) s.

Definition mean (readings : list R) : R :=
  match readings with
  | [] => 0
  | _ => fold_left Rplus readings 0 / INR (List.length readings)
  end.

(** stopTracking, lines 1016-1035, followed by the effects of the render
    it causes (line 615: [resultShownRef] follows [showResults]). *)
Definition stopTracking (now : Z) (s : App) : App :=
  let s :=
    match locationSubscription (session s) with
    | Some id =>
        if (id =? 0)%Z then s
        else
          let x := session s in
          with_session
            (mkSession (tracking x) (paused x) (pausedRef x) (showResults x)
               (resultShownRef x) (startTime x) (distanceTraveled x)
               (averageSpeed x) (duration_s x) None)
            (clearWatch id s)
    | None => s
    end in
  let s :=
    match stillAlertTimeoutRef (det s) with
    | Some id => set_stillAlertTimeoutRef None (clearTimeout id s)
    | None => s
    end in
  let avgSpeed := mean (speedReadings (loc s)) in
  let journeyDuration :=
    if truthyZ (startTime (session s))
    then IZR (now - numZ (startTime (session s))) / 1000 else 0 in
  let x := session s in
  with_session
    (mkSession false (paused x) (pausedRef x) true true (startTime x)
       (distanceTraveled x) avgSpeed journeyDuration (locationSubscription x)) s.

(** The Pause / Resume button, line 1151, and the effect of lines 608-610. *)
Definition togglePause (s : App) : App :=
  let x := session s in
  with_session
    (mkSession (tracking x) (negb (paused x)) (negb (paused x)) (showResults x)
       (resultShownRef x) (startTime x) (distanceTraveled x) (averageSpeed x)
       (duration_s x) (locationSubscription x)) s.

(** The Back button of the summary: the new-journey reset, lines 1240-1266. *)
Definition resetForNewJourney (s : App) : App :=
  let l := loc s in
  let x := session s in
  mkApp
    (mkJourney
       (fun _ => O)
       0%Z [] false O)
    (mkLocationRefs (lastLocation l) (lastLocationTimeRef l) (speedReadings l)
       (filteredLocation l) (pLat l) (pLon l) 0 0 (location l) None)
    (det s)
    (mkSession (tracking x) (paused x) (pausedRef x) false false (startTime x)
       0 0 0 (locationSubscription x))
    (env s).

(** The one-second interval of lines 659-664. *)
Definition tick (s : App) : App :=
  let x := session s in
  with_session
    (mkSession (tracking x) (paused x) (pausedRef x) (showResults x)
       (resultShownRef x) (startTime x) (cumulativeDistance (loc s))
       (averageSpeed x) (duration_s x) (locationSubscription x)) s.

End Location.

(** *** The event loop

    One event at a time: the due timers first, then the event.  Sensor
    samples reach a subscriber only while its subscription exists (the
    effects of lines 669-761 and 766-813 subscribe while
    [tracking && !paused]; a location fix is delivered once per active
    watch), and the buttons Stop Journey, Pause and Back only while they
    are on screen (lines 1135-1160 and 1160-1268).

    [Start] is the success callback of [getCurrentPosition] (lines
    883-896), which calls beginTracking.  It comes seconds after the
    press of the Start button that led to it: the countdown of
    handleStartButton runs first (lines 1050-1063, module [Countdown]
    below).  Neither handleStartButton, nor startTrackingFunc, nor
    beginTracking tests the state of the screen, and the button stays on
    screen during a countdown, so a second press leads to a second call
    of beginTracking, which may find a journey under way, or stopped with
    its summary on screen. *)
Inductive Event : Type :=
| Accelerometer (a : vec3)
| Gyroscope (g : vec3)
| LocationFix (coords : Coords)
| Start (coords : Coords)
| StopJourney
| PauseResume
| Back
| Tick.

Definition dispatch (M : MathHost) (now : Z) (ev : Event) (s : App) : App :=
  match ev with
  | Accelerometer a =>
      if (tracking (session s) && negb (paused (session s)))%bool
      then accelerometer_callback M now a s else s
  | Gyroscope g =>
      if (tracking (session s) && negb (paused (session s)))%bool
      then gyroscope_callback now g s else s
  | LocationFix coords =>
      fold_left (fun s _ => watchPosition_callback now coords s)
        (watches (env s)) s
  | Start coords => beginTracking now coords s
  | StopJourney => if tracking (session s) then stopTracking now s else s
  | PauseResume => if tracking (session s) then togglePause s else s
  | Back => if showResults (session s) then resetForNewJourney s else s
  | Tick => tick s
  end.

Definition step (M : MathHost) (s : App) (tev : Z * Event) : App :=
  dispatch M (fst tev) (snd tev) (run_timers (fst tev) s).

Definition run (M : MathHost) (trace : list (Z * Event)) (s : App) : App :=
  fold_left (step M) trace s.

(** The state at mount: the [useState] and [useRef] initial values. *)
Definition initial (firstWatch : Z) : App :=
  mkApp
    (mkJourney (fun _ => O) 0%Z [] false O)
    (mkLocationRefs None None [] None None None 0%R 0%R None None)
    (mkDetectorRefs None None None None false None None)
    (mkSession false false false false false None 0%R 0%R 0%R None)
    (mkEnv [] 1%positive [] firstWatch []).

End TrackingWithoutAPI2.

(** ** Screen "stop implemention" (app.tsx, lines 1378-2190) *)

Module StopImplementation.
Import Geo Host.

(** Constants, lines 1405-1418. *)
Definition LPF_ALPHA : R := 95 / 100.
Definition NOISE_THRESHOLD : R := 1.
Definition ACCURACY_THRESHOLD : R := 20.
Definition STILLNESS_DURATION : Z := 15000.
Definition STANDING_STILL_THRESHOLD : float := 0.05%float.

(** [Platform.OS]. *)
Inductive OS : Type := ios | android.

Inductive Counter : Type :=
| minorJerkCount | majorJerkCount | sharpLeftCount | sharpRightCount
| bumpCount | fallCount | stopCount.

Definition Counter_eqb (a b : Counter) : bool :=
  match a, b with
  | minorJerkCount, minorJerkCount | majorJerkCount, majorJerkCount
  | sharpLeftCount, sharpLeftCount | sharpRightCount, sharpRightCount
  | bumpCount, bumpCount | fallCount, fallCount | stopCount, stopCount => true
  | _, _ => false
  end.

Record Stop : Type := mkStop { start : option Z; end_ : Z; duration : Z }.

Record Journey : Type := mkJourney {
  counts : Counter -> nat;
  totalStopTime : Z;
  stops : list Stop;
  assistanceAlertVisible : bool;
  rating : nat }.

Record LocationRefs : Type := mkLocationRefs {
  lastLocation : option coord;
  lastLocationTimeRef : option Z;
  speedReadings : list R;
  filteredLocation : option coord;
  cumulativeDistance : R;
  speed : R;
  location : option coord }.

Record DetectorRefs : Type := mkDetectorRefs {
  lastAccelRef : option vec3;
  currentStopStartRef : option Z;
  stillAlertTimeoutRef : option positive }.

(** [accelSeesAlertVisible] is the value of [assistanceAlertVisible] in the
    render whose effect (lines 1628-1670, dependencies [tracking] and
    [paused]) created the current accelerometer subscriber: the
    [finalizeStop] it calls reads that value. *)
Record Session : Type := mkSession {
  tracking : bool;
  paused : bool;
  showResults : bool;
  startTime : option Z;
  distanceTraveled : R;
  averageSpeed : R;
  duration_s : R;
  locationSubscription : option Z;
  accelSeesAlertVisible : bool }.

(** The closure of lines 1649-1652. *)
Inductive TimerAction : Type := HelpPrompt.

(** An active location watch is its id and the value of [paused] its
    callback closed over: the callback is created inside [beginTracking]
    (line 1728) and reads the [paused] of the render that [beginTracking]
    belongs to. *)
Record Env : Type := mkEnv {
  timers : list (Timer TimerAction);
  nextTimer : positive;
  watches : list (Z * bool);
  nextWatch : Z;
  notifications : list Notification }.

Record App : Type := mkApp {
  journey : Journey;
  loc : LocationRefs;
  det : DetectorRefs;
  session : Session;
  env : Env }.

Definition with_journey (j : Journey) (s : App) : App :=
  mkApp j (loc s) (det s) (session s) (env s).
Definition with_loc (l : LocationRefs) (s : App) : App :=
  mkApp (journey s) l (det s) (session s) (env s).
Definition with_det (d : DetectorRefs) (s : App) : App :=
  mkApp (journey s) (loc s) d (session s) (env s).
Definition with_session (x : Session) (s : App) : App :=
  mkApp (journey s) (loc s) (det s) x (env s).
Definition with_env (e : Env) (s : App) : App :=
  mkApp (journey s) (loc s) (det s) (session s) e.

Definition incr (c : Counter) (s : App) : App :=
  let j := journey s in
  with_journey
    (mkJourney (fun k => if Counter_eqb k c then S (counts j k) else counts j k)
               (totalStopTime j) (stops j) (assistanceAlertVisible j) (rating j)) s.

Definition setAssistanceAlertVisible (b : bool) (s : App) : App :=
  let j := journey s in
  with_journey (mkJourney (counts j) (totalStopTime j) (stops j) b (rating j)) s.

Definition notify (n : Notification) (s : App) : App :=
  let e := env s in
  with_env (mkEnv (timers e) (nextTimer e) (watches e) (nextWatch e)
                  (notifications e ++ [n])) s.

Definition setTimeout (now : Z) (a : TimerAction) (delay : Z) (s : App)
  : positive * App :=
  let e := env s in
  (nextTimer e,
   with_env (mkEnv (insert_timer (mkTimer (nextTimer e) (now + delay) a) (timers e))
                   (Pos.succ (nextTimer e)) (watches e) (nextWatch e)
                   (notifications e)) s).

Definition clearTimeout (id : positive) (s : App) : App :=
  let e := env s in
  with_env (mkEnv (clear_timer id (timers e)) (nextTimer e) (watches e)
                  (nextWatch e) (notifications e)) s.

Definition fire (a : TimerAction) (s : App) : App :=
  match a with
  | HelpPrompt => setAssistanceAlertVisible true (notify (Speak "Do you need help?") s)
  end.

Definition run_timers (now : Z) (s : App) : App :=
  let e := env s in
  fold_left (fun s t => fire (act t) s) (due_timers now (timers e))
    (with_env (mkEnv (pending_timers now (timers e)) (nextTimer e) (watches e)
                     (nextWatch e) (notifications e)) s).

(** finalizeStop, lines 1571-1594; for [start], see the first screen. *)
Definition finalizeStop (M : MathHost) (now : Z) (s : App) : App :=
  let s :=
    match stillAlertTimeoutRef (det s) with
    | Some id =>
        with_det (mkDetectorRefs (lastAccelRef (det s))
                    (currentStopStartRef (det s)) None) (clearTimeout id s)
    | None => s
    end in
  let stopDuration := (now - numZ (currentStopStartRef (det s)))%Z in
  let s :=
    if (STILLNESS_DURATION <=? stopDuration)%Z then
      let s := incr stopCount s in
      let j := journey s in
      let start :=
        if batchedUpdates M then None else currentStopStartRef (det s) in
      with_journey
        (mkJourney (counts j) (totalStopTime j + stopDuration)%Z
           (stops j ++ [mkStop start now stopDuration])
           (assistanceAlertVisible j) (rating j)) s
    else s in
  let s :=
    with_det (mkDetectorRefs (lastAccelRef (det s)) None
                (stillAlertTimeoutRef (det s))) s in
  if accelSeesAlertVisible (session s) then setAssistanceAlertVisible false s
  else s.

(** The accelerometer subscriber, lines 1632-1663. *)
Definition accelerometer_callback (M : MathHost) (now : Z) (a : vec3) (s : App)
  : App :=
  let s :=
    match lastAccelRef (det s) with
    | Some l =>
        let deltaX := Math_abs (vx a - vx l)%float in
        let deltaY := Math_abs (vy a - vy l)%float in
        let deltaZ := Math_abs (vz a - vz l)%float in
        if ((deltaX <? STANDING_STILL_THRESHOLD)%float
            && (deltaY <? STANDING_STILL_THRESHOLD)%float
            && (deltaZ <? STANDING_STILL_THRESHOLD)%float)%bool
        then
          if negb (truthyZ (currentStopStartRef (det s))) then
            let s :=
              with_det (mkDetectorRefs (lastAccelRef (det s)) (Some now)
                          (stillAlertTimeoutRef (det s))) s in
            let '(id, s) := setTimeout now HelpPrompt STILLNESS_DURATION s in
            with_det (mkDetectorRefs (lastAccelRef (det s))
                        (currentStopStartRef (det s)) (Some id)) s
          else s
        else if truthyZ (currentStopStartRef (det s)) then finalizeStop M now s
             else s
    | None => s
    end in
  with_det (mkDetectorRefs (Some a) (currentStopStartRef (det s))
              (stillAlertTimeoutRef (det s))) s.

Section Location.
Local Open Scope R_scope.

(** [accuracy && accuracy > ACCURACY_THRESHOLD], line 1734. *)
Definition lowAccuracy (accuracy : option R) : bool :=
  (truthyR accuracy && Rltb ACCURACY_THRESHOLD (numR accuracy))%bool.

(** Lines 1739-1753. *)
Definition computeSpeed (platform : OS) (now : Z) (coords : Coords)
  (l : LocationRefs) : R :=
  if (match platform with ios => true | android => false end
      && match c_speed coords with Some v => Rleb 0 v | None => false end)%bool
  then numR (c_speed coords)
  else
    match lastLocation l with
    | Some prev =>
        if truthyZ (lastLocationTimeRef l) then
          let dt := IZR (now - numZ (lastLocationTimeRef l)) / 1000 in
          let dist :=
            calculateDistance prev
              (mkCoord (c_latitude coords) (c_longitude coords)) in
          if Rltb 0 dt then dist / dt else 0
        else 0
    | None => 0
    end.

(** The location watcher, lines 1728-1785; [closurePaused] is the [paused]
    its closure holds. *)
Definition watchPosition_callback (platform : OS) (closurePaused : bool)
  (now : Z) (coords : Coords) (s : App) : App :=
  if negb closurePaused then
    let rawLat := c_latitude coords in
    let rawLon := c_longitude coords in
    if lowAccuracy (c_accuracy coords) then s
    else
      let l := loc s in
      let computedSpeed := computeSpeed platform now coords l in
      match filteredLocation l with
      | None =>
          with_loc
            (mkLocationRefs (lastLocation l) (Some now)
               (speedReadings l ++ [computedSpeed])
               (Some (mkCoord rawLat rawLon))
               (cumulativeDistance l) computedSpeed
               (Some (mkCoord rawLat rawLon))) s
      | Some f =>
          let newFilteredLat := LPF_ALPHA * rawLat + (1 - LPF_ALPHA) * latitude f in
          let newFilteredLon := LPF_ALPHA * rawLon + (1 - LPF_ALPHA) * longitude f in
          let newFilteredLocation := mkCoord newFilteredLat newFilteredLon in
          let deltaDistance := calculateDistance f newFilteredLocation in
          let cumulative' :=
            if (Rltb NOISE_THRESHOLD deltaDistance
                || Rltb (2 / 10) computedSpeed)%bool
            then cumulativeDistance l + deltaDistance
            else cumulativeDistance l in
          with_loc
            (mkLocationRefs (lastLocation l) (Some now)
               (speedReadings l ++ [computedSpeed])
               (Some newFilteredLocation)
               cumulative' computedSpeed
               (Some (mkCoord rawLat rawLon))) s
      end
  else s.

(** beginTracking, lines 1716-1800, after the [Tts.speak] of line 1699.
    The new watch closes over the [paused] that beginTracking itself
    closes over, [closurePaused]. *)
Definition beginTracking (closurePaused : bool) (now : Z) (s : App) : App :=
  let s := notify (Speak "Tracking started") s in
  let l := loc s in
  let x := session s in
  let e := env s in
  mkApp (journey s)
    (mkLocationRefs None None [] None 0 (speed l) (location l))
    (det s)
    (mkSession true false (showResults x) (Some now) 0 (averageSpeed x)
       (duration_s x) (Some (nextWatch e))
       (assistanceAlertVisible (journey s)))
    (mkEnv (timers e) (nextTimer e) ((nextWatch e, closurePaused) :: watches e)
       (nextWatch e + 1)%Z (notifications e)).

Definition clearWatch (id : Z) (s : App) : App :=
  let e := env s in
  with_env (mkEnv (timers e) (nextTimer e)
              (filter (fun w => negb (fst w =? id)%Z) (watches e))
              (nextWatch e) (notifications e)) s.

Definition mean (readings : list R) : R :=
  match readings with
  | [] => 0
  | _ => fold_left Rplus readings 0 / INR (List.length readings)
  end.

(** stopTracking, lines 1823-1840. *)
Definition stopTracking (now : Z) (s : App) : App :=
  let s :=
    match locationSubscription (session s) with
    | Some id =>
        if (id =? 0)%Z then s
        else
          let x := session s in
          with_session
            (mkSession (tracking x) (paused x) (showResults x) (startTime x)
               (distanceTraveled x) (averageSpeed x) (duration_s x) None
               (accelSeesAlertVisible x))
            (clearWatch id s)
    | None => s
    end in
  let avgSpeed := mean (speedReadings (loc s)) in
  let journeyDuration :=
    if truthyZ (startTime (session s))
    then IZR (now - numZ (startTime (session s))) / 1000 else 0 in
  let s := notify (Speak "Tracking stopped") s in
  let x := session s in
  with_session
    (mkSession false (paused x) true (startTime x) (distanceTraveled x)
       avgSpeed journeyDuration (locationSubscription x)
       (accelSeesAlertVisible x)) s.

(** The Pause / Resume button, line 1932; on Resume the effect of lines
    1628-1670 subscribes anew. *)
Definition togglePause (s : App) : App :=
  let x := session s in
  with_session
    (mkSession (tracking x) (negb (paused x)) (showResults x) (startTime x)
       (distanceTraveled x) (averageSpeed x) (duration_s x)
       (locationSubscription x)
       (if paused x then assistanceAlertVisible (journey s)
        else accelSeesAlertVisible x)) s.

(** The Back button of the summary, lines 2027-2044. *)
Definition resetForNewJourney (s : App) : App :=
  let l := loc s in
  let x := session s in
  mkApp
    (mkJourney (fun _ => O) 0%Z [] (assistanceAlertVisible (journey s)) O)
    (mkLocationRefs (lastLocation l) (lastLocationTimeRef l) (speedReadings l)
       (filteredLocation l) 0 0 (location l))
    (det s)
    (mkSession (tracking x) (paused x) false (startTime x) 0 0 0
       (locationSubscription x) (accelSeesAlertVisible x))
    (env s).

(** The Dismiss button of the assistance modal, line 1893. *)
Definition dismissAlert (s : App) : App := setAssistanceAlertVisible false s.

(** The one-second interval of lines 1618-1623. *)
Definition tick (s : App) : App :=
  let x := session s in
  with_session
    (mkSession (tracking x) (paused x) (showResults x) (startTime x)
       (cumulativeDistance (loc s)) (averageSpeed x) (duration_s x)
       (locationSubscription x) (accelSeesAlertVisible x)) s.

End Location.

(** *** The event loop (see [TrackingWithoutAPI2])

    [Start closurePaused] is the success callback of line 1698; as in the
    first screen, nothing between the button (lines 1855-1868) and
    beginTracking tests the state of the screen.  The handler of the
    button, startTrackingFunc and beginTracking are closures of the
    render in which the button was pressed: [closurePaused] is the
    [paused] of that render, which the callback of the new watch tests
    (line 1729). *)
Inductive Event : Type :=
| Accelerometer (a : vec3)
| LocationFix (coords : Coords)
| Start (closurePaused : bool)
| StopJourney
| PauseResume
| Back
| Dismiss
| Tick.

Definition dispatch (M : MathHost) (platform : OS) (now : Z) (ev : Event)
  (s : App) : App :=
  match ev with
  | Accelerometer a =>
      if (tracking (session s) && negb (paused (session s)))%bool
      then accelerometer_callback M now a s else s
  | LocationFix coords =>
      fold_left (fun s w => watchPosition_callback platform (snd w) now coords s)
        (watches (env s)) s
  | Start closurePaused => beginTracking closurePaused now s
  | StopJourney => if tracking (session s) then stopTracking now s else s
  | PauseResume => if tracking (session s) then togglePause s else s
  | Back => if showResults (session s) then resetForNewJourney s else s
  | Dismiss =>
      if assistanceAlertVisible (journey s) then dismissAlert s else s
  | Tick => tick s
  end.

Definition step (M : MathHost) (platform : OS) (s : App) (tev : Z * Event)
  : App :=
  dispatch M platform (fst tev) (snd tev) (run_timers (fst tev) s).

Definition run (M : MathHost) (platform : OS) (trace : list (Z * Event))
  (s : App) : App :=
  fold_left (step M platform) trace s.

Definition initial (firstWatch : Z) : App :=
  mkApp
    (mkJourney (fun _ => O) 0%Z [] false O)
    (mkLocationRefs None None [] None 0%R 0%R None)
    (mkDetectorRefs None None None)
    (mkSession false false false None 0%R 0%R 0%R None false)
    (mkEnv [] 1%positive [] firstWatch []).

End StopImplementation.

(** ** The location callback of the first screen on binary64 numbers
       (app.tsx, lines 911-981 and 998-1011)

    The callback of [TrackingWithoutAPI2] again, on the numbers JavaScript
    computes with: the sum [sin^2 + cos cos sin^2] of calculateDistance is
    rounded, and nothing in the source keeps it from exceeding 1. *)

Module Binary64.
Local Open Scope float_scope.

(** [Math.sin], [Math.cos], [Math.atan2] and the operator [**] are host
    functions: ECMAScript calls their values "implementation-approximated"
    and fixes them at exceptional arguments only.  The one law used below
    is that [Math.atan2] of a NaN argument is NaN.  [square x] is
    [x ** 2], the only use of [**] in the source. *)
Record TrigHost : Type := mkTrigHost {
  Math_sin : float -> float;
  Math_cos : float -> float;
  Math_atan2 : float -> float -> float;
  square : float -> float;
  atan2_nan_y : forall x, Math_atan2 nan x = nan;
  atan2_nan_x : forall y, Math_atan2 y nan = nan }.

(** A reference host, to run the callback on concrete fixes: sine and
    cosine by their Taylor polynomials on [-PI/4, PI/4] after reduction by
    multiples of [PI/2] (held as a sum of two numbers), the arc tangent of
    [Host.atan_nonneg], [x ** 2] as [x * x].  Meant for finite arguments. *)
Section ReferenceTrig.

Definition PIO2_HI : float := 0x1.921fb54442d18p+0.
Definition PIO2_LO : float := 0x1.1a62633145c07p-54.

Fixpoint horner (coefficients : list float) (z : float) : float :=
  match coefficients with
  | [] => 0
  | c :: rest => c + z * horner rest z
  end.

Definition sin_coefficients : list float :=
  [-1 / 6; 1 / 120; -1 / 5040; 1 / 362880; -1 / 39916800; 1 / 6227020800;
   -1 / 1307674368000; 1 / 355687428096000].

Definition cos_coefficients : list float :=
  [1 / 24; -1 / 720; 1 / 40320; -1 / 3628800; 1 / 479001600;
   -1 / 87178291200; 1 / 20922789888000; -1 / 6402373705728000].

Definition sin_kernel (x : float) : float :=
  let z := x * x in
  x + x * (z * horner sin_coefficients z).

Definition cos_kernel (x : float) : float :=
  let z := x * x in
  1 - (0.5 * z - z * (z * horner cos_coefficients z)).

Fixpoint reduce (fuel : nat) (x : float) : float :=
  match fuel with
  | O => x
  | S fuel' =>
      if Host.Math_PI <? x then reduce fuel' (x - 2 * Host.Math_PI)
      else if x <? - Host.Math_PI then reduce fuel' (x + 2 * Host.Math_PI)
      else x
  end.

Definition sin_ref (x : float) : float :=
  if is_nan x then x else
  let r := reduce 64 x in
  if abs r <=? Host.Math_PI / 4 then sin_kernel r
  else if 0 <? r then
    if r <=? 3 * Host.Math_PI / 4 then cos_kernel (r - PIO2_HI - PIO2_LO)
    else - sin_kernel (r - 2 * PIO2_HI - 2 * PIO2_LO)
  else
    if - (3 * Host.Math_PI / 4) <=? r then - cos_kernel (r + PIO2_HI + PIO2_LO)
    else - sin_kernel (r + 2 * PIO2_HI + 2 * PIO2_LO).

Definition cos_ref (x : float) : float :=
  if is_nan x then x else
  let r := reduce 64 x in
  if abs r <=? Host.Math_PI / 4 then cos_kernel r
  else if 0 <? r then
    if r <=? 3 * Host.Math_PI / 4 then - sin_kernel (r - PIO2_HI - PIO2_LO)
    else - cos_kernel (r - 2 * PIO2_HI - 2 * PIO2_LO)
  else
    if - (3 * Host.Math_PI / 4) <=? r then sin_kernel (r + PIO2_HI + PIO2_LO)
    else - cos_kernel (r + 2 * PIO2_HI + 2 * PIO2_LO).

Definition atan_ref (t : float) : float :=
  if t <? 0 then - Host.atan_nonneg (- t) else Host.atan_nonneg t.

Definition atan2_ref (y x : float) : float :=
  if (is_nan y || is_nan x)%bool then nan
  else if 0 <? x then atan_ref (y / x)
  else if x <? 0 then
         if 0 <=? y then atan_ref (y / x) + Host.Math_PI
         else atan_ref (y / x) - Host.Math_PI
       else if 0 <? y then Host.Math_PI / 2
            else if y <? 0 then - (Host.Math_PI / 2)
                 else 0.

Definition refTrig : TrigHost.
Proof.
  refine (mkTrigHost sin_ref cos_ref atan2_ref (fun x => x * x) _ _).
  - intros x. reflexivity.
  - intros y. unfold atan2_ref. replace (is_nan nan) with true by reflexivity.
    rewrite orb_true_r. reflexivity.
Defined.

End ReferenceTrig.

(** [{latitude, longitude}]. *)
Record coord : Type := mkCoord { latitude : float; longitude : float }.

(** [position.coords]: the fields the distance depends on. *)
Record Coords : Type := mkCoords {
  c_latitude : float;
  c_longitude : float;
  c_accuracy : option float;
  c_speed : option float }.

(** The refs and the state the callback reads and writes, but for
    [location] and [heading], which nothing below depends on. *)
Record Tracker : Type := mkTracker {
  resultShownRef : bool;
  pausedRef : bool;
  lastLocation : option coord;
  lastLocationTimeRef : option Z;
  speedReadings : list float;
  filteredLocation : option coord;
  pLat : option float;
  pLon : option float;
  cumulativeDistance : float;
  speed : float }.

(** Truthiness of a number-or-null: [0], [-0] and NaN are falsy. *)
Definition truthyF (o : option float) : bool :=
  match o with Some x => negb ((x =? 0) || is_nan x) | None => false end.

Definition numF (o : option float) : float :=
  match o with Some x => x | None => 0 end.

(** A difference of two [Date.now()] as a number. *)
Definition of_Z (z : Z) : float :=
  match z with
  | Z0 => 0
  | Zpos _ => of_uint63 (Uint63.of_Z z)
  | Zneg p => - of_uint63 (Uint63.of_Z (Zpos p))
  end.

(** Line 257. *)
Definition NOISE_THRESHOLD : float := 3.

Section Handlers.
Variable T : TrigHost.

(** The term [a] of calculateDistance, lines 999-1008. *)
Definition haversine (coord1 coord2 : coord) : float :=
  let lat1 := latitude coord1 in
  let lon1 := longitude coord1 in
  let lat2 := latitude coord2 in
  let lon2 := longitude coord2 in
  let phi1 := lat1 * Host.Math_PI / 180 in
  let phi2 := lat2 * Host.Math_PI / 180 in
  let dphi := (lat2 - lat1) * Host.Math_PI / 180 in
  let dlambda := (lon2 - lon1) * Host.Math_PI / 180 in
  square T (Math_sin T (dphi / 2))
  + Math_cos T phi1 * Math_cos T phi2 * square T (Math_sin T (dlambda / 2)).

(** Lines 998-1011. *)
Definition calculateDistance (coord1 coord2 : coord) : float :=
  let earthR := 6371000 in
  let a := haversine coord1 coord2 in
  let c := 2 * Math_atan2 T (Host.Math_sqrt a) (Host.Math_sqrt (1 - a)) in
  earthR * c.

(** [accuracy && accuracy > 20], line 933. *)
Definition lowAccuracy (accuracy : option float) : bool :=
  (truthyF accuracy && (20 <? numF accuracy))%bool.

(** Lines 934-944. *)
Definition computeSpeed (now : Z) (coords : Coords) (s : Tracker) : float :=
  if match c_speed coords with Some v => 0 <=? v | None => false end
  then numF (c_speed coords)
  else
    match lastLocation s with
    | Some prev =>
        if Host.truthyZ (lastLocationTimeRef s) then
          let dt := of_Z (now - Host.numZ (lastLocationTimeRef s)) / 1000 in
          let dist :=
            calculateDistance prev
              (mkCoord (c_latitude coords) (c_longitude coords)) in
          if 0 <? dt then dist / dt else 0
        else 0
    | None => 0
    end.

(** Lines 927-981. *)
Definition watchPosition_callback (now : Z) (coords : Coords) (s : Tracker)
  : Tracker :=
  if resultShownRef s then s
  else if negb (pausedRef s) then
    let rawLat := c_latitude coords in
    let rawLon := c_longitude coords in
    if lowAccuracy (c_accuracy coords) then s
    else
      let computedSpeed := computeSpeed now coords s in
      match filteredLocation s with
      | None =>
          mkTracker (resultShownRef s) (pausedRef s)
            (Some (mkCoord rawLat rawLon)) (Some now)
            (speedReadings s ++ [computedSpeed])
            (Some (mkCoord rawLat rawLon)) (Some 1) (Some 1)
            (cumulativeDistance s) computedSpeed
      | Some f =>
          let R_ := 0.0001 in
          let Q_ := 0.0001 in
          let kalmanGainLat := numF (pLat s) / (numF (pLat s) + R_) in
          let newLat := latitude f + kalmanGainLat * (rawLat - latitude f) in
          let pLat' := (1 - kalmanGainLat) * numF (pLat s) + Q_ in
          let kalmanGainLon := numF (pLon s) / (numF (pLon s) + R_) in
          let newLon := longitude f + kalmanGainLon * (rawLon - longitude f) in
          let pLon' := (1 - kalmanGainLon) * numF (pLon s) + Q_ in
          let newFilteredLocation := mkCoord newLat newLon in
          let deltaDistance := calculateDistance f newFilteredLocation in
          let cumulative' :=
            if ((NOISE_THRESHOLD <? deltaDistance) || (0.2 <? computedSpeed))%bool
            then cumulativeDistance s + deltaDistance
            else cumulativeDistance s in
          mkTracker (resultShownRef s) (pausedRef s)
            (Some (mkCoord rawLat rawLon)) (Some now)
            (speedReadings s ++ [computedSpeed])
            (Some newFilteredLocation) (Some pLat') (Some pLon')
            cumulative' computedSpeed
      end
  else s.

(** The resets of beginTracking, lines 913-922. *)
Definition beginTracking (s : Tracker) : Tracker :=
  mkTracker (resultShownRef s) false None None [] None None None 0 (speed s).

Definition feed (fixes : list (Z * Coords)) (s : Tracker) : Tracker :=
  fold_left (fun s f => watchPosition_callback (fst f) (snd f) s) fixes s.

End Handlers.

(** The refs at mount, lines 593-613. *)
Definition initial : Tracker :=
  mkTracker false false None None [] None None None 0 0.

End Binary64.

(** ** Vocabulary of the properties *)

Module V1 := TrackingWithoutAPI2.
Module V2 := StopImplementation.

Section Vocabulary.
Import Geo Host.
Local Open Scope R_scope.

(** *** Location filter *)

(** A stream of location fixes, each with the time it is delivered. *)
Definition feed_V1 (fixes : list (Z * Coords)) (s : V1.App) : V1.App :=
  fold_left (fun s f => V1.watchPosition_callback (fst f) (snd f) s) fixes s.

Definition feed_V2 (platform : V2.OS) (closurePaused : bool)
  (fixes : list (Z * Coords)) (s : V2.App) : V2.App :=
  fold_left
    (fun s f => V2.watchPosition_callback platform closurePaused (fst f) (snd f) s)
    fixes s.

(** The fix carries no usable device speed: the field is absent, or negative. *)
Definition noDeviceSpeed (coords : Coords) : Prop :=
  c_speed coords = None \/ exists v, c_speed coords = Some v /\ v < 0.

(** What lines 937-944 and 1746-1753 compute from the stored previous
    fix, when the device speed is not used. *)
Definition derivedSpeed (now : Z) (coords : Coords)
  (lastLocation : option coord) (lastLocationTime : option Z) : R :=
  match lastLocation, lastLocationTime with
  | Some prev, Some t0 =>
      if ((t0 =? 0)%Z || (now <=? t0)%Z)%bool then 0
      else calculateDistance prev (mkCoord (c_latitude coords) (c_longitude coords))
           / (IZR (now - t0) / 1000)
  | _, _ => 0
  end.

(** A fix that the callback processes: the summary is not shown, the
    session is not paused, and the accuracy gate lets the fix through. *)
Definition processed_V1 (coords : Coords) (s : V1.App) : Prop :=
  V1.resultShownRef (V1.session s) = false /\
  V1.pausedRef (V1.session s) = false /\
  V1.lowAccuracy (c_accuracy coords) = false.

(** *** Events and timers *)

(** The sensor samples among the events. *)
Definition is_sample_V1 (ev : V1.Event) : bool :=
  match ev with
  | V1.Accelerometer _ | V1.Gyroscope _ | V1.LocationFix _ => true
  | _ => false
  end.

(** All the timers of a list fire, in order. *)
Definition fire_all (l : list (Timer V1.TimerAction)) (s : V1.App) : V1.App :=
  fold_left (fun s t => V1.fire (act t) s) l s.

Definition is_cooloff (t : Timer V1.TimerAction) : bool :=
  match act t with V1.CooldownOff => true | V1.StillAlert => false end.

(** The timer queue is ordered, and it holds a cooldown timer only while
    the cooldown flag is set, and then at most one. *)
Definition cooldown_inv (s : V1.App) : Prop :=
  sorted_queue (V1.timers (V1.env s)) /\
  (V1.crashCooldownInternalRef (V1.det s) = false ->
   filter is_cooloff (V1.timers (V1.env s)) = []) /\
  (List.length (filter is_cooloff (V1.timers (V1.env s))) <= 1)%nat.

(** The accelerometer subscriber is subscribed: the journey is tracked and
    not paused. *)
Definition accel_live (s : V1.App) : Prop :=
  V1.tracking (V1.session s) = true /\
  V1.paused (V1.session s) = false.

(** The refs mirror the state; and while a journey is tracked with the
    summary of the previous one still on screen, the bump stage holds no
    baseline: beginTracking cleared it, and the accelerometer subscriber
    returns at once. *)
Definition session_inv (s : V1.App) : Prop :=
  V1.pausedRef (V1.session s) = V1.paused (V1.session s) /\
  V1.resultShownRef (V1.session s) = V1.showResults (V1.session s) /\
  (V1.tracking (V1.session s) = true -> V1.showResults (V1.session s) = true ->
   V1.baselineZRef (V1.det s) = None).

(** *** Stops *)

(** The stillness test of lines 678-685 and 1635-1644: every axis moved
    by less than 0.05 since the previous sample. *)
Definition still (l a : vec3) : bool :=
  ((Math_abs (vx a - vx l) <? 0.05)%float
   && (Math_abs (vy a - vy l) <? 0.05)%float
   && (Math_abs (vz a - vz l) <? 0.05)%float)%bool.

(** The stop aggregates of a state: [stopCount], [stops],
    [totalStopTime]. *)
Definition stopView_V1 (s : V1.App) : nat * list V1.Stop * Z :=
  (V1.counts (V1.journey s) V1.stopCount, V1.stops (V1.journey s),
   V1.totalStopTime (V1.journey s)).

Definition stopView_V2 (s : V2.App) : nat * list V2.Stop * Z :=
  (V2.counts (V2.journey s) V2.stopCount, V2.stops (V2.journey s),
   V2.totalStopTime (V2.journey s)).

(** The same, with the duration of every entry of [stops] in place of
    the entry. *)
Definition stopDurations_V1 (s : V1.App) : nat * list Z * Z :=
  (V1.counts (V1.journey s) V1.stopCount,
   map V1.duration (V1.stops (V1.journey s)),
   V1.totalStopTime (V1.journey s)).


(** The counter is the length of the list, the total the sum of its
    durations. *)
Definition stops_consistent {A : Type} (duration : A -> Z)
  (view : nat * list A * Z) : Prop :=
  fst (fst view) = List.length (snd (fst view)) /\
  snd view = fold_right Z.add 0%Z (map duration (snd (fst view))).

(** *** Bumps and falls *)

(** Bump events among the notifications, and the bump counters. *)
Definition is_bump (n : Notification) : bool :=
  match n with
  | Toast cause _ => String.eqb cause "Bump"
  | _ => false
  end.

Definition bumpEvents (s : V1.App) : nat :=
  List.length (filter is_bump (V1.notifications (V1.env s))).

Definition bumpTotal (s : V1.App) : nat :=
  (V1.counts (V1.journey s) V1.bumpMajorCount
   + V1.counts (V1.journey s) V1.bumpMinorCount)%nat.

(** The sample crosses the bump trigger threshold (line 708) against the
    baseline the bump stage would use (lines 700-707). *)
Definition crosses (s : V1.App) (a : vec3) : bool :=
  (V1.bumpThreshold
   <? Math_abs (vz a - V1.adaptBaselineZ (V1.baselineZRef (V1.det s)) (vz a)))%float.

(** The gravity baseline the fall stage compares a sample with (lines
    719-721). *)
Definition fallBaseline (s : V1.App) (a : vec3) : vec3 :=
  match V1.baselineFallRef (V1.det s) with Some b => b | None => a end.

(** The state of the fall detector: the fall counter, [isFallen], and the
    start of the pending 500 ms gate. *)
Definition fallView (s : V1.App) : nat * bool * option Z :=
  (V1.counts (V1.journey s) V1.fallCount, V1.isFallen (V1.journey s),
   V1.fallDetectionStartRef (V1.det s)).

(** The magnitude of line 726, and the degenerate case of the angle
    computation: the current vector or the baseline has magnitude zero. *)
Definition magnitude (v : vec3) : float :=
  Math_sqrt (vx v * vx v + vy v * vy v + vz v * vz v)%float.

Definition degenerate (a b : vec3) : bool :=
  ((magnitude a =? 0)%float || (magnitude b =? 0)%float)%bool.

(** C5 as the specification states it: on a degenerate sample the fall
    stage leaves the state of the fall detector as it was. *)
Definition skips_degenerate : Prop :=
  forall (M : MathHost) (now : Z) (a : vec3) (s : V1.App),
    degenerate a (fallBaseline s a) = true ->
    fallView (V1.fallDetection M now a s) = fallView s.

(** Classes of binary64 numbers, on their specification. *)
Definition sf_zero (f : spec_float) : Prop :=
  match f with S754_zero _ => True | _ => False end.

Definition sf_zero_or_nan (f : spec_float) : Prop :=
  match f with S754_zero _ | S754_nan => True | _ => False end.

Definition sf_nan_or_inf (f : spec_float) : Prop :=
  match f with S754_nan | S754_infinity _ => True | _ => False end.

(** *** Pending at Stop *)

(** The stillness alerts in the timer queue. *)
Definition alerts (s : V1.App) : list (Timer V1.TimerAction) :=
  filter (fun t => negb (is_cooloff t)) (V1.timers (V1.env s)).

(** What the invariant below reads. *)
Definition stopView_refs (s : V1.App) :=
  (alerts s, V1.stillAlertTimeoutRef (V1.det s),
   V1.currentStopStartRef (V1.det s), V1.watches (V1.env s),
   V1.nextWatch (V1.env s), V1.locationSubscription (V1.session s),
   V1.tracking (V1.session s)).

(** Every queued stillness alert is the one [stillAlertTimeoutRef] holds,
    and none is queued while no stillness period is open; watch ids are
    not 0. *)
Definition stop_inv (s : V1.App) : Prop :=
  ((forall t, In t (alerts s) ->
              V1.stillAlertTimeoutRef (V1.det s) = Some (tid t)) /\
   (truthyZ (V1.currentStopStartRef (V1.det s)) = false -> alerts s = [])) /\
  ((0 < V1.nextWatch (V1.env s))%Z /\
   (forall id, V1.locationSubscription (V1.session s) = Some id -> id <> 0%Z)).

(** Every active location watch is the one [locationSubscription] holds:
    no call of beginTracking found a watch active. *)
Definition one_watch (s : V1.App) : Prop :=
  forall w, In w (V1.watches (V1.env s)) ->
            V1.locationSubscription (V1.session s) = Some w.

(** *** Concrete fixes, samples and journeys *)

(** A fix at the origin with no optional field. *)
Definition fix_origin : Coords := mkCoords 0 0 None None None.

(** A fix with device speed 5 m/s and no accuracy, heading or previous fix. *)
Definition fix_speed5 : Coords := mkCoords 0 0 None (Some 5) None.

(** A fix one degree east of the origin, with no optional field. *)
Definition fix_east : Coords := mkCoords 0 1 None None None.

(** A fix one degree east of [fix_speed5], same device speed. *)
Definition fix_east_speed5 : Coords := mkCoords 0 1 None (Some 5) None.

(** An accelerometer sample at rest, gravity along z. *)
Definition at_rest : vec3 := mkVec3 0 0 9.8%float.

(** A sample after the device was pushed sideways. *)
Definition moved : vec3 := mkVec3 1 0 9.8%float.

(** Going over a kerb: the vertical reading jumps by 1 m/s^2. *)
Definition kerb : vec3 := mkVec3 0 0 10.8%float.

(** The device lies on its side: gravity along x. *)
Definition on_side : vec3 := mkVec3 9.8 0 0%float.

(** On its side, with a vertical jolt of 3 m/s^2. *)
Definition jolt : vec3 := mkVec3 9.8 0 3%float.

(** A sample in free fall: no acceleration on any axis. *)
Definition zero_vec : vec3 := mkVec3 0 0 0%float.

(** Second screen: a journey is started, then paused. *)
Definition paused_trace_V2 : list (Z * V2.Event) :=
  [(1000%Z, V2.Start false); (2000%Z, V2.PauseResume)].

(** Second screen: a journey is started, the device lies still (the
    second sample at rest starts the stillness timer), and the journey is
    stopped half a second later. *)
Definition stopped_trace_V2 : list (Z * V2.Event) :=
  [(1000%Z, V2.Start false);
   (1250%Z, V2.Accelerometer at_rest);
   (1500%Z, V2.Accelerometer at_rest);
   (2000%Z, V2.StopJourney)].

(** A journey in which the device comes to rest at 1500 ms and is moved
    [pause] ms later. *)
Definition still_then_move_V1 (pause : Z) : list (Z * V1.Event) :=
  [(1000%Z, V1.Start fix_origin);
   (1250%Z, V1.Accelerometer at_rest);
   (1500%Z, V1.Accelerometer at_rest);
   ((1500 + pause)%Z, V1.Accelerometer moved)].


(** A journey that has just begun: the first sample at rest sets the
    baselines. *)
Definition rolling_trace : list (Z * V1.Event) :=
  [(1000%Z, V1.Start fix_origin); (1250%Z, V1.Accelerometer at_rest)].

(** The chair has just tipped: the first sample on the side opened the
    500 ms gate at 1500 ms. *)
Definition tipping_state : V1.App :=
  V1.run refMath
    [(1000%Z, V1.Start fix_origin);
     (1250%Z, V1.Accelerometer at_rest);
     (1500%Z, V1.Accelerometer on_side)]
    (V1.initial 1).

(** A journey in which the chair tips over: the gravity baseline is taken
    at rest, then three samples on the side, 250 ms apart; the third is
    500 ms after the first and fires the fall. *)
Definition fallen_state : V1.App :=
  V1.run refMath
    [(1000%Z, V1.Start fix_origin);
     (1250%Z, V1.Accelerometer at_rest);
     (1500%Z, V1.Accelerometer on_side);
     (1750%Z, V1.Accelerometer on_side);
     (2000%Z, V1.Accelerometer on_side)]
    (V1.initial 1).

(** First screen: the Start button is pressed twice, so beginTracking
    runs twice; the journey is stopped and the summary dismissed. *)
Definition double_start_V1 : list (Z * V1.Event) :=
  [(1000%Z, V1.Start fix_origin); (1500%Z, V1.Start fix_origin);
   (2000%Z, V1.StopJourney); (3000%Z, V1.Back)].

(** First screen: the chair goes over a kerb at 1500 ms, which starts the
    cooldown, and the journey is stopped half a second later. *)
Definition bump_then_stop_V1 : list (Z * V1.Event) :=
  [(1000%Z, V1.Start fix_origin);
   (1250%Z, V1.Accelerometer at_rest);
   (1500%Z, V1.Accelerometer kerb);
   (2000%Z, V1.StopJourney)].

(** First screen: a journey is started and stopped. *)
Definition start_stop_V1 : list (Z * V1.Event) :=
  [(1000%Z, V1.Start fix_origin); (2000%Z, V1.StopJourney)].

End Vocabulary.

Section Binary64Vocabulary.
Local Open Scope float_scope.

(** Two fixes one second apart, both accurate to 5 m and with a device
    speed of 5 m/s: the first at 8 N 90 W, the second such that the
    filtered location it gives is 8 S 90 E, the antipode of the first. *)
Definition fix_8N_90W : Binary64.Coords :=
  Binary64.mkCoords 8 (-90) (Some 5) (Some 5).

Definition fix_near_8S_90E : Binary64.Coords :=
  Binary64.mkCoords (-8.0016) 90.018 (Some 5) (Some 5).

Definition antipode_fixes : list (Z * Binary64.Coords) :=
  [(2000%Z, fix_8N_90W); (3000%Z, fix_near_8S_90E)].

End Binary64Vocabulary.

(* ================================================================== *)
(** * Part I, continued: the rest of the first screen, the hooks, the
      web player *)
(* ================================================================== *)

(** ** The journey summary (app.tsx, lines 1115-1120) *)

Module Summary.

Definition totalJerks (j : V1.Journey) : nat :=
  (V1.counts j V1.minorJerkCount + V1.counts j V1.majorJerkCount
   + V1.counts j V1.bumpMajorCount + V1.counts j V1.bumpMinorCount)%nat.

Definition totalMajorJerks (j : V1.Journey) : nat :=
  (V1.counts j V1.majorJerkCount + V1.counts j V1.bumpMajorCount)%nat.

Definition totalMinorJerks (j : V1.Journey) : nat :=
  (V1.counts j V1.minorJerkCount + V1.counts j V1.bumpMinorCount)%nat.

Definition totalBumps (j : V1.Journey) : nat :=
  (V1.counts j V1.bumpMajorCount + V1.counts j V1.bumpMinorCount)%nat.

End Summary.

Section JourneyVocabulary.
Import Geo Host.
Local Open Scope R_scope.

(** *** Turns *)

(** The turn counters, and the jerk counters the gyroscope subscriber
    raises with them. *)
Definition turns (s : V1.App) : nat :=
  (V1.counts (V1.journey s) V1.sharpLeftCount
   + V1.counts (V1.journey s) V1.sharpRightCount)%nat.

Definition jerks (s : V1.App) : nat :=
  (V1.counts (V1.journey s) V1.minorJerkCount
   + V1.counts (V1.journey s) V1.majorJerkCount)%nat.

(** The gyroscope sample passes the noise floor (line 775) and the minor
    threshold (line 777). *)
Definition is_turn (g : vec3) : bool :=
  (negb ((Math_abs (vx g) <? V1.noiseFloorGyro)%float
         && (Math_abs (vz g) <? V1.noiseFloorGyro)%float)
   && negb (Math_max (Math_abs (vx g)) (Math_abs (vz g))
            <? V1.MINOR_JERK_THRESHOLD)%float)%bool.

(** The counters that no stage of the accelerometer subscriber sets. *)
Definition inertial_free (c : V1.Counter) : bool :=
  match c with
  | V1.bumpMajorCount | V1.bumpMinorCount | V1.stopCount | V1.fallCount => false
  | _ => true
  end.

(** *** The location filter on reachable states *)

(** Once a filtered location exists, both error variances of the filter
    lie in (0, 1]. *)
Definition kalman_inv (s : V1.App) : Prop :=
  match V1.filteredLocation (V1.loc s) with
  | None => True
  | Some _ =>
      0 < numR (V1.pLat (V1.loc s)) <= 1 /\ 0 < numR (V1.pLon (V1.loc s)) <= 1
  end.

(** No speed reading, displayed speed or average speed is negative. *)
Definition speeds_inv (s : V1.App) : Prop :=
  Forall (fun v => 0 <= v) (V1.speedReadings (V1.loc s)) /\
  0 <= V1.speed (V1.loc s) /\
  0 <= V1.averageSpeed (V1.session s).

(** The displayed distance lags the accumulated one. *)
Definition distance_inv (s : V1.App) : Prop :=
  0 <= V1.distanceTraveled (V1.session s)
  <= V1.cumulativeDistance (V1.loc s).

(** A sharp turn to the left, well above the major threshold. *)
Definition swerve : vec3 := mkVec3 6 0 0%float.

End JourneyVocabulary.

(** ** Over-speed count and speed alert (app.tsx, lines 818-838)

    The effect depends on [speed], [tracking] and [paused]: it runs after
    a render in which one of them changed.  Its two refs are kept beside
    the state of the screen. *)

Module SpeedMonitor.
Import Geo Host.
Local Open Scope R_scope.

(** Lines 273, 277 and 278. *)
Definition OVERSPEED_THRESHOLD : R := 15 / 10.
Definition SPEED_LIMIT : R := 10.
Definition SPEED_ALERT_COOLDOWN : Z := 30000.

(** Lines 596 and 818. *)
Record SpeedRefs : Type := mkSpeedRefs {
  previousSpeedRef : R;
  lastSpeedAlertTimeRef : Z }.

Definition Monitor : Type := (SpeedRefs * V1.App)%type.

(** The body of the effect, lines 820-837. *)
Definition speedEffect (now : Z) (m : Monitor) : Monitor :=
  let r := fst m in
  let s := snd m in
  if (V1.tracking (V1.session s) && negb (V1.paused (V1.session s)))%bool then
    let speed := V1.speed (V1.loc s) in
    let s :=
      if (Rleb (previousSpeedRef r) OVERSPEED_THRESHOLD
          && Rltb OVERSPEED_THRESHOLD speed)%bool
      then V1.showToastNotification "Over Speed" (Label "Alert")
             (V1.incr V1.overSpeedCount s)
      else s in
    if (Rltb SPEED_LIMIT speed
        && (SPEED_ALERT_COOLDOWN <? now - lastSpeedAlertTimeRef r)%Z)%bool
    then (mkSpeedRefs speed now,
          V1.showToastNotification "Speed Alert" (Label "Warning") s)
    else (mkSpeedRefs speed (lastSpeedAlertTimeRef r), s)
  else m.

(** The dependency list of line 838, compared as React does between two
    renders. *)
Definition deps_changed (s s' : V1.App) : bool :=
  (negb (if Req_dec_T (V1.speed (V1.loc s)) (V1.speed (V1.loc s'))
         then true else false)
   || negb (Bool.eqb (V1.tracking (V1.session s)) (V1.tracking (V1.session s')))
   || negb (Bool.eqb (V1.paused (V1.session s)) (V1.paused (V1.session s'))))%bool.

(** One event: the screen handles it (beginTracking also clears
    [previousSpeedRef], line 924), then the effect runs if a dependency
    changed. *)
Definition step (M : MathHost) (m : Monitor) (tev : Z * V1.Event) : Monitor :=
  let s := snd m in
  let s' := V1.step M s tev in
  let r :=
    match snd tev with
    | V1.Start _ => mkSpeedRefs 0 (lastSpeedAlertTimeRef (fst m))
    | _ => fst m
    end in
  if deps_changed s s' then speedEffect (fst tev) (r, s') else (r, s').

Definition run (M : MathHost) (trace : list (Z * V1.Event)) (m : Monitor)
  : Monitor :=
  fold_left (step M) trace m.

(** The states a run passes through, after each event. *)
Fixpoint states (M : MathHost) (trace : list (Z * V1.Event)) (m : Monitor)
  : list Monitor :=
  match trace with
  | [] => []
  | tev :: trace' => step M m tev :: states M trace' (step M m tev)
  end.

(** At mount both refs are 0; the effect runs once and does nothing, for
    [tracking] is false. *)
Definition initial (firstWatch : Z) : Monitor :=
  (mkSpeedRefs 0 0, V1.initial firstWatch).

End SpeedMonitor.

Section SpeedVocabulary.
Import Host.
Local Open Scope R_scope.

Definition is_speed_alert (n : Notification) : bool :=
  match n with
  | Toast cause _ => String.eqb cause "Speed Alert"
  | _ => false
  end.

Definition is_over_speed (n : Notification) : bool :=
  match n with
  | Toast cause _ => String.eqb cause "Over Speed"
  | _ => false
  end.

(** The Speed Alert and Over Speed toasts shown so far. *)
Definition speedAlerts (s : V1.App) : nat :=
  List.length (filter is_speed_alert (V1.notifications (V1.env s))).

Definition overSpeedToasts (s : V1.App) : nat :=
  List.length (filter is_over_speed (V1.notifications (V1.env s))).

(** beginTracking is called by [Start] only. *)
Definition is_start (ev : V1.Event) : bool :=
  match ev with V1.Start _ => true | _ => false end.

(** A fix that reports 13 m/s. *)
Definition fix_speed13 : Coords := mkCoords 0 0 None (Some 13) None.

(** The chair is tracked and faster than the over-speed threshold. *)
Definition speeding (m : SpeedMonitor.Monitor) : Prop :=
  V1.tracking (V1.session (snd m)) = true /\
  SpeedMonitor.OVERSPEED_THRESHOLD < V1.speed (V1.loc (snd m)).

(** A journey under way at 12 m/s, the speed refs as at mount. *)
Definition racing : SpeedMonitor.Monitor :=
  (SpeedMonitor.mkSpeedRefs 0 0,
   V1.mkApp
     (V1.mkJourney (fun _ => O) 0%Z [] false O)
     (V1.mkLocationRefs None None [] None None None 0 12 None None)
     (V1.mkDetectorRefs None None None None false None None)
     (V1.mkSession true false false false false (Some 1000%Z) 0 0 0 (Some 1%Z))
     (V1.mkEnv [] 1%positive [1%Z] 2%Z [])).

(** The same journey, the effect having run at this speed. *)
Definition racing_seen : SpeedMonitor.Monitor :=
  (SpeedMonitor.mkSpeedRefs 12 1000, snd racing).

End SpeedVocabulary.

(** ** Favorites of the web player (part_000, lines 297-308 and 379-431)

    [localStorage] holds the JSON text of an array of tracks under the
    key "favorites".  The model keeps the array that text denotes, and
    [None] while the key is unset: [getItem] then returns [null],
    [JSON.parse(null)] is [null], and [|| []] applies.  [addFavorite] is
    given the track its argument decodes to. *)

Module Favorites.

Record Track : Type := mkTrack {
  id : string;
  title : string;
  subtitle : string;
  imageUrl : string;
  spotifyUrl : string }.

(** What [loadFavorites] leaves in the container "favoritesSongs": a
    paragraph, or one card per track, each with its Remove button. *)
Inductive Container : Type :=
| Html (text : string)
| Cards (tracks : list Track).

Record Page : Type := mkPage {
  storage : option (list Track);
  alerts : list string;
  favoritesSongs : Container }.

(** [JSON.parse(localStorage.getItem("favorites")) || []]. *)
Definition favs (p : Page) : list Track :=
  match storage p with Some l => l | None => [] end.

(** [favs.some(track => track.id === id)]. *)
Definition some_id (i : string) (l : list Track) : bool :=
  existsb (fun track => String.eqb (id track) i) l.

(** The button favoriteButton builds, lines 297-308. *)
Inductive Button : Type :=
| RemoveFavorite (i : string)
| AddFavorite (trackData : Track).

Definition favoriteButton (i t s img url : string) (p : Page) : Button :=
  if some_id i (favs p) then RemoveFavorite i
  else AddFavorite (mkTrack i t s img url).

(** loadFavorites, lines 400-431. *)
Definition loadFavorites (p : Page) : Page :=
  mkPage (storage p) (alerts p)
    (match favs p with
     | [] => Html "<p>No favorites added yet.</p>"
     | l => Cards l
     end).

(** addFavorite, lines 379-388. *)
Definition addFavorite (trackData : Track) (p : Page) : Page :=
  if negb (some_id (id trackData) (favs p)) then
    loadFavorites
      (mkPage (Some (favs p ++ [trackData]))
         (alerts p ++ ["Added to favorites!"%string]) (favoritesSongs p))
  else p.

(** removeFavorite, lines 389-399, up to the search it repeats when the
    search tab is the active one. *)
Definition removeFavorite (i : string) (p : Page) : Page :=
  loadFavorites
    (mkPage (Some (filter (fun track => negb (String.eqb (id track) i)) (favs p)))
       (alerts p ++ ["Removed from favorites."%string]) (favoritesSongs p)).

(** Clicks on the two buttons. *)
Inductive Op : Type :=
| Add (trackData : Track)
| Remove (i : string).

Definition apply (p : Page) (o : Op) : Page :=
  match o with
  | Add t => addFavorite t p
  | Remove i => removeFavorite i p
  end.

Definition run (ops : list Op) (p : Page) : Page := fold_left apply ops p.

End Favorites.

Section FavoritesVocabulary.

(** The ids of the stored favorites. *)
Definition favoriteIds (p : Favorites.Page) : list string :=
  map Favorites.id (Favorites.favs p).

(** The container shows what is stored. *)
Definition shows_storage (p : Favorites.Page) : Prop :=
  Favorites.favoritesSongs p = Favorites.favoritesSongs (Favorites.loadFavorites p).

(** A browser with nothing stored, the favorites tab loaded. *)
Definition fresh_page : Favorites.Page :=
  Favorites.loadFavorites (Favorites.mkPage None [] (Favorites.Html EmptyString)).

Definition song : Favorites.Track :=
  Favorites.mkTrack "4uLU6hMCjMI75M1A2tKUQC" "Never Gonna Give You Up"
    "Rick Astley" "https://i.scdn.co/image/cover"
    "https://open.spotify.com/track/4uLU6hMCjMI75M1A2tKUQC".

End FavoritesVocabulary.

(** ** Hook "back_sensor" (part_000, lines 433-523) *)

Module BackSensor.
Import Host.

(** Lines 445-447. *)
Definition BACKWARD_THRESHOLD : float := (-0.05)%float.
Definition ALPHA : float := 0.1%float.
Definition SUSTAINED_TIME_THRESHOLD : Z := 300.

(** The refs of the hook, the arguments [onBackward] was called with,
    and the toasts shown. *)
Record Hook : Type := mkHook {
  filteredAcc : vec3;
  backwardNotifiedRef : bool;
  backwardStartTimeRef : option Z;
  onBackwardCalls : list string;
  notifications : list Notification }.

(** detectMovement, lines 464-489. *)
Definition detectMovement (now : Z) (h : Hook) : Hook :=
  if (vy (filteredAcc h) <? BACKWARD_THRESHOLD)%float then
    if negb (truthyZ (backwardStartTimeRef h)) then
      mkHook (filteredAcc h) (backwardNotifiedRef h) (Some now)
        (onBackwardCalls h) (notifications h)
    else
      let elapsed := (now - numZ (backwardStartTimeRef h))%Z in
      if ((SUSTAINED_TIME_THRESHOLD <? elapsed)%Z
          && negb (backwardNotifiedRef h))%bool
      then
        mkHook (filteredAcc h) true (backwardStartTimeRef h)
          (onBackwardCalls h ++ ["straight"%string])
          (notifications h
           ++ [Toast "Backward Movement" (Label "Straight Backward")])
      else h
  else
    mkHook (filteredAcc h) false None (onBackwardCalls h) (notifications h).

(** The accelerometer subscriber, lines 500-508: a low-pass filter, then
    detectMovement. *)
Definition subscriber (now : Z) (a : vec3) (h : Hook) : Hook :=
  let f := filteredAcc h in
  detectMovement now
    (mkHook
       (mkVec3 (ALPHA * vx a + (1 - ALPHA) * vx f)
               (ALPHA * vy a + (1 - ALPHA) * vy f)
               (ALPHA * vz a + (1 - ALPHA) * vz f))
       (backwardNotifiedRef h) (backwardStartTimeRef h)
       (onBackwardCalls h) (notifications h)).

(** Samples are delivered while the hook is subscribed ([isTracking],
    lines 491-518). *)
Definition step (h : Hook) (sample : Z * vec3) : Hook :=
  subscriber (fst sample) (snd sample) h.

Definition run (samples : list (Z * vec3)) (h : Hook) : Hook :=
  fold_left step samples h.

Fixpoint states (samples : list (Z * vec3)) (h : Hook) : list Hook :=
  match samples with
  | [] => []
  | x :: samples' => step h x :: states samples' (step h x)
  end.

(** The refs at mount, lines 460-462. *)
Definition initial : Hook := mkHook (mkVec3 0 0 0) false None [] [].

End BackSensor.

(** ** The Start button (app.tsx, lines 1050-1063)

    Every press creates an interval with a [count] of its own; the
    button shows the state [countdown], which all of them set. *)

Module Countdown.

Record Interval : Type := mkInterval { iid : positive; count : Z }.

Record Button : Type := mkButton {
  countdown : option Z;
  intervals : list Interval;
  nextInterval : positive;
  started : nat }.               (* calls of startTrackingFunc *)

Definition handleStartButton (b : Button) : Button :=
  let count := 3%Z in
  mkButton (Some count)
    (intervals b ++ [mkInterval (nextInterval b) count])
    (Pos.succ (nextInterval b)) (started b).

(** The callback of interval [i], lines 1053-1062; a cleared interval
    does not fire. *)
Definition interval_callback (i : positive) (b : Button) : Button :=
  match find (fun x => Pos.eqb (iid x) i) (intervals b) with
  | None => b
  | Some x =>
      let count := (count x - 1)%Z in
      if (count =? 0)%Z then
        mkButton None
          (filter (fun y => negb (Pos.eqb (iid y) i)) (intervals b))
          (nextInterval b) (S (started b))
      else
        mkButton (Some count)
          (map (fun y => if Pos.eqb (iid y) i then mkInterval i count else y)
               (intervals b))
          (nextInterval b) (started b)
  end.

Inductive Event : Type :=
| Press
| Fire (i : positive).

Definition step (b : Button) (ev : Event) : Button :=
  match ev with
  | Press => handleStartButton b
  | Fire i => interval_callback i b
  end.

Definition run (trace : list Event) (b : Button) : Button :=
  fold_left step trace b.

(** At mount: [countdown] is [null], no interval. *)
Definition initial : Button := mkButton None [] 1%positive O.

End Countdown.

Section HooksVocabulary.
Import Host.

(** The filtered reading is below the backward threshold (line 469). *)
Definition below (h : BackSensor.Hook) : bool :=
  (vy (BackSensor.filteredAcc h) <? BackSensor.BACKWARD_THRESHOLD)%float.

(** No timing of the backward condition began before [T]. *)
Definition timed_since (T : Z) (h : BackSensor.Hook) : Prop :=
  forall t0, BackSensor.backwardStartTimeRef h = Some t0 ->
             t0 = 0%Z \/ (T <= t0)%Z.

(** A sample pulling backward. *)
Definition pull_back : vec3 := mkVec3 0 (-3) 0%float.

(** The hook after it has notified a backward movement. *)
Definition reversing : BackSensor.Hook :=
  BackSensor.mkHook pull_back true (Some 1000%Z) ["straight"%string]
    [Toast "Backward Movement" (Label "Straight Backward")].

(** The presses among the events. *)
Definition presses (trace : list Countdown.Event) : nat :=
  List.length (filter (fun ev => match ev with Countdown.Press => true
                                          | Countdown.Fire _ => false end) trace).

(** Every running countdown has an id of its own, below the next one, and
    1 to 3 seconds left. *)
Definition countdown_inv (b : Countdown.Button) : Prop :=
  NoDup (map Countdown.iid (Countdown.intervals b)) /\
  Forall (fun x => (Countdown.iid x < Countdown.nextInterval b)%positive /\
                   (1 <= Countdown.count x <= 3)%Z)
         (Countdown.intervals b).

End HooksVocabulary.

(** ** Hook "backward" (part_000, lines 49-135)

    The hook is given the current coordinate, the speed and the forward
    heading at every render; its effect runs when one of them changed. *)

Module BackwardDetection.
Import Geo Host.
Local Open Scope R_scope.

(** A GPS coordinate [{latitude, longitude, timestamp}]. *)
Record TimedCoord : Type := mkTimedCoord {
  tc_latitude : R;
  tc_longitude : R;
  tc_timestamp : Z }.

(** Lines 61-65. *)
Definition WINDOW_DURATION : Z := 3000.
Definition MIN_TOTAL_DISTANCE : R := 3 / 10.
Definition BACKWARD_ANGLE_THRESHOLD : R := 30.
Definition MIN_SPEED_THRESHOLD : R := 1 / 10.

(** The refs of the hook, the number of calls of [onBackward], and the
    toasts shown. *)
Record Hook : Type := mkHook {
  coordBufferRef : list TimedCoord;
  backwardNotifiedRef : bool;
  onBackwardCalls : nat;
  notifications : list Notification }.

(** The loop of lines 87-109 from the segment that starts at [prev]: the
    east and north components of the displacement, summed. *)
Fixpoint displacement (prev : TimedCoord) (rest : list TimedCoord)
  (sumX sumY : R) : R * R :=
  match rest with
  | [] => (sumX, sumY)
  | curr :: rest' =>
      let segmentDistance :=
        computeDistance (tc_latitude prev) (tc_longitude prev)
          (tc_latitude curr) (tc_longitude curr) in
      if Rltb segmentDistance (5 / 100) then displacement curr rest' sumX sumY
      else
        let segmentBearing :=
          computeBearing (tc_latitude prev) (tc_longitude prev)
            (tc_latitude curr) (tc_longitude curr) in
        let bearingRad := toRadians segmentBearing in
        displacement curr rest'
          (sumX + segmentDistance * sin bearingRad)
          (sumY + segmentDistance * cos bearingRad)
  end.

(** Lines 120-121. *)
Definition angleDiff (overallBearing expectedBackwardHeading : R) : R :=
  let d := Rabs (overallBearing - expectedBackwardHeading) in
  if Rltb 180 d then 360 - d else d.

Definition set_notified (b : bool) (h : Hook) : Hook :=
  mkHook (coordBufferRef h) b (onBackwardCalls h) (notifications h).

(** The effect, lines 67-134, run at time [now]. *)
Definition effect (now : Z) (currentCoord : option TimedCoord) (speed : R)
  (forwardHeading : option R) (h : Hook) : Hook :=
  match currentCoord, forwardHeading with
  | Some c, Some fh =>
      if Rltb speed MIN_SPEED_THRESHOLD then set_notified false h
      else
        let buffer :=
          filter (fun coord => (now - tc_timestamp coord <=? WINDOW_DURATION)%Z)
                 (coordBufferRef h ++ [c]) in
        let h := mkHook buffer (backwardNotifiedRef h) (onBackwardCalls h)
                   (notifications h) in
        match buffer with
        | first :: second :: others =>
            let sums := displacement first (second :: others) 0 0 in
            let sumX := fst sums in
            let sumY := snd sums in
            let totalDisplacement := sqrt (sumX ^ 2 + sumY ^ 2) in
            if Rltb totalDisplacement MIN_TOTAL_DISTANCE then h
            else
              let overallBearing :=
                js_rem (toDegrees (Math_atan2 sumX sumY) + 360) 360 in
              let expectedBackwardHeading := js_rem (fh + 180) 360 in
              if Rleb (angleDiff overallBearing expectedBackwardHeading)
                      BACKWARD_ANGLE_THRESHOLD
              then
                if negb (backwardNotifiedRef h) then
                  mkHook buffer true (S (onBackwardCalls h))
                    (notifications h
                     ++ [Toast "Backward Movement" (Label "Detected")])
                else h
              else set_notified false h
        | _ => h
        end
  | _, _ => h
  end.

(** A render: the time, and the arguments of the hook. *)
Record Render : Type := mkRender {
  r_now : Z;
  r_currentCoord : option TimedCoord;
  r_speed : R;
  r_forwardHeading : option R }.

Definition step (h : Hook) (r : Render) : Hook :=
  effect (r_now r) (r_currentCoord r) (r_speed r) (r_forwardHeading r) h.

Definition run (rs : list Render) (h : Hook) : Hook := fold_left step rs h.

Fixpoint states (rs : list Render) (h : Hook) : list Hook :=
  match rs with
  | [] => []
  | r :: rs' => step h r :: states rs' (step h r)
  end.

Definition initial : Hook := mkHook [] false O [].

End BackwardDetection.

Section BackwardVocabulary.
Import Geo.
Local Open Scope R_scope.

(** The forward heading is within 30 degrees of north. *)
Definition heading_north (fh : R) : Prop :=
  0 <= fh <= 30 \/ 330 <= fh < 360.

(** Two fixes on the meridian of Greenwich, the second a hundred
    thousandth of a degree (1.1 m) south of the first, one second later. *)
Definition fix_a : BackwardDetection.TimedCoord :=
  BackwardDetection.mkTimedCoord (1 / 100000) 0 1000.

Definition fix_b : BackwardDetection.TimedCoord :=
  BackwardDetection.mkTimedCoord 0 0 2000.

End BackwardVocabulary.

Section GateVocabulary.
Import Host.

(** The states a run of the first screen passes through, after each
    event. *)
Fixpoint states_V1 (M : MathHost) (trace : list (Z * V1.Event)) (s : V1.App)
  : list V1.App :=
  match trace with
  | [] => []
  | tev :: trace' => V1.step M s tev :: states_V1 M trace' (V1.step M s tev)
  end.

(** No call of beginTracking in the run finds a location watch active:
    the journeys are begun one at a time. *)
Fixpoint starts_idle (M : MathHost) (trace : list (Z * V1.Event)) (s : V1.App)
  : Prop :=
  match trace with
  | [] => True
  | tev :: trace' =>
      match snd tev with
      | V1.Start _ => V1.watches (V1.env s) = []
      | _ => True
      end /\ starts_idle M trace' (V1.step M s tev)
  end.

(** Fall toasts and help prompts among the notifications. *)
Definition is_fall (n : Notification) : bool :=
  match n with
  | Toast cause _ => String.eqb cause "Fall"
  | _ => false
  end.

Definition is_help (n : Notification) : bool :=
  match n with
  | AssistanceToast => true
  | _ => false
  end.

Definition fallEvents (s : V1.App) : nat :=
  List.length (filter is_fall (V1.notifications (V1.env s))).

Definition helpPrompts (s : V1.App) : nat :=
  List.length (filter is_help (V1.notifications (V1.env s))).

(** No 500 ms gate of the fall detector was opened before [T]. *)
Definition gate_since (T : Z) (s : V1.App) : Prop :=
  forall t0, V1.fallDetectionStartRef (V1.det s) = Some t0 -> (T <= t0)%Z.

(** No stillness alert of the queue is due before [T]. *)
Definition alerts_from (T : Z) (s : V1.App) : Prop :=
  Forall (fun t => (T <= due t)%Z) (alerts s).

End GateVocabulary.

Section LowPassVocabulary.
Import Geo Host.
Local Open Scope R_scope.

(** A fix at the raw position [(rawLat, rawLon)] that passes the accuracy
    gate of the second screen. *)
Definition fix_at (rawLat rawLon : R) (x : Z * Coords) : Prop :=
  c_latitude (snd x) = rawLat /\ c_longitude (snd x) = rawLon /\
  V2.lowAccuracy (c_accuracy (snd x)) = false.

(** Second screen: the filtered location is one degree north and east of
    the origin. *)
Definition off_by_one_V2 : V2.App :=
  V2.with_loc
    (V2.mkLocationRefs None None [] (Some (mkCoord 1 1)) 0 0 None)
    (V2.initial 1).

End LowPassVocabulary.

Section StaleVocabulary.
Import Host.

(** The two refs of the stillness detector that no handler but the
    accelerometer subscriber writes. *)
Definition stillnessRefs (s : V1.App) : option vec3 * option Z :=
  (V1.lastAccelRef (V1.det s), V1.currentStopStartRef (V1.det s)).

(** The journey is stopped, the summary dismissed, and a new journey
    begun at [t3]; its first accelerometer sample arrives at [t4]. *)
Definition next_journey (t1 t2 t3 t4 : Z) (coords : Coords) (a : vec3)
  : list (Z * V1.Event) :=
  [(t1, V1.StopJourney); (t2, V1.Back); (t3, V1.Start coords);
   (t4, V1.Accelerometer a)].

(** The journey is paused at [t1] and resumed at [t2]; the first
    accelerometer sample after that arrives at [t3]. *)
Definition pause_resume (t1 t2 t3 : Z) (a : vec3) : list (Z * V1.Event) :=
  [(t1, V1.PauseResume); (t2, V1.PauseResume); (t3, V1.Accelerometer a)].

(** A journey during which the chair came to rest at 1500 ms. *)
Definition resting_trace : list (Z * V1.Event) :=
  [(1000%Z, V1.Start fix_origin);
   (1250%Z, V1.Accelerometer at_rest);
   (1500%Z, V1.Accelerometer at_rest)].

Definition resting_state : V1.App :=
  V1.run refMath resting_trace (V1.initial 1).

End StaleVocabulary.

(* ================================================================== *)
(** * Part II: properties *)
(* ================================================================== *)

(** Case analysis on every test a handler makes. *)
Ltac split_tests :=
  repeat match goal with
         | |- context [if ?c then _ else _] => destruct c
         | |- context [match ?x with Some _ => _ | None => _ end] => destruct x
         end.

Section GeoFacts.
Import Geo.
Local Open Scope R_scope.

Lemma Math_atan2_nonneg (y x : R) : 0 <= y -> 0 <= x -> 0 <= Math_atan2 y x.
Proof.
  intros Hy Hx. unfold Math_atan2.
  destruct (Rlt_dec 0 x) as [Hpos|Hnpos].
  - destruct Hy as [Hy | <-].
    + left. rewrite <- atan_0. apply atan_increasing.
      apply Rdiv_lt_0_compat; assumption.
    + unfold Rdiv. rewrite Rmult_0_l, atan_0. lra.
  - destruct (Rlt_dec x 0); [lra|].
    destruct (Rlt_dec 0 y); [pose proof PI_RGT_0; lra|].
    destruct (Rlt_dec y 0); lra.
Qed.

Lemma atan_nonpos (t : R) : t <= 0 -> atan t <= 0.
Proof.
  intros [Ht | ->].
  - left. rewrite <- atan_0. now apply atan_increasing.
  - rewrite atan_0. lra.
Qed.

Lemma atan_pos (t : R) : 0 < t -> 0 < atan t.
Proof. intros Ht. rewrite <- atan_0. now apply atan_increasing. Qed.

Lemma Math_atan2_range (y x : R) : - PI < Math_atan2 y x <= PI.
Proof.
  pose proof PI_RGT_0 as Hpi. unfold Math_atan2.
  destruct (Rlt_dec 0 x) as [Hpos|Hnpos].
  - pose proof (atan_bound (y / x)). lra.
  - destruct (Rlt_dec x 0) as [Hneg|Hnneg].
    + pose proof (atan_bound (y / x)) as Hb.
      destruct (Rle_dec 0 y) as [Hy|Hy].
      * assert (atan (y / x) <= 0).
        { apply atan_nonpos. unfold Rdiv.
          assert (/ x < 0) by now apply Rinv_lt_0_compat.
          nra. }
        lra.
      * assert (0 < atan (y / x)).
        { apply atan_pos. unfold Rdiv.
          assert (/ x < 0) by now apply Rinv_lt_0_compat.
          nra. }
        lra.
    + destruct (Rlt_dec 0 y); [lra|]. destruct (Rlt_dec y 0); lra.
Qed.

Lemma calculateDistance_nonneg (c1 c2 : coord) : 0 <= calculateDistance c1 c2.
Proof.
  unfold calculateDistance. cbv zeta.
  apply Rmult_le_pos; [lra|].
  apply Rmult_le_pos; [lra|].
  apply Math_atan2_nonneg; apply sqrt_pos.
Qed.

End GeoFacts.

Section GeoLiterals.
Import Geo.
Local Open Scope R_scope.

Lemma PI_bounds : 314 / 100 < PI < 315 / 100.
Proof.
  pose proof (PI_2_3_7_ineq 1) as [Hlo Hhi].
  unfold sum_f_R0, tg_alt, PI_2_3_7_tg, Ratan_seq in Hlo, Hhi.
  cbn [Nat.mul Nat.add pow INR] in Hlo, Hhi.
  split; lra.
Qed.

Lemma Math_atan2_0_pos (x : R) : 0 < x -> Math_atan2 0 x = 0.
Proof.
  intros Hx. unfold Math_atan2.
  destruct (Rlt_dec 0 x); [|contradiction].
  unfold Rdiv. now rewrite Rmult_0_l, atan_0.
Qed.

Lemma Math_atan2_sin_cos (t : R) :
  - (PI / 2) < t < PI / 2 -> Math_atan2 (sin t) (cos t) = t.
Proof.
  intros Ht. unfold Math_atan2.
  assert (0 < cos t) as Hc by (apply cos_gt_0; lra).
  destruct (Rlt_dec 0 (cos t)); [|contradiction].
  change (sin t / cos t) with (tan t). now apply atan_tan.
Qed.

Lemma Int_part_bounds (r : R) (k : Z) :
  IZR k <= r < IZR k + 1 -> Int_part r = k.
Proof.
  intros [Hlo Hhi]. destruct (base_Int_part r) as [H1 H2].
  assert (IZR (Int_part r) < IZR (k + 1)) as Ha by (rewrite plus_IZR; lra).
  assert (IZR k < IZR (Int_part r + 1)) as Hb by (rewrite plus_IZR; lra).
  apply lt_IZR in Ha, Hb. lia.
Qed.

Lemma js_rem_range (a m : R) : 0 <= a -> 0 < m -> 0 <= js_rem a m < m.
Proof.
  intros Ha Hm. unfold js_rem, Rtrunc.
  assert (0 <= a / m) as Hq.
  { unfold Rdiv. apply Rmult_le_pos; [assumption|].
    left. now apply Rinv_0_lt_compat. }
  destruct (Rle_dec 0 (a / m)); [|contradiction].
  destruct (base_Int_part (a / m)) as [H1 H2].
  assert (a = m * (a / m)) as Hdiv by (field; lra).
  set (k := IZR (Int_part (a / m))) in *.
  set (q := a / m) in *.
  split; nra.
Qed.

Lemma js_rem_self (m : R) : 0 < m -> js_rem m m = 0.
Proof.
  intros Hm. unfold js_rem, Rtrunc.
  replace (m / m) with 1 by (field; lra).
  destruct (Rle_dec 0 1); [|lra].
  rewrite (Int_part_bounds 1 1) by lra. lra.
Qed.

Lemma toDegrees_range (theta : R) :
  - PI < theta <= PI -> -180 < toDegrees theta <= 180.
Proof.
  intros [Hlo Hhi]. pose proof PI_RGT_0 as Hpi. unfold toDegrees.
  assert (0 < 180 / PI) as Hk.
  { unfold Rdiv. apply Rmult_lt_0_compat; [lra|]. now apply Rinv_0_lt_compat. }
  assert (PI * (180 / PI) = 180) as Heq by (field; lra).
  split; nra.
Qed.

Lemma computeBearing_range (lat1 lon1 lat2 lon2 : R) :
  0 <= computeBearing lat1 lon1 lat2 lon2 < 360.
Proof.
  unfold computeBearing. cbv zeta.
  match goal with |- context [Math_atan2 ?y ?x] =>
    pose proof (toDegrees_range _ (Math_atan2_range y x)) as Hd
  end.
  apply js_rem_range; lra.
Qed.

Lemma calculateDistance_same (P : coord) : calculateDistance P P = 0.
Proof.
  unfold calculateDistance. cbv zeta.
  replace ((latitude P - latitude P) * PI / 180 / 2) with 0 by (field; lra).
  replace ((longitude P - longitude P) * PI / 180 / 2) with 0 by (field; lra).
  rewrite sin_0.
  replace (0 ^ 2 + cos (latitude P * PI / 180) * cos (latitude P * PI / 180) * 0 ^ 2)
    with 0 by ring.
  rewrite Rminus_0_r, sqrt_0, sqrt_1, Math_atan2_0_pos by lra. ring.
Qed.

Lemma computeDistance_eq (lat1 lon1 lat2 lon2 : R) :
  computeDistance lat1 lon1 lat2 lon2
  = calculateDistance (mkCoord lat1 lon1) (mkCoord lat2 lon2).
Proof.
  unfold computeDistance, calculateDistance, toRadians. cbn [latitude longitude].
  cbv zeta.
  replace (lat1 * (PI / 180)) with (lat1 * PI / 180) by (field; lra).
  replace (lat2 * (PI / 180)) with (lat2 * PI / 180) by (field; lra).
  replace ((lat2 - lat1) * (PI / 180)) with ((lat2 - lat1) * PI / 180) by (field; lra).
  replace ((lon2 - lon1) * (PI / 180)) with ((lon2 - lon1) * PI / 180) by (field; lra).
  reflexivity.
Qed.

Lemma calculateDistance_one_degree :
  calculateDistance (mkCoord 0 0) (mkCoord 0 1) = 6371000 * PI / 180.
Proof.
  pose proof PI_bounds as Hpi.
  unfold calculateDistance. cbn [latitude longitude]. cbv zeta.
  replace ((0 - 0) * PI / 180 / 2) with 0 by (field; lra).
  replace (0 * PI / 180) with 0 by (field; lra).
  replace ((1 - 0) * PI / 180 / 2) with (PI / 360) by (field; lra).
  rewrite sin_0, cos_0.
  assert (0 < sin (PI / 360)) as Hs by (apply sin_gt_0; lra).
  assert (0 < cos (PI / 360)) as Hc by (apply cos_gt_0; lra).
  replace (0 ^ 2 + 1 * 1 * sin (PI / 360) ^ 2) with (sin (PI / 360))²
    by (unfold Rsqr; ring).
  rewrite sqrt_Rsqr by lra.
  replace (1 - (sin (PI / 360))²) with (cos (PI / 360))²
    by (rewrite cos2; reflexivity).
  rewrite sqrt_Rsqr by lra.
  rewrite Math_atan2_sin_cos by lra.
  field.
Qed.

Lemma computeBearing_north : computeBearing 0 0 1 0 = 0.
Proof.
  pose proof PI_bounds as Hpi.
  unfold computeBearing, toRadians. cbv zeta.
  replace ((0 - 0) * (PI / 180)) with 0 by ring.
  replace (0 * (PI / 180)) with 0 by ring.
  replace (1 * (PI / 180)) with (PI / 180) by ring.
  rewrite sin_0, cos_0.
  replace (0 * cos (PI / 180)) with 0 by ring.
  replace (1 * sin (PI / 180) - 0 * 1) with (sin (PI / 180)) by ring.
  rewrite Math_atan2_0_pos by (apply sin_gt_0; lra).
  unfold toDegrees. rewrite Rmult_0_l, Rplus_0_l.
  apply js_rem_self. lra.
Qed.

(** C6.  The geodesic helpers are total functions of their arguments; the
    haversine distance from a point to itself is 0; the bearing always
    lies in [0, 360); the distance from (0, 0) to (0, 1) is within 1% of
    111195 m; and the bearing from (0, 0) to (1, 0) is 0 degrees. *)
Theorem C6_geodesic_helpers :
  (forall P : coord, calculateDistance P P = 0) /\
  (forall lat lon : R, computeDistance lat lon lat lon = 0) /\
  (forall lat1 lon1 lat2 lon2 : R,
      0 <= computeBearing lat1 lon1 lat2 lon2 < 360) /\
  Rabs (calculateDistance (mkCoord 0 0) (mkCoord 0 1) - 111195)
    <= 111195 / 100 /\
  Rabs (computeDistance 0 0 0 1 - 111195) <= 111195 / 100 /\
  computeBearing 0 0 1 0 = 0.
Proof.
  pose proof PI_bounds as Hpi.
  assert (Rabs (6371000 * PI / 180 - 111195) <= 111195 / 100) as Hlit.
  { apply Rabs_le. lra. }
  repeat split.
  - apply calculateDistance_same.
  - intros. rewrite computeDistance_eq. apply calculateDistance_same.
  - apply computeBearing_range.
  - apply computeBearing_range.
  - rewrite calculateDistance_one_degree. exact Hlit.
  - rewrite computeDistance_eq, calculateDistance_one_degree. exact Hlit.
  - apply computeBearing_north.
Qed.

End GeoLiterals.

(* ------------------------------------------------------------------ *)
(** ** Location filter *)

Section LocationFilter.
Import Geo Host.
Local Open Scope R_scope.

Lemma lowAccuracy_V1 (a : R) : 20 < a -> V1.lowAccuracy (Some a) = true.
Proof.
  intros Ha. unfold V1.lowAccuracy, truthyR, numR, Rltb.
  destruct (Req_dec_T a 0); [lra|]. destruct (Rlt_dec 20 a); [reflexivity|lra].
Qed.

Lemma lowAccuracy_V2 (a : R) : 20 < a -> V2.lowAccuracy (Some a) = true.
Proof.
  intros Ha. unfold V2.lowAccuracy, V2.ACCURACY_THRESHOLD, truthyR, numR, Rltb.
  destruct (Req_dec_T a 0); [lra|]. destruct (Rlt_dec 20 a); [reflexivity|lra].
Qed.

Lemma watchPosition_V1_monotone (now : Z) (coords : Coords) (s : V1.App) :
  V1.cumulativeDistance (V1.loc s)
  <= V1.cumulativeDistance (V1.loc (V1.watchPosition_callback now coords s)).
Proof.
  unfold V1.watchPosition_callback.
  destruct (V1.resultShownRef (V1.session s)); [lra|].
  destruct (negb (V1.pausedRef (V1.session s))); [|lra].
  destruct (V1.lowAccuracy (c_accuracy coords)); [lra|].
  cbv zeta.
  destruct (V1.filteredLocation (V1.loc s)) as [f|]; cbn; [|lra].
  match goal with |- context [if ?c then _ else _] => destruct c end; [|lra].
  match goal with |- _ <= _ + calculateDistance ?p ?q =>
    pose proof (calculateDistance_nonneg p q) end.
  lra.
Qed.

Lemma watchPosition_V2_monotone (platform : V2.OS) (closurePaused : bool)
  (now : Z) (coords : Coords) (s : V2.App) :
  V2.cumulativeDistance (V2.loc s)
  <= V2.cumulativeDistance
       (V2.loc (V2.watchPosition_callback platform closurePaused now coords s)).
Proof.
  unfold V2.watchPosition_callback.
  destruct (negb closurePaused); [|lra].
  destruct (V2.lowAccuracy (c_accuracy coords)); [lra|].
  cbv zeta.
  destruct (V2.filteredLocation (V2.loc s)) as [f|]; cbn; [|lra].
  match goal with |- context [if ?c then _ else _] => destruct c end; [|lra].
  match goal with |- _ <= _ + calculateDistance ?p ?q =>
    pose proof (calculateDistance_nonneg p q) end.
  lra.
Qed.

Lemma feed_V1_monotone (fixes : list (Z * Coords)) (s : V1.App) :
  V1.cumulativeDistance (V1.loc s)
  <= V1.cumulativeDistance (V1.loc (feed_V1 fixes s)).
Proof.
  revert s. induction fixes as [|f fixes IH]; intros s; cbn; [lra|].
  eapply Rle_trans; [apply (watchPosition_V1_monotone (fst f) (snd f))|].
  apply IH.
Qed.

Lemma feed_V2_monotone (platform : V2.OS) (closurePaused : bool)
  (fixes : list (Z * Coords)) (s : V2.App) :
  V2.cumulativeDistance (V2.loc s)
  <= V2.cumulativeDistance (V2.loc (feed_V2 platform closurePaused fixes s)).
Proof.
  revert s. induction fixes as [|f fixes IH]; intros s; cbn; [lra|].
  eapply Rle_trans;
    [apply (watchPosition_V2_monotone platform closurePaused (fst f) (snd f))|].
  apply IH.
Qed.

End LocationFilter.

Section InstantaneousSpeed.
Import Geo Host.
Local Open Scope R_scope.

Lemma noDeviceSpeed_test (coords : Coords) :
  noDeviceSpeed coords ->
  match c_speed coords with Some v => Rleb 0 v | None => false end = false.
Proof.
  intros [-> | (v & -> & Hv)]; [reflexivity|].
  unfold Rleb. destruct (Rle_dec 0 v); [lra|reflexivity].
Qed.

Lemma deviceSpeed_test (coords : Coords) (v : R) :
  c_speed coords = Some v -> 0 <= v ->
  match c_speed coords with Some v => Rleb 0 v | None => false end = true.
Proof.
  intros -> Hv. unfold Rleb. destruct (Rle_dec 0 v); [reflexivity|lra].
Qed.

Lemma derived_V1 (now : Z) (coords : Coords) (l : V1.LocationRefs) :
  match V1.lastLocation l with
  | Some prev =>
      if truthyZ (V1.lastLocationTimeRef l) then
        let dt := IZR (now - numZ (V1.lastLocationTimeRef l)) / 1000 in
        let dist :=
          calculateDistance prev (mkCoord (c_latitude coords) (c_longitude coords)) in
        if Rltb 0 dt then dist / dt else 0
      else 0
  | None => 0
  end = derivedSpeed now coords (V1.lastLocation l) (V1.lastLocationTimeRef l).
Proof.
  unfold derivedSpeed.
  destruct (V1.lastLocation l) as [prev|]; [|reflexivity].
  destruct (V1.lastLocationTimeRef l) as [t0|]; [|reflexivity].
  cbn [truthyZ numZ]. destruct (Z.eqb_spec t0 0) as [E|E]; cbn; [reflexivity|].
  unfold Rltb. destruct (Z.leb_spec now t0) as [L|L].
  - destruct (Rlt_dec 0 (IZR (now - t0) / 1000)) as [H|H]; [|reflexivity].
    assert (IZR (now - t0) <= 0) by (apply (IZR_le _ 0); lia). lra.
  - destruct (Rlt_dec 0 (IZR (now - t0) / 1000)) as [H|H]; [reflexivity|].
    assert (0 < IZR (now - t0)) by (apply (IZR_lt 0); lia). lra.
Qed.

Lemma computeSpeed_V1_device (now : Z) (coords : Coords) (l : V1.LocationRefs)
  (v : R) :
  c_speed coords = Some v -> 0 <= v -> V1.computeSpeed now coords l = v.
Proof.
  intros E Hv. unfold V1.computeSpeed.
  rewrite (deviceSpeed_test coords v E Hv), E. reflexivity.
Qed.

Lemma computeSpeed_V1_derived (now : Z) (coords : Coords) (l : V1.LocationRefs) :
  noDeviceSpeed coords ->
  V1.computeSpeed now coords l
  = derivedSpeed now coords (V1.lastLocation l) (V1.lastLocationTimeRef l).
Proof.
  intros H. unfold V1.computeSpeed. rewrite (noDeviceSpeed_test coords H).
  apply derived_V1.
Qed.

Lemma computeSpeed_V2_device (now : Z) (coords : Coords) (l : V2.LocationRefs)
  (v : R) :
  c_speed coords = Some v -> 0 <= v -> V2.computeSpeed V2.ios now coords l = v.
Proof.
  intros E Hv. unfold V2.computeSpeed.
  rewrite (deviceSpeed_test coords v E Hv), E. reflexivity.
Qed.

Lemma computeSpeed_V2_derived (platform : V2.OS) (now : Z) (coords : Coords)
  (l : V2.LocationRefs) :
  platform = V2.android \/ noDeviceSpeed coords ->
  V2.computeSpeed platform now coords l
  = derivedSpeed now coords (V2.lastLocation l) (V2.lastLocationTimeRef l).
Proof.
  intros H. unfold V2.computeSpeed.
  assert ((match platform with V2.ios => true | V2.android => false end
           && match c_speed coords with Some v => Rleb 0 v | None => false end)%bool
          = false) as ->.
  { destruct H as [-> | H]; [reflexivity|].
    rewrite (noDeviceSpeed_test coords H). apply andb_false_r. }
  unfold derivedSpeed.
  destruct (V2.lastLocation l) as [prev|]; [|reflexivity].
  destruct (V2.lastLocationTimeRef l) as [t0|]; [|reflexivity].
  cbn [truthyZ numZ]. destruct (Z.eqb_spec t0 0) as [E|E]; cbn; [reflexivity|].
  unfold Rltb. destruct (Z.leb_spec now t0) as [L|L].
  - destruct (Rlt_dec 0 (IZR (now - t0) / 1000)) as [H'|H']; [|reflexivity].
    assert (IZR (now - t0) <= 0) by (apply (IZR_le _ 0); lia). lra.
  - destruct (Rlt_dec 0 (IZR (now - t0) / 1000)) as [H'|H']; [reflexivity|].
    assert (0 < IZR (now - t0)) by (apply (IZR_lt 0); lia). lra.
Qed.

Lemma watchPosition_V1_speed (now : Z) (coords : Coords) (s : V1.App) :
  processed_V1 coords s ->
  let s' := V1.watchPosition_callback now coords s in
  V1.speed (V1.loc s') = V1.computeSpeed now coords (V1.loc s) /\
  V1.speedReadings (V1.loc s')
  = V1.speedReadings (V1.loc s) ++ [V1.computeSpeed now coords (V1.loc s)].
Proof.
  intros (H1 & H2 & H3). unfold V1.watchPosition_callback.
  rewrite H1, H2, H3. cbn [negb]. cbv zeta.
  destruct (V1.filteredLocation (V1.loc s)); split; reflexivity.
Qed.

Lemma watchPosition_V2_speed (platform : V2.OS) (now : Z) (coords : Coords)
  (s : V2.App) :
  V2.lowAccuracy (c_accuracy coords) = false ->
  let s' := V2.watchPosition_callback platform false now coords s in
  V2.speed (V2.loc s') = V2.computeSpeed platform now coords (V2.loc s) /\
  V2.speedReadings (V2.loc s')
  = V2.speedReadings (V2.loc s) ++ [V2.computeSpeed platform now coords (V2.loc s)].
Proof.
  intros H3. unfold V2.watchPosition_callback.
  rewrite H3. cbn [negb]. cbv zeta.
  destruct (V2.filteredLocation (V2.loc s)); split; reflexivity.
Qed.

(** A processed fix is stored as the previous raw location of the next
    one (lines 945 and 979). *)
Lemma watchPosition_V1_stores (now : Z) (coords : Coords) (s : V1.App) :
  processed_V1 coords s ->
  let s' := V1.watchPosition_callback now coords s in
  V1.lastLocation (V1.loc s')
  = Some (mkCoord (c_latitude coords) (c_longitude coords)) /\
  V1.lastLocationTimeRef (V1.loc s') = Some now /\
  V1.session s' = V1.session s.
Proof.
  intros (H1 & H2 & H3). unfold V1.watchPosition_callback.
  rewrite H1, H2, H3. cbn [negb]. cbv zeta.
  destruct (V1.filteredLocation (V1.loc s)); repeat split; reflexivity.
Qed.

(** The second screen assigns [lastLocation.current] at line 1723 only,
    and assigns [null]. *)
Lemma watchPosition_V2_lastLocation (platform : V2.OS) (closurePaused : bool)
  (now : Z) (coords : Coords) (s : V2.App) :
  V2.lastLocation
    (V2.loc (V2.watchPosition_callback platform closurePaused now coords s))
  = V2.lastLocation (V2.loc s).
Proof.
  unfold V2.watchPosition_callback. cbv zeta. split_tests; reflexivity.
Qed.

Lemma run_timers_V2_loc (now : Z) (s : V2.App) :
  V2.loc (V2.run_timers now s) = V2.loc s.
Proof.
  unfold V2.run_timers. cbv zeta.
  set (s0 := V2.with_env _ s).
  change (V2.loc s) with (V2.loc s0). clearbody s0.
  generalize (due_timers now (V2.timers (V2.env s))). intros q.
  revert s0. induction q as [|t q IH]; intros s0; cbn; [reflexivity|].
  rewrite IH. destruct (act t); reflexivity.
Qed.

Lemma lastLocation_V2_dispatch (M : MathHost) (platform : V2.OS) (now : Z)
  (ev : V2.Event) (s : V2.App) :
  V2.lastLocation (V2.loc s) = None ->
  V2.lastLocation (V2.loc (V2.dispatch M platform now ev s)) = None.
Proof.
  intros H. destruct ev; cbn [V2.dispatch].
  - destruct (_ && _)%bool; [|exact H].
    unfold V2.accelerometer_callback, V2.finalizeStop. cbv zeta.
    split_tests; exact H.
  - generalize (V2.watches (V2.env s)). intros ws. revert s H.
    induction ws as [|w ws IH]; intros s H; cbn; [exact H|].
    apply IH. now rewrite watchPosition_V2_lastLocation.
  - reflexivity.
  - destruct (V2.tracking _); [|exact H].
    unfold V2.stopTracking. cbv zeta. split_tests; exact H.
  - destruct (V2.tracking _); exact H.
  - destruct (V2.showResults _); exact H.
  - destruct (V2.assistanceAlertVisible _); exact H.
  - exact H.
Qed.

Lemma lastLocation_V2_run (M : MathHost) (platform : V2.OS)
  (trace : list (Z * V2.Event)) (firstWatch : Z) :
  V2.lastLocation (V2.loc (V2.run M platform trace (V2.initial firstWatch)))
  = None.
Proof.
  unfold V2.run.
  assert (V2.lastLocation (V2.loc (V2.initial firstWatch)) = None) as H
    by reflexivity.
  revert H. generalize (V2.initial firstWatch).
  induction trace as [|tev trace IH]; intros s H; cbn; [exact H|].
  apply IH. unfold V2.step. apply lastLocation_V2_dispatch.
  now rewrite run_timers_V2_loc.
Qed.

(** C7, as the code has it.  For every processed location fix the
    instantaneous speed (the [speed] state and the reading appended to
    [speedReadings]) equals the device-reported speed whenever that field
    is present and non-negative -- in the second screen only when,
    besides, the platform is iOS.  Otherwise, in the first screen, it
    equals the haversine distance from the previous raw location (the
    coordinates of the fix processed before, which the callback stores)
    to the fix, divided by the elapsed seconds, and it is 0 when the
    elapsed time is <= 0 or no previous location exists, as for the first
    fix after beginTracking.  The second screen never stores a previous
    location: in every state reached from mount [lastLocation] is
    [null], so a fix whose device speed is not used gets the speed 0. *)
Theorem C7_instantaneous_speed :
  (forall now coords s, processed_V1 coords s ->
     let v := V1.computeSpeed now coords (V1.loc s) in
     let s' := V1.watchPosition_callback now coords s in
     V1.speed (V1.loc s') = v /\
     V1.speedReadings (V1.loc s') = V1.speedReadings (V1.loc s) ++ [v]) /\
  (forall now coords l v,
     c_speed coords = Some v -> 0 <= v -> V1.computeSpeed now coords l = v) /\
  (forall t1 t2 c1 c2 s,
     processed_V1 c1 s ->
     V1.lowAccuracy (c_accuracy c2) = false ->
     noDeviceSpeed c2 ->
     let s1 := V1.watchPosition_callback t1 c1 s in
     let s2 := V1.watchPosition_callback t2 c2 s1 in
     V1.speed (V1.loc s2)
     = if ((t1 =? 0)%Z || (t2 <=? t1)%Z)%bool then 0
       else calculateDistance (mkCoord (c_latitude c1) (c_longitude c1))
                              (mkCoord (c_latitude c2) (c_longitude c2))
            / (IZR (t2 - t1) / 1000)) /\
  (forall now coords l,
     noDeviceSpeed coords -> V1.lastLocation l = None ->
     V1.computeSpeed now coords l = 0) /\
  (forall t0 start s,
     V1.lastLocation (V1.loc (V1.beginTracking t0 start s)) = None) /\
  (forall platform now coords s, V2.lowAccuracy (c_accuracy coords) = false ->
     let v := V2.computeSpeed platform now coords (V2.loc s) in
     let s' := V2.watchPosition_callback platform false now coords s in
     V2.speed (V2.loc s') = v /\
     V2.speedReadings (V2.loc s') = V2.speedReadings (V2.loc s) ++ [v]) /\
  (forall now coords l v,
     c_speed coords = Some v -> 0 <= v ->
     V2.computeSpeed V2.ios now coords l = v) /\
  (forall M platform trace firstWatch now coords,
     let s := V2.run M platform trace (V2.initial firstWatch) in
     V2.lastLocation (V2.loc s) = None /\
     (platform = V2.android \/ noDeviceSpeed coords ->
      V2.computeSpeed platform now coords (V2.loc s) = 0)).
Proof.
  split; [exact watchPosition_V1_speed|].
  split; [exact computeSpeed_V1_device|].
  split.
  { intros t1 t2 c1 c2 s H1 Ha Hn. cbv zeta.
    destruct (watchPosition_V1_stores t1 c1 s H1) as (E1 & E2 & E3).
    cbv zeta in *.
    assert (processed_V1 c2 (V1.watchPosition_callback t1 c1 s)) as H2.
    { destruct H1 as (P1 & P2 & _). unfold processed_V1. rewrite E3.
      repeat split; assumption. }
    rewrite (proj1 (watchPosition_V1_speed t2 c2 _ H2)).
    rewrite (computeSpeed_V1_derived t2 c2 _ Hn), E1, E2. reflexivity. }
  split.
  { intros now coords l Hn Hl.
    rewrite (computeSpeed_V1_derived now coords l Hn), Hl. reflexivity. }
  split; [reflexivity|].
  split; [exact watchPosition_V2_speed|].
  split; [exact computeSpeed_V2_device|].
  intros M platform trace firstWatch now coords. cbv zeta.
  pose proof (lastLocation_V2_run M platform trace firstWatch) as Hl.
  split; [exact Hl|]. intros H.
  rewrite (computeSpeed_V2_derived platform now coords _ H), Hl. reflexivity.
Qed.

Lemma C7_witness :
  V1.computeSpeed 2000 fix_speed5 (V1.loc (V1.initial 1)) = 5.
Proof.
  assert (0 <= 5) as H by lra.
  exact (proj1 (proj2 C7_instantaneous_speed) 2000%Z fix_speed5
           (V1.loc (V1.initial 1)) 5 eq_refl H).
Defined.

(** C7 as stated fails on the second screen, twice.  On Android a fix
    that reports 5 m/s is given the speed 0.  And a fix that reports no
    speed, one degree east of the fix processed a second before, is given
    the speed 0, not the distance between the two over one second. *)
Lemma C7_counterexample :
  V2.speed
    (V2.loc
       (V2.run refMath V2.android
          [(1000%Z, V2.Start false); (2000%Z, V2.LocationFix fix_speed5)]
          (V2.initial 1)))
  <> 5 /\
  V2.speed
    (V2.loc
       (V2.run refMath V2.ios
          [(1000%Z, V2.Start false); (2000%Z, V2.LocationFix fix_origin);
           (3000%Z, V2.LocationFix fix_east)]
          (V2.initial 1)))
  <> calculateDistance (mkCoord 0 0) (mkCoord 0 1) / (IZR (3000 - 2000) / 1000).
Proof.
  split.
  - cbn. lra.
  - rewrite calculateDistance_one_degree. cbn. pose proof PI_bounds. lra.
Qed.

End InstantaneousSpeed.

(* ------------------------------------------------------------------ *)
(** ** Journey aggregator: the stop list and its counters *)

Section StopAggregates.
Import Host.

Lemma sum_app_one (durations : list Z) (d : Z) :
  fold_right Z.add 0%Z (durations ++ [d]) = (fold_right Z.add 0%Z durations + d)%Z.
Proof. induction durations as [|x l IH]; cbn in *; lia. Qed.

(** *** First screen *)

Lemma finalizeStop_V1_view (M : MathHost) (now : Z) (s : V1.App) :
  stopView_V1 (V1.finalizeStop M now s)
  = let d := (now - numZ (V1.currentStopStartRef (V1.det s)))%Z in
    if (V1.STILLNESS_DURATION <=? d)%Z
    then (S (V1.counts (V1.journey s) V1.stopCount),
          V1.stops (V1.journey s)
            ++ [V1.mkStop (if batchedUpdates M then None
                           else V1.currentStopStartRef (V1.det s)) now d],
          (V1.totalStopTime (V1.journey s) + d)%Z)
    else stopView_V1 s.
Proof.
  unfold V1.finalizeStop, stopView_V1. cbv zeta.
  destruct (V1.stillAlertTimeoutRef (V1.det s)); cbn;
    destruct (V1.STILLNESS_DURATION <=? _)%Z; reflexivity.
Qed.

Lemma stopDurations_V1_view (s : V1.App) :
  stopDurations_V1 s
  = (fst (fst (stopView_V1 s)), map V1.duration (snd (fst (stopView_V1 s))),
     snd (stopView_V1 s)).
Proof. reflexivity. Qed.

Lemma stillness_V1_view (M : MathHost) (now : Z) (a : vec3) (s : V1.App) :
  stopView_V1 (V1.stillness M now a s) = stopView_V1 s \/
  (truthyZ (V1.currentStopStartRef (V1.det s)) = true /\
   stopView_V1 (V1.stillness M now a s) = stopView_V1 (V1.finalizeStop M now s)).
Proof.
  unfold V1.stillness.
  destruct (V1.lastAccelRef (V1.det s)); [|now left].
  cbv zeta. destruct (_ && _)%bool.
  - left. destruct (truthyZ _); reflexivity.
  - destruct (truthyZ _); [right; split; reflexivity | now left].
Qed.

Lemma handleBumpEvent_V1_view (now : Z) (z : float) (s : V1.App) :
  stopView_V1 (V1.handleBumpEvent now z s) = stopView_V1 s.
Proof. unfold V1.handleBumpEvent. split_tests; reflexivity. Qed.

Lemma bumpDetection_V1_view (now : Z) (a : vec3) (s : V1.App) :
  stopView_V1 (V1.bumpDetection now a s) = stopView_V1 s.
Proof.
  unfold V1.bumpDetection. cbv zeta.
  destruct (_ && _)%bool; [|reflexivity].
  destruct (V1.bumpThreshold <? _)%float; [|reflexivity].
  now rewrite handleBumpEvent_V1_view.
Qed.

Lemma fallDetection_V1_view (M : MathHost) (now : Z) (a : vec3) (s : V1.App) :
  stopView_V1 (V1.fallDetection M now a s) = stopView_V1 s.
Proof. unfold V1.fallDetection. cbv zeta. split_tests; reflexivity. Qed.

Lemma gyroscope_V1_view (now : Z) (g : vec3) (s : V1.App) :
  stopView_V1 (V1.gyroscope_callback now g s) = stopView_V1 s.
Proof. unfold V1.gyroscope_callback. cbv zeta. split_tests; reflexivity. Qed.

Lemma watchPosition_V1_view (now : Z) (coords : Coords) (s : V1.App) :
  stopView_V1 (V1.watchPosition_callback now coords s) = stopView_V1 s.
Proof.
  unfold V1.watchPosition_callback. cbv zeta.
  split_tests; reflexivity.
Qed.

Lemma run_timers_V1_view (now : Z) (s : V1.App) :
  stopView_V1 (V1.run_timers now s) = stopView_V1 s.
Proof.
  unfold V1.run_timers. cbv zeta.
  set (s0 := V1.with_env _ s).
  change (stopView_V1 s) with (stopView_V1 s0). clearbody s0.
  generalize (due_timers now (V1.timers (V1.env s))). intros q.
  revert s0. induction q as [|t q IH]; intros s0; cbn; [reflexivity|].
  rewrite IH. destruct (act t); reflexivity.
Qed.

Lemma accelerometer_V1_view (M : MathHost) (now : Z) (a : vec3) (s : V1.App) :
  stopView_V1 (V1.accelerometer_callback M now a s)
  = if (V1.resultShownRef (V1.session s) || V1.pausedRef (V1.session s))%bool
    then stopView_V1 s else stopView_V1 (V1.stillness M now a s).
Proof.
  unfold V1.accelerometer_callback.
  destruct (V1.resultShownRef _); [reflexivity|].
  destruct (V1.pausedRef _); [reflexivity|]. cbn [negb orb]. cbv zeta.
  now rewrite fallDetection_V1_view, bumpDetection_V1_view.
Qed.

Lemma consistent_V1_finalizeStop (M : MathHost) (now : Z) (s : V1.App) :
  stops_consistent V1.duration (stopView_V1 s) ->
  stops_consistent V1.duration (stopView_V1 (V1.finalizeStop M now s)).
Proof.
  rewrite finalizeStop_V1_view. cbv zeta.
  destruct (V1.STILLNESS_DURATION <=? _)%Z; [|trivial].
  unfold stops_consistent, stopView_V1. cbn. intros [Hc Ht].
  rewrite length_app, map_app. cbn [map]. rewrite sum_app_one. cbn. split; lia.
Qed.

Lemma consistent_V1_dispatch (M : MathHost) (now : Z) (ev : V1.Event)
  (s : V1.App) :
  stops_consistent V1.duration (stopView_V1 s) ->
  stops_consistent V1.duration (stopView_V1 (V1.dispatch M now ev s)).
Proof.
  intros H. destruct ev; cbn [V1.dispatch].
  - destruct (_ && _)%bool; [|exact H].
    rewrite accelerometer_V1_view. destruct (_ || _)%bool; [exact H|].
    destruct (stillness_V1_view M now a s) as [-> | [_ ->]]; [exact H|].
    now apply consistent_V1_finalizeStop.
  - destruct (_ && _)%bool; [|exact H]. now rewrite gyroscope_V1_view.
  - generalize (V1.watches (V1.env s)). intros ws. revert s H.
    induction ws as [|w ws IH]; intros s H; cbn; [exact H|].
    apply IH. now rewrite watchPosition_V1_view.
  - exact H.
  - destruct (V1.tracking _); [|exact H].
    unfold V1.stopTracking. cbv zeta.
    replace (stopView_V1 _) with (stopView_V1 s); [exact H|].
    destruct (V1.locationSubscription (V1.session s)) as [id|];
      [destruct (id =? 0)%Z|];
      cbn; destruct (V1.stillAlertTimeoutRef (V1.det s)); reflexivity.
  - destruct (V1.tracking _); exact H.
  - destruct (V1.showResults _); [|exact H].
    unfold stops_consistent, stopView_V1. cbn. split; reflexivity.
  - exact H.
Qed.

Lemma consistent_V1_run (M : MathHost) (trace : list (Z * V1.Event))
  (s : V1.App) :
  stops_consistent V1.duration (stopView_V1 s) ->
  stops_consistent V1.duration (stopView_V1 (V1.run M trace s)).
Proof.
  revert s. induction trace as [|tev trace IH]; intros s H; cbn; [exact H|].
  apply IH. unfold V1.step. apply consistent_V1_dispatch.
  now rewrite run_timers_V1_view.
Qed.

(** *** Second screen *)

Lemma finalizeStop_V2_view (M : MathHost) (now : Z) (s : V2.App) :
  stopView_V2 (V2.finalizeStop M now s)
  = let d := (now - numZ (V2.currentStopStartRef (V2.det s)))%Z in
    if (V2.STILLNESS_DURATION <=? d)%Z
    then (S (V2.counts (V2.journey s) V2.stopCount),
          V2.stops (V2.journey s)
            ++ [V2.mkStop (if batchedUpdates M then None
                           else V2.currentStopStartRef (V2.det s)) now d],
          (V2.totalStopTime (V2.journey s) + d)%Z)
    else stopView_V2 s.
Proof.
  unfold V2.finalizeStop, stopView_V2. cbv zeta.
  destruct (V2.stillAlertTimeoutRef (V2.det s)); cbn;
    destruct (V2.STILLNESS_DURATION <=? _)%Z; cbn;
    destruct (V2.accelSeesAlertVisible (V2.session s)); reflexivity.
Qed.


Lemma accelerometer_V2_view (M : MathHost) (now : Z) (a : vec3) (s : V2.App) :
  stopView_V2 (V2.accelerometer_callback M now a s) = stopView_V2 s \/
  (truthyZ (V2.currentStopStartRef (V2.det s)) = true /\
   stopView_V2 (V2.accelerometer_callback M now a s)
   = stopView_V2 (V2.finalizeStop M now s)).
Proof.
  unfold V2.accelerometer_callback. cbv zeta.
  destruct (V2.lastAccelRef (V2.det s)); [|now left].
  destruct (_ && _)%bool.
  - left. destruct (truthyZ _); reflexivity.
  - destruct (truthyZ _); [right; split; reflexivity | now left].
Qed.

Lemma watchPosition_V2_view (platform : V2.OS) (closurePaused : bool) (now : Z)
  (coords : Coords) (s : V2.App) :
  stopView_V2 (V2.watchPosition_callback platform closurePaused now coords s)
  = stopView_V2 s.
Proof.
  unfold V2.watchPosition_callback. cbv zeta.
  split_tests; reflexivity.
Qed.

Lemma run_timers_V2_view (now : Z) (s : V2.App) :
  stopView_V2 (V2.run_timers now s) = stopView_V2 s.
Proof.
  unfold V2.run_timers. cbv zeta.
  set (s0 := V2.with_env _ s).
  change (stopView_V2 s) with (stopView_V2 s0). clearbody s0.
  generalize (due_timers now (V2.timers (V2.env s))). intros q.
  revert s0. induction q as [|t q IH]; intros s0; cbn; [reflexivity|].
  rewrite IH. destruct (act t); reflexivity.
Qed.

Lemma consistent_V2_finalizeStop (M : MathHost) (now : Z) (s : V2.App) :
  stops_consistent V2.duration (stopView_V2 s) ->
  stops_consistent V2.duration (stopView_V2 (V2.finalizeStop M now s)).
Proof.
  rewrite finalizeStop_V2_view. cbv zeta.
  destruct (V2.STILLNESS_DURATION <=? _)%Z; [|trivial].
  unfold stops_consistent, stopView_V2. cbn. intros [Hc Ht].
  rewrite length_app, map_app. cbn [map]. rewrite sum_app_one. cbn. split; lia.
Qed.

Lemma consistent_V2_dispatch (M : MathHost) (platform : V2.OS) (now : Z)
  (ev : V2.Event) (s : V2.App) :
  stops_consistent V2.duration (stopView_V2 s) ->
  stops_consistent V2.duration (stopView_V2 (V2.dispatch M platform now ev s)).
Proof.
  intros H. destruct ev; cbn [V2.dispatch].
  - destruct (_ && _)%bool; [|exact H].
    destruct (accelerometer_V2_view M now a s) as [-> | [_ ->]]; [exact H|].
    now apply consistent_V2_finalizeStop.
  - generalize (V2.watches (V2.env s)). intros ws. revert s H.
    induction ws as [|w ws IH]; intros s H; cbn; [exact H|].
    apply IH. now rewrite watchPosition_V2_view.
  - exact H.
  - destruct (V2.tracking _); [|exact H].
    unfold V2.stopTracking. cbv zeta.
    replace (stopView_V2 _) with (stopView_V2 s); [exact H|].
    destruct (V2.locationSubscription (V2.session s)) as [id|];
      [destruct (id =? 0)%Z|]; reflexivity.
  - destruct (V2.tracking _); exact H.
  - destruct (V2.showResults _); [|exact H].
    unfold stops_consistent, stopView_V2. cbn. split; reflexivity.
  - destruct (V2.assistanceAlertVisible _); exact H.
  - exact H.
Qed.

Lemma consistent_V2_run (M : MathHost) (platform : V2.OS)
  (trace : list (Z * V2.Event)) (s : V2.App) :
  stops_consistent V2.duration (stopView_V2 s) ->
  stops_consistent V2.duration (stopView_V2 (V2.run M platform trace s)).
Proof.
  revert s. induction trace as [|tev trace IH]; intros s H; cbn; [exact H|].
  apply IH. unfold V2.step. apply consistent_V2_dispatch.
  now rewrite run_timers_V2_view.
Qed.

(** C10.  After any sequence of events from mount -- samples, timers,
    Start, Pause, Stop, the new-journey reset -- [stopCount] is the length
    of [stops] and [totalStopTime] is the sum of their durations.  Both
    screens. *)
Theorem C10_stop_count_and_time_match_stops :
  (forall M trace firstWatch,
     let j := V1.journey (V1.run M trace (V1.initial firstWatch)) in
     V1.counts j V1.stopCount = List.length (V1.stops j) /\
     V1.totalStopTime j = fold_right Z.add 0%Z (map V1.duration (V1.stops j))) /\
  (forall M platform trace firstWatch,
     let j := V2.journey (V2.run M platform trace (V2.initial firstWatch)) in
     V2.counts j V2.stopCount = List.length (V2.stops j) /\
     V2.totalStopTime j = fold_right Z.add 0%Z (map V2.duration (V2.stops j))).
Proof.
  split.
  - intros M trace w.
    apply (consistent_V1_run M trace (V1.initial w)). split; reflexivity.
  - intros M platform trace w.
    apply (consistent_V2_run M platform trace (V2.initial w)). split; reflexivity.
Qed.

End StopAggregates.

(* ------------------------------------------------------------------ *)
(** ** Stillness detector: the 15-second gate *)

Section StillnessGate.
Import Host.

Lemma stillness_V1_moving (M : MathHost) (now : Z) (l a : vec3) (s : V1.App) :
  V1.lastAccelRef (V1.det s) = Some l ->
  still l a = false ->
  V1.stillness M now a s
  = if truthyZ (V1.currentStopStartRef (V1.det s)) then V1.finalizeStop M now s
    else s.
Proof.
  intros Hl Hm. unfold V1.stillness. rewrite Hl. cbv zeta.
  unfold still in Hm. unfold V1.STANDING_STILL_THRESHOLD. now rewrite Hm.
Qed.




(** The stop aggregates after a moving sample ends a stillness period
    that began at [t0]. *)
Lemma accelerometer_V1_ends_period (M : MathHost) (now t0 : Z) (l a : vec3)
  (s : V1.App) :
  V1.resultShownRef (V1.session s) = false ->
  V1.pausedRef (V1.session s) = false ->
  V1.lastAccelRef (V1.det s) = Some l ->
  still l a = false ->
  V1.currentStopStartRef (V1.det s) = Some t0 -> t0 <> 0%Z ->
  stopDurations_V1 (V1.accelerometer_callback M now a s)
  = if (15000 <=? now - t0)%Z
    then (S (V1.counts (V1.journey s) V1.stopCount),
          map V1.duration (V1.stops (V1.journey s)) ++ [(now - t0)%Z],
          (V1.totalStopTime (V1.journey s) + (now - t0))%Z)
    else stopDurations_V1 s.
Proof.
  intros Hr Hp Hl Hm Ht Hnz.
  rewrite stopDurations_V1_view, accelerometer_V1_view, Hr, Hp. cbn [orb].
  rewrite (stillness_V1_moving M now l a s Hl Hm), Ht. cbn [truthyZ].
  destruct (Z.eqb_spec t0 0) as [E|_]; [contradiction|]. cbn [negb].
  rewrite finalizeStop_V1_view, Ht. cbn [numZ]. cbv zeta.
  unfold V1.STILLNESS_DURATION.
  destruct (15000 <=? now - t0)%Z; [|reflexivity].
  cbn [fst snd]. now rewrite map_app.
Qed.




End StillnessGate.

(* ------------------------------------------------------------------ *)
(** ** The timer queue *)

Section TimerQueue.
Import Host.
Context {A : Type}.
Implicit Types (t u : Timer A) (q : list (Timer A)).

Lemma due_pending_split (now : Z) q :
  due_timers now q ++ pending_timers now q = q.
Proof.
  induction q as [|t q IH]; cbn; [reflexivity|].
  destruct (due t <=? now)%Z; cbn; [now rewrite IH | reflexivity].
Qed.

Lemma due_timers_due (now : Z) q t :
  In t (due_timers now q) -> (due t <= now)%Z.
Proof.
  induction q as [|u q IH]; cbn; [contradiction|].
  destruct (Z.leb_spec (due u) now) as [L|L]; cbn; [|contradiction].
  intros [<- | Hin]; [assumption | now apply IH].
Qed.

Lemma due_timers_complete (now : Z) q t :
  sorted_queue q -> In t q -> (due t <= now)%Z -> In t (due_timers now q).
Proof.
  induction q as [|u q IH]; cbn; [contradiction|].
  intros [Hu Hq] Hin Hdue.
  destruct (Z.leb_spec (due u) now) as [L|L].
  - destruct Hin as [<- | Hin]; [now left | right; now apply IH].
  - exfalso. destruct Hin as [<- | Hin]; [lia|].
    rewrite Forall_forall in Hu. specialize (Hu t Hin). lia.
Qed.

Lemma insert_timer_In t q u :
  In u (insert_timer t q) <-> u = t \/ In u q.
Proof.
  induction q as [|v q IH]; cbn; [intuition congruence|].
  destruct (due t <? due v)%Z; cbn; [intuition congruence|].
  rewrite IH. intuition congruence.
Qed.

Lemma insert_timer_sorted t q :
  sorted_queue q -> sorted_queue (insert_timer t q).
Proof.
  induction q as [|v q IH]; cbn; [intros _; split; [constructor|exact I]|].
  intros [Hv Hq]. destruct (Z.ltb_spec (due t) (due v)) as [L|L]; cbn.
  - split; [|split; assumption]. constructor; [lia|].
    rewrite Forall_forall in Hv |- *. intros u Hu. specialize (Hv u Hu). lia.
  - split; [|now apply IH].
    rewrite Forall_forall in Hv |- *. intros u Hu.
    apply insert_timer_In in Hu as [-> | Hu]; [lia | now apply Hv].
Qed.

Lemma filter_sorted (p : Timer A -> bool) q :
  sorted_queue q -> sorted_queue (filter p q).
Proof.
  induction q as [|v q IH]; cbn; [trivial|].
  intros [Hv Hq]. destruct (p v); cbn; [|now apply IH].
  split; [|now apply IH].
  rewrite Forall_forall in Hv |- *. intros u Hu.
  apply filter_In in Hu as [Hu _]. now apply Hv.
Qed.

Lemma pending_timers_sorted (now : Z) q :
  sorted_queue q -> sorted_queue (pending_timers now q).
Proof.
  induction q as [|v q IH]; cbn; [trivial|].
  intros [Hv Hq]. destruct (due v <=? now)%Z; [now apply IH|].
  cbn. split; assumption.
Qed.

Lemma pending_timers_In (now : Z) q t :
  In t (pending_timers now q) -> In t q.
Proof.
  intros H. rewrite <- (due_pending_split now q). apply in_or_app. now right.
Qed.

Lemma filter_insert_timer (p : Timer A -> bool) t q :
  filter p q = [] ->
  filter p (insert_timer t q) = if p t then [t] else [].
Proof.
  induction q as [|v q IH]; cbn; [destruct (p t); reflexivity|].
  destruct (p v) eqn:Hv; [discriminate|]. intros Hq.
  destruct (due t <? due v)%Z; cbn; rewrite ?Hv.
  - rewrite Hq. destruct (p t); reflexivity.
  - now apply IH.
Qed.

Lemma filter_insert_timer_other (p : Timer A -> bool) t q :
  p t = false -> filter p (insert_timer t q) = filter p q.
Proof.
  intros Ht. induction q as [|v q IH]; cbn; [now rewrite Ht|].
  destruct (due t <? due v)%Z; cbn; [now rewrite Ht|].
  now rewrite IH.
Qed.

End TimerQueue.

(* ------------------------------------------------------------------ *)
(** ** Bump and fall detectors (first screen) *)

Section BumpAndFall.
Import Host.

Lemma fire_all_frame (l : list (Timer V1.TimerAction)) (s : V1.App) :
  let s' := fire_all l s in
  V1.journey s' = V1.journey s /\
  V1.session s' = V1.session s /\
  V1.timers (V1.env s') = V1.timers (V1.env s) /\
  filter is_bump (V1.notifications (V1.env s'))
  = filter is_bump (V1.notifications (V1.env s)) /\
  V1.baselineZRef (V1.det s') = V1.baselineZRef (V1.det s) /\
  V1.baselineFallRef (V1.det s') = V1.baselineFallRef (V1.det s) /\
  V1.fallDetectionStartRef (V1.det s') = V1.fallDetectionStartRef (V1.det s) /\
  V1.crashCooldownInternalRef (V1.det s')
  = if existsb is_cooloff l then false
    else V1.crashCooldownInternalRef (V1.det s).
Proof.
  revert s. induction l as [|t l IH]; intros s; cbn.
  - repeat split; reflexivity.
  - specialize (IH (V1.fire (act t) s)). cbv zeta in IH. unfold fire_all in IH.
    destruct IH as (H1 & H2 & H3 & H4 & H5 & H6 & H7 & H8).
    rewrite H1, H2, H3, H4, H5, H6, H7, H8. unfold is_cooloff at 2.
    destruct (act t); cbn.
    + rewrite filter_app, app_nil_r. repeat split; reflexivity.
    + repeat split; try reflexivity. now destruct (existsb is_cooloff l).
Qed.

Lemma run_timers_V1_frame (now : Z) (s : V1.App) :
  let s' := V1.run_timers now s in
  V1.journey s' = V1.journey s /\
  V1.session s' = V1.session s /\
  V1.timers (V1.env s') = pending_timers now (V1.timers (V1.env s)) /\
  filter is_bump (V1.notifications (V1.env s'))
  = filter is_bump (V1.notifications (V1.env s)) /\
  V1.baselineZRef (V1.det s') = V1.baselineZRef (V1.det s) /\
  V1.baselineFallRef (V1.det s') = V1.baselineFallRef (V1.det s) /\
  V1.fallDetectionStartRef (V1.det s') = V1.fallDetectionStartRef (V1.det s) /\
  V1.crashCooldownInternalRef (V1.det s')
  = if existsb is_cooloff (due_timers now (V1.timers (V1.env s))) then false
    else V1.crashCooldownInternalRef (V1.det s).
Proof.
  cbv zeta. unfold V1.run_timers.
  match goal with |- context [fold_left _ ?l ?s0] =>
    pose proof (fire_all_frame l s0) as H; cbv zeta in H; unfold fire_all in H
  end.
  exact H.
Qed.

(** *** The stages of the accelerometer subscriber *)

(** What the stillness stage leaves alone. *)
Lemma stillness_V1_frame (M : MathHost) (now : Z) (a : vec3) (s : V1.App) :
  let s' := V1.stillness M now a s in
  V1.counts (V1.journey s') V1.bumpMajorCount
  = V1.counts (V1.journey s) V1.bumpMajorCount /\
  V1.counts (V1.journey s') V1.bumpMinorCount
  = V1.counts (V1.journey s) V1.bumpMinorCount /\
  V1.counts (V1.journey s') V1.fallCount
  = V1.counts (V1.journey s) V1.fallCount /\
  V1.isFallen (V1.journey s') = V1.isFallen (V1.journey s) /\
  V1.session s' = V1.session s /\
  V1.notifications (V1.env s') = V1.notifications (V1.env s) /\
  V1.baselineZRef (V1.det s') = V1.baselineZRef (V1.det s) /\
  V1.baselineFallRef (V1.det s') = V1.baselineFallRef (V1.det s) /\
  V1.fallDetectionStartRef (V1.det s') = V1.fallDetectionStartRef (V1.det s) /\
  V1.crashCooldownInternalRef (V1.det s')
  = V1.crashCooldownInternalRef (V1.det s).
Proof.
  cbv zeta. unfold V1.stillness, V1.finalizeStop. cbv zeta.
  split_tests; cbn; repeat split; reflexivity.
Qed.

Lemma stillness_V1_timers (M : MathHost) (now : Z) (a : vec3) (s : V1.App) :
  let q := V1.timers (V1.env s) in
  let q' := V1.timers (V1.env (V1.stillness M now a s)) in
  q' = q \/
  (exists id, q' = insert_timer (mkTimer id (now + 15000)%Z V1.StillAlert) q) \/
  (exists id, q' = clear_timer id q).
Proof.
  cbv zeta. unfold V1.stillness, V1.finalizeStop. cbv zeta.
  destruct (V1.lastAccelRef (V1.det s)); [|now left].
  destruct (_ && _)%bool.
  - destruct (negb _); [|now left]. right; left. cbn. eexists. reflexivity.
  - destruct (truthyZ _); [|now left].
    destruct (V1.stillAlertTimeoutRef (V1.det s)) as [id|]; cbn.
    + right; right. exists id. split_tests; reflexivity.
    + left. split_tests; reflexivity.
Qed.

Lemma fallDetection_V1_frame (M : MathHost) (now : Z) (a : vec3) (s : V1.App) :
  let s' := V1.fallDetection M now a s in
  V1.counts (V1.journey s') V1.bumpMajorCount
  = V1.counts (V1.journey s) V1.bumpMajorCount /\
  V1.counts (V1.journey s') V1.bumpMinorCount
  = V1.counts (V1.journey s) V1.bumpMinorCount /\
  V1.session s' = V1.session s /\
  V1.timers (V1.env s') = V1.timers (V1.env s) /\
  filter is_bump (V1.notifications (V1.env s'))
  = filter is_bump (V1.notifications (V1.env s)) /\
  V1.baselineZRef (V1.det s') = V1.baselineZRef (V1.det s) /\
  V1.crashCooldownInternalRef (V1.det s')
  = V1.crashCooldownInternalRef (V1.det s).
Proof.
  cbv zeta. unfold V1.fallDetection. cbv zeta.
  split_tests; cbn; rewrite ?filter_app, ?app_nil_r; repeat split; reflexivity.
Qed.

(** The bump stage when it is armed and the sample crosses the threshold:
    one counter goes up by one, one Bump toast is emitted, the cooldown
    flag is set and its timer queued. *)
Lemma bumpDetection_V1_fires (now : Z) (a : vec3) (s : V1.App) :
  V1.isFallen (V1.journey s) = false ->
  V1.crashCooldownInternalRef (V1.det s) = false ->
  crosses s a = true ->
  let s' := V1.bumpDetection now a s in
  bumpTotal s' = S (bumpTotal s) /\
  bumpEvents s' = S (bumpEvents s) /\
  V1.isFallen (V1.journey s') = false /\
  V1.session s' = V1.session s /\
  V1.baselineFallRef (V1.det s') = V1.baselineFallRef (V1.det s) /\
  V1.fallDetectionStartRef (V1.det s') = V1.fallDetectionStartRef (V1.det s) /\
  V1.crashCooldownInternalRef (V1.det s') = true /\
  V1.timers (V1.env s')
  = insert_timer (mkTimer (V1.nextTimer (V1.env s)) (now + 1000)%Z V1.CooldownOff)
      (V1.timers (V1.env s)).
Proof.
  intros Hf Hc Hx. cbv zeta. unfold V1.bumpDetection. rewrite Hf, Hc.
  cbn [negb andb]. cbv zeta. unfold crosses in Hx.
  cbn [V1.set_baselineZRef V1.det V1.with_det V1.baselineZRef].
  rewrite Hx. unfold V1.handleBumpEvent, bumpTotal, bumpEvents.
  destruct (V1.bumpMajorThreshold <=? _)%float; cbn;
    rewrite filter_app, length_app; cbn; rewrite Hf;
    repeat split; lia.
Qed.

(** The bump stage while fallen, or during the cooldown: nothing. *)
Lemma bumpDetection_V1_idle (now : Z) (a : vec3) (s : V1.App) :
  V1.isFallen (V1.journey s) = true \/
  V1.crashCooldownInternalRef (V1.det s) = true ->
  V1.bumpDetection now a s = s.
Proof.
  intros [H | H]; unfold V1.bumpDetection; rewrite H;
    rewrite ?andb_false_r; reflexivity.
Qed.

End BumpAndFall.

Section FallSuppressesBump.
Import Host.

(** The fall stage while fallen: nothing but [isFallen] can change, and
    it is cleared exactly when the angle is below the threshold. *)
Lemma fallDetection_V1_fallen (M : MathHost) (now : Z) (a : vec3) (s : V1.App) :
  V1.isFallen (V1.journey s) = true ->
  let s' := V1.fallDetection M now a s in
  V1.counts (V1.journey s') = V1.counts (V1.journey s) /\
  V1.notifications (V1.env s') = V1.notifications (V1.env s) /\
  V1.isFallen (V1.journey s')
  = negb (V1.fallAngle M a (fallBaseline s a) <? V1.FALL_ANGLE_THRESHOLD)%float.
Proof.
  intros Hf. cbv zeta. unfold V1.fallDetection, fallBaseline.
  destruct (V1.baselineFallRef (V1.det s)) as [b|] eqn:Hb;
    cbn [V1.det V1.with_det V1.set_baselineFallRef V1.baselineFallRef
         V1.journey V1.isFallen];
    rewrite ?Hb, Hf; cbn [negb];
    match goal with |- context [if ?c then _ else _] => destruct c end;
    cbn [negb]; repeat split; try reflexivity; exact Hf.
Qed.

Lemma accelerometer_V1_fallen (M : MathHost) (now : Z) (a : vec3) (s : V1.App) :
  V1.isFallen (V1.journey s) = true ->
  let s' := V1.accelerometer_callback M now a s in
  V1.counts (V1.journey s') V1.bumpMajorCount
  = V1.counts (V1.journey s) V1.bumpMajorCount /\
  V1.counts (V1.journey s') V1.bumpMinorCount
  = V1.counts (V1.journey s) V1.bumpMinorCount /\
  V1.notifications (V1.env s') = V1.notifications (V1.env s) /\
  (V1.isFallen (V1.journey s') = false ->
   (V1.fallAngle M a (fallBaseline s a) <? V1.FALL_ANGLE_THRESHOLD)%float = true).
Proof.
  intros Hf. cbv zeta. unfold V1.accelerometer_callback.
  destruct (V1.resultShownRef _);
    [repeat split; try reflexivity; congruence|].
  destruct (negb _); [|repeat split; try reflexivity; congruence].
  destruct (stillness_V1_frame M now a s)
    as (H1 & H2 & _ & H4 & _ & H6 & _ & H8 & _).
  cbv zeta in *.
  set (s2 := V1.set_lastAccelRef (Some a) (V1.stillness M now a s)).
  assert (V1.isFallen (V1.journey s2) = true) as Hf2 by (cbn; congruence).
  rewrite (bumpDetection_V1_idle now a s2 (or_introl Hf2)).
  destruct (fallDetection_V1_fallen M now a s2 Hf2) as (E1 & E2 & E3).
  cbv zeta in *. rewrite E1, E2, E3.
  replace (fallBaseline s2 a) with (fallBaseline s a)
    by (unfold fallBaseline; cbn; now rewrite H8).
  repeat split; try assumption.
  intros H. now apply negb_false_iff in H.
Qed.

Lemma watchPosition_V1_isFallen (now : Z) (coords : Coords) (s : V1.App) :
  V1.isFallen (V1.journey (V1.watchPosition_callback now coords s))
  = V1.isFallen (V1.journey s).
Proof. unfold V1.watchPosition_callback. cbv zeta. split_tests; reflexivity. Qed.

Lemma gyroscope_V1_isFallen (now : Z) (g : vec3) (s : V1.App) :
  V1.isFallen (V1.journey (V1.gyroscope_callback now g s))
  = V1.isFallen (V1.journey s).
Proof. unfold V1.gyroscope_callback. cbv zeta. split_tests; reflexivity. Qed.

Lemma stopTracking_V1_isFallen (now : Z) (s : V1.App) :
  V1.isFallen (V1.journey (V1.stopTracking now s)) = V1.isFallen (V1.journey s).
Proof. unfold V1.stopTracking. cbv zeta. split_tests; reflexivity. Qed.

(** C4.  While [isFallen] is true an accelerometer sample, whatever its
    z reading, increments no bump counter and emits no Bump event; and
    [isFallen] is cleared only by an accelerometer sample whose angle to
    the gravity baseline is below 45 degrees, or by the new-journey reset
    of the summary screen. *)
Theorem C4_fall_suppresses_bump (M : MathHost) (now : Z) (s : V1.App)
  (Hfallen : V1.isFallen (V1.journey s) = true) :
  (forall a,
     let s' := V1.step M s (now, V1.Accelerometer a) in
     V1.counts (V1.journey s') V1.bumpMajorCount
     = V1.counts (V1.journey s) V1.bumpMajorCount /\
     V1.counts (V1.journey s') V1.bumpMinorCount
     = V1.counts (V1.journey s) V1.bumpMinorCount /\
     bumpEvents s' = bumpEvents s) /\
  (forall ev,
     V1.isFallen (V1.journey (V1.step M s (now, ev))) = false ->
     ev = V1.Back \/
     exists a, ev = V1.Accelerometer a /\
               (V1.fallAngle M a (fallBaseline s a) <? 45)%float = true).
Proof.
  destruct (run_timers_V1_frame now s)
    as (Hj & Hx & _ & Hn & _ & Hb & _). cbv zeta in *.
  assert (V1.isFallen (V1.journey (V1.run_timers now s)) = true) as Hf'
    by (rewrite Hj; exact Hfallen).
  split.
  - intros a. cbv zeta. unfold V1.step. cbn [fst snd V1.dispatch].
    unfold bumpEvents. rewrite <- Hn, <- Hj.
    destruct (_ && _)%bool; [|repeat split; reflexivity].
    destruct (accelerometer_V1_fallen M now a _ Hf') as (E1 & E2 & E3 & _).
    cbv zeta in *. rewrite E1, E2, E3. repeat split; reflexivity.
  - intros ev. unfold V1.step. cbn [fst snd].
    destruct ev; cbn [V1.dispatch].
    + intros H. right. exists a. split; [reflexivity|].
      destruct (_ && _)%bool; [|congruence].
      destruct (accelerometer_V1_fallen M now a _ Hf') as (_ & _ & _ & E4).
      cbv zeta in E4. specialize (E4 H).
      unfold fallBaseline in *. now rewrite Hb in E4.
    + destruct (_ && _)%bool; [rewrite gyroscope_V1_isFallen|]; congruence.
    + generalize (V1.watches (V1.env (V1.run_timers now s))).
      intros ws. revert Hf'. generalize (V1.run_timers now s).
      induction ws as [|w ws IH]; intros s0 H0; cbn; [congruence|].
      apply IH. now rewrite watchPosition_V1_isFallen.
    + cbn. congruence.
    + destruct (V1.tracking _); [rewrite stopTracking_V1_isFallen|]; congruence.
    + destruct (V1.tracking _); cbn; congruence.
    + intros _. now left.
    + cbn. congruence.
Qed.

Lemma C4_witness :
  bumpEvents (V1.step refMath fallen_state (3000%Z, V1.Accelerometer jolt))
  = bumpEvents fallen_state.
Proof.
  assert (V1.isFallen (V1.journey fallen_state) = true) as H
    by (vm_compute; reflexivity).
  exact (proj2 (proj2 (proj1 (C4_fall_suppresses_bump refMath 3000%Z
                                 fallen_state H) jolt))).
Defined.

End FallSuppressesBump.

Section BumpDebounce.
Import Host.

Lemma filter_clear_timer_nil (id : positive) (q : list (Timer V1.TimerAction)) :
  filter is_cooloff q = [] -> filter is_cooloff (clear_timer id q) = [].
Proof.
  unfold clear_timer. induction q as [|t q IH]; cbn; [trivial|].
  destruct (is_cooloff t) eqn:Ht; [discriminate|]. intros Hq.
  destruct (negb _); cbn; rewrite ?Ht; now apply IH.
Qed.

(** The stillness stage keeps the queue ordered and queues no cooldown
    timer. *)
Lemma stillness_V1_queue (M : MathHost) (now : Z) (a : vec3) (s : V1.App) :
  (sorted_queue (V1.timers (V1.env s)) ->
   sorted_queue (V1.timers (V1.env (V1.stillness M now a s)))) /\
  (filter is_cooloff (V1.timers (V1.env s)) = [] ->
   filter is_cooloff (V1.timers (V1.env (V1.stillness M now a s))) = []).
Proof.
  destruct (stillness_V1_timers M now a s) as [E | [[id E] | [id E]]];
    cbv zeta in E; rewrite E; split; intros H; try assumption.
  - now apply insert_timer_sorted.
  - rewrite filter_insert_timer_other; [assumption | reflexivity].
  - now apply filter_sorted.
  - now apply filter_clear_timer_nil.
Qed.

(** An accelerometer sample that crosses the threshold while the bump
    detector is armed. *)
Lemma accelerometer_V1_fires (M : MathHost) (now : Z) (a : vec3) (r : V1.App) :
  V1.resultShownRef (V1.session r) = false ->
  V1.pausedRef (V1.session r) = false ->
  V1.isFallen (V1.journey r) = false ->
  V1.crashCooldownInternalRef (V1.det r) = false ->
  crosses r a = true ->
  let s' := V1.accelerometer_callback M now a r in
  bumpTotal s' = S (bumpTotal r) /\
  bumpEvents s' = S (bumpEvents r) /\
  V1.session s' = V1.session r /\
  V1.crashCooldownInternalRef (V1.det s') = true /\
  (sorted_queue (V1.timers (V1.env r)) ->
   sorted_queue (V1.timers (V1.env s'))) /\
  (filter is_cooloff (V1.timers (V1.env r)) = [] ->
   exists id, filter is_cooloff (V1.timers (V1.env s'))
              = [mkTimer id (now + 1000)%Z V1.CooldownOff]).
Proof.
  intros Hr Hp Hf Hc Hx. cbv zeta. unfold V1.accelerometer_callback.
  rewrite Hr, Hp. cbn [negb]. cbv zeta.
  destruct (stillness_V1_frame M now a r)
    as (S1 & S2 & _ & S4 & S5 & S6 & S7 & _ & _ & S10).
  destruct (stillness_V1_queue M now a r) as [Q1 Q2]. cbv zeta in *.
  set (s2 := V1.set_lastAccelRef (Some a) (V1.stillness M now a r)).
  assert (V1.isFallen (V1.journey s2) = false) as Hf2 by (cbn; congruence).
  assert (V1.crashCooldownInternalRef (V1.det s2) = false) as Hc2
    by (cbn; congruence).
  assert (crosses s2 a = true) as Hx2.
  { unfold crosses in *. cbn. now rewrite S7. }
  destruct (bumpDetection_V1_fires now a s2 Hf2 Hc2 Hx2)
    as (B1 & B2 & _ & B4 & _ & _ & B7 & B8). cbv zeta in *.
  destruct (fallDetection_V1_frame M now a (V1.bumpDetection now a s2))
    as (F1 & F2 & F3 & F4 & F5 & _ & F7). cbv zeta in *.
  unfold bumpTotal, bumpEvents in *.
  rewrite F1, F2, F3, F4, F5, F7, B1, B2, B4, B7, B8.
  cbn [s2 V1.set_lastAccelRef V1.with_det V1.journey V1.env V1.session].
  rewrite S1, S2, S5, S6.
  repeat split; try reflexivity.
  - intros Hs. apply insert_timer_sorted. now apply Q1.
  - intros Hn. eexists.
    rewrite filter_insert_timer by now apply Q2. reflexivity.
Qed.

(** An accelerometer sample during the cooldown. *)
Lemma accelerometer_V1_suppressed (M : MathHost) (now : Z) (a : vec3)
  (r : V1.App) :
  V1.crashCooldownInternalRef (V1.det r) = true ->
  let s' := V1.accelerometer_callback M now a r in
  bumpTotal s' = bumpTotal r /\ bumpEvents s' = bumpEvents r.
Proof.
  intros Hc. cbv zeta. unfold V1.accelerometer_callback.
  destruct (V1.resultShownRef _); [split; reflexivity|].
  destruct (negb _); [|split; reflexivity]. cbv zeta.
  destruct (stillness_V1_frame M now a r)
    as (S1 & S2 & _ & _ & _ & S6 & _ & _ & _ & S10). cbv zeta in *.
  set (s2 := V1.set_lastAccelRef (Some a) (V1.stillness M now a r)).
  assert (V1.crashCooldownInternalRef (V1.det s2) = true) as Hc2
    by (cbn; congruence).
  rewrite (bumpDetection_V1_idle now a s2 (or_intror Hc2)).
  destruct (fallDetection_V1_frame M now a s2) as (F1 & F2 & _ & _ & F5 & _).
  cbv zeta in *. unfold bumpTotal, bumpEvents.
  rewrite F1, F2, F5. cbn [s2 V1.set_lastAccelRef V1.with_det V1.journey V1.env].
  now rewrite S1, S2, S6.
Qed.

End BumpDebounce.

Section CooldownInvariant.
Import Host.

Lemma filter_clear_timer_length (id : positive) (q : list (Timer V1.TimerAction)) :
  (List.length (filter is_cooloff (clear_timer id q))
   <= List.length (filter is_cooloff q))%nat.
Proof.
  unfold clear_timer. induction q as [|t q IH]; cbn; [lia|].
  destruct (negb _); cbn; destruct (is_cooloff t); cbn; lia.
Qed.

Lemma existsb_filter_length {A : Type} (p : A -> bool) (l : list A) :
  existsb p l = true -> (1 <= List.length (filter p l))%nat.
Proof.
  induction l as [|x l IH]; cbn; [discriminate|].
  destruct (p x); cbn; [lia | exact IH].
Qed.

Lemma existsb_filter_nil {A : Type} (p : A -> bool) (l : list A) :
  existsb p l = false -> filter p l = [].
Proof.
  induction l as [|x l IH]; cbn; [trivial|].
  destruct (p x); cbn; [discriminate | exact IH].
Qed.

Lemma length_zero_nil {A : Type} (l : list A) :
  (List.length l <= 0)%nat -> l = [].
Proof. destruct l; cbn; [trivial | lia]. Qed.

Lemma cooldown_inv_same (s s' : V1.App) :
  V1.timers (V1.env s') = V1.timers (V1.env s) ->
  V1.crashCooldownInternalRef (V1.det s') = V1.crashCooldownInternalRef (V1.det s) ->
  cooldown_inv s -> cooldown_inv s'.
Proof. unfold cooldown_inv. intros -> ->. trivial. Qed.

Lemma cooldown_inv_clear (id : positive) (s s' : V1.App) :
  V1.timers (V1.env s') = clear_timer id (V1.timers (V1.env s)) ->
  V1.crashCooldownInternalRef (V1.det s') = V1.crashCooldownInternalRef (V1.det s) ->
  cooldown_inv s -> cooldown_inv s'.
Proof.
  unfold cooldown_inv. intros -> -> (Hs & Hn & Hl).
  split; [now apply filter_sorted|]. split.
  - intros Hc. now apply filter_clear_timer_nil, Hn.
  - pose proof (filter_clear_timer_length id (V1.timers (V1.env s))). lia.
Qed.

Lemma cooldown_inv_alert (t : Timer V1.TimerAction) (s s' : V1.App) :
  is_cooloff t = false ->
  V1.timers (V1.env s') = insert_timer t (V1.timers (V1.env s)) ->
  V1.crashCooldownInternalRef (V1.det s') = V1.crashCooldownInternalRef (V1.det s) ->
  cooldown_inv s -> cooldown_inv s'.
Proof.
  unfold cooldown_inv. intros Ht -> -> (Hs & Hn & Hl).
  rewrite filter_insert_timer_other by exact Ht.
  split; [now apply insert_timer_sorted|]. split; assumption.
Qed.

Lemma cooldown_inv_armed (t : Timer V1.TimerAction) (s s' : V1.App) :
  V1.crashCooldownInternalRef (V1.det s) = false ->
  V1.timers (V1.env s') = insert_timer t (V1.timers (V1.env s)) ->
  V1.crashCooldownInternalRef (V1.det s') = true ->
  cooldown_inv s -> cooldown_inv s'.
Proof.
  unfold cooldown_inv. intros Hc -> -> (Hs & Hn & Hl).
  rewrite filter_insert_timer by now apply Hn.
  split; [now apply insert_timer_sorted|]. split; [discriminate|].
  destruct (is_cooloff t); cbn; lia.
Qed.

Lemma cooldown_inv_run_timers (now : Z) (s : V1.App) :
  cooldown_inv s -> cooldown_inv (V1.run_timers now s).
Proof.
  destruct (run_timers_V1_frame now s) as (_ & _ & Ht & _ & _ & _ & _ & Hc).
  cbv zeta in *. unfold cooldown_inv. rewrite Ht, Hc. intros (Hs & Hn & Hl).
  rewrite <- (due_pending_split now (V1.timers (V1.env s))) in Hn, Hl.
  rewrite filter_app in Hn, Hl. rewrite length_app in Hl.
  split; [now apply pending_timers_sorted|].
  destruct (existsb is_cooloff (due_timers now (V1.timers (V1.env s)))) eqn:E.
  - apply existsb_filter_length in E. split; [|lia].
    intros _. apply length_zero_nil. lia.
  - apply existsb_filter_nil in E. rewrite E in Hn, Hl. cbn in Hn, Hl.
    split; assumption.
Qed.

Lemma cooldown_inv_stillness (M : MathHost) (now : Z) (a : vec3) (s : V1.App) :
  cooldown_inv s -> cooldown_inv (V1.stillness M now a s).
Proof.
  destruct (stillness_V1_frame M now a s) as (_ & _ & _ & _ & _ & _ & _ & _ & _ & Hc).
  cbv zeta in Hc.
  destruct (stillness_V1_timers M now a s) as [E | [[id E] | [id E]]];
    cbv zeta in E.
  - now apply cooldown_inv_same.
  - eapply cooldown_inv_alert; [|exact E|exact Hc]. reflexivity.
  - eapply cooldown_inv_clear; [exact E|exact Hc].
Qed.

Lemma cooldown_inv_bumpDetection (now : Z) (a : vec3) (s : V1.App) :
  cooldown_inv s -> cooldown_inv (V1.bumpDetection now a s).
Proof.
  unfold V1.bumpDetection.
  destruct (V1.isFallen (V1.journey s)); cbn [negb andb]; [trivial|].
  destruct (V1.crashCooldownInternalRef (V1.det s)) eqn:Hc; cbn [negb];
    [trivial|].
  cbv zeta. destruct (_ <? _)%float.
  - intros H. eapply cooldown_inv_armed; [exact Hc| | |exact H].
    + unfold V1.handleBumpEvent. split_tests; reflexivity.
    + unfold V1.handleBumpEvent. split_tests; reflexivity.
  - apply cooldown_inv_same; [reflexivity | cbn; now rewrite Hc].
Qed.

Lemma cooldown_inv_accelerometer (M : MathHost) (now : Z) (a : vec3) (s : V1.App) :
  cooldown_inv s -> cooldown_inv (V1.accelerometer_callback M now a s).
Proof.
  intros H. unfold V1.accelerometer_callback.
  destruct (V1.resultShownRef _); [exact H|].
  destruct (negb _); [|exact H]. cbv zeta.
  match goal with |- cooldown_inv (V1.fallDetection _ _ _ ?x) =>
    destruct (fallDetection_V1_frame M now a x) as (_ & _ & _ & Ft & _ & _ & Fc)
  end.
  cbv zeta in *. eapply cooldown_inv_same; [exact Ft|exact Fc|].
  apply cooldown_inv_bumpDetection.
  eapply cooldown_inv_same; [| |apply (cooldown_inv_stillness M now a s H)];
    reflexivity.
Qed.

Lemma cooldown_inv_gyroscope (now : Z) (g : vec3) (s : V1.App) :
  cooldown_inv s -> cooldown_inv (V1.gyroscope_callback now g s).
Proof.
  intros H. unfold V1.gyroscope_callback.
  destruct (V1.resultShownRef _); [exact H|].
  destruct (V1.crashCooldownInternalRef (V1.det s)) eqn:Hc; [exact H|].
  cbv zeta. destruct (_ && _)%bool; [exact H|].
  destruct (_ <? _)%float; [exact H|].
  eapply cooldown_inv_armed; [exact Hc| | |exact H]; split_tests; reflexivity.
Qed.

Lemma cooldown_inv_watchPosition (now : Z) (coords : Coords) (s : V1.App) :
  cooldown_inv s -> cooldown_inv (V1.watchPosition_callback now coords s).
Proof.
  apply cooldown_inv_same; unfold V1.watchPosition_callback; cbv zeta;
    split_tests; reflexivity.
Qed.

Lemma cooldown_inv_stopTracking (now : Z) (s : V1.App) :
  cooldown_inv s -> cooldown_inv (V1.stopTracking now s).
Proof.
  intros H. unfold V1.stopTracking. cbv zeta.
  set (s1 := match V1.locationSubscription (V1.session s) with
             | Some id => _ | None => s end).
  assert (cooldown_inv s1) as H1.
  { eapply cooldown_inv_same; [| |exact H]; subst s1; split_tests; reflexivity. }
  clearbody s1.
  destruct (V1.stillAlertTimeoutRef (V1.det s1)) as [id|].
  - eapply (cooldown_inv_clear id s1); [| |exact H1]; reflexivity.
  - eapply cooldown_inv_same; [| |exact H1]; reflexivity.
Qed.

Lemma cooldown_inv_dispatch (M : MathHost) (now : Z) (ev : V1.Event) (s : V1.App) :
  cooldown_inv s -> cooldown_inv (V1.dispatch M now ev s).
Proof.
  intros H. destruct ev; cbn [V1.dispatch].
  - destruct (_ && _)%bool; [now apply cooldown_inv_accelerometer | exact H].
  - destruct (_ && _)%bool; [now apply cooldown_inv_gyroscope | exact H].
  - generalize (V1.watches (V1.env s)). intros ws. revert s H.
    induction ws as [|w ws IH]; intros s H; cbn; [exact H|].
    apply IH. now apply cooldown_inv_watchPosition.
  - eapply cooldown_inv_same; [| |exact H]; reflexivity.
  - destruct (V1.tracking _); [now apply cooldown_inv_stopTracking | exact H].
  - destruct (V1.tracking _); [|exact H].
    eapply cooldown_inv_same; [| |exact H]; reflexivity.
  - destruct (V1.showResults _); [|exact H].
    eapply cooldown_inv_same; [| |exact H]; reflexivity.
  - eapply cooldown_inv_same; [| |exact H]; reflexivity.
Qed.

(** Every state reached from mount keeps the timer queue ordered and
    holds a cooldown timer only while the cooldown flag is set. *)
Lemma cooldown_inv_run (M : MathHost) (trace : list (Z * V1.Event))
  (firstWatch : Z) :
  cooldown_inv (V1.run M trace (V1.initial firstWatch)).
Proof.
  unfold V1.run.
  assert (cooldown_inv (V1.initial firstWatch)) as H.
  { unfold cooldown_inv. cbn. repeat split; trivial. lia. }
  revert H. generalize (V1.initial firstWatch).
  induction trace as [|tev trace IH]; intros s H; cbn; [exact H|].
  apply IH. unfold V1.step.
  now apply cooldown_inv_dispatch, cooldown_inv_run_timers.
Qed.

End CooldownInvariant.

(* ------------------------------------------------------------------ *)
(** ** Session refs mirror session state (first screen) *)

Section SessionInvariant.
Import Host.

Lemma bumpDetection_V1_session (now : Z) (a : vec3) (s : V1.App) :
  V1.session (V1.bumpDetection now a s) = V1.session s.
Proof.
  unfold V1.bumpDetection, V1.handleBumpEvent. cbv zeta.
  split_tests; reflexivity.
Qed.

Lemma accelerometer_V1_session (M : MathHost) (now : Z) (a : vec3) (s : V1.App) :
  V1.session (V1.accelerometer_callback M now a s) = V1.session s.
Proof.
  unfold V1.accelerometer_callback.
  destruct (V1.resultShownRef _); [reflexivity|].
  destruct (negb _); [|reflexivity]. cbv zeta.
  match goal with |- V1.session (V1.fallDetection _ _ _ ?x) = _ =>
    destruct (fallDetection_V1_frame M now a x) as (_ & _ & F & _)
  end.
  cbv zeta in F. rewrite F, bumpDetection_V1_session.
  destruct (stillness_V1_frame M now a s) as (_ & _ & _ & _ & S5 & _).
  exact S5.
Qed.

Lemma gyroscope_V1_session (now : Z) (g : vec3) (s : V1.App) :
  V1.session (V1.gyroscope_callback now g s) = V1.session s.
Proof. unfold V1.gyroscope_callback. cbv zeta. split_tests; reflexivity. Qed.

Lemma watchPosition_V1_session (now : Z) (coords : Coords) (s : V1.App) :
  V1.session (V1.watchPosition_callback now coords s) = V1.session s.
Proof. unfold V1.watchPosition_callback. cbv zeta. split_tests; reflexivity. Qed.

Lemma gyroscope_V1_baselineZ (now : Z) (g : vec3) (s : V1.App) :
  V1.baselineZRef (V1.det (V1.gyroscope_callback now g s))
  = V1.baselineZRef (V1.det s).
Proof. unfold V1.gyroscope_callback. cbv zeta. split_tests; reflexivity. Qed.

Lemma watchPosition_V1_det (now : Z) (coords : Coords) (s : V1.App) :
  V1.det (V1.watchPosition_callback now coords s) = V1.det s.
Proof. unfold V1.watchPosition_callback. cbv zeta. split_tests; reflexivity. Qed.

Lemma stopTracking_V1_session (now : Z) (s : V1.App) :
  let x := V1.session (V1.stopTracking now s) in
  V1.tracking x = false /\ V1.showResults x = true /\
  V1.resultShownRef x = true /\
  V1.paused x = V1.paused (V1.session s) /\
  V1.pausedRef x = V1.pausedRef (V1.session s).
Proof.
  cbv zeta. unfold V1.stopTracking. cbv zeta.
  split_tests; cbn; repeat split; reflexivity.
Qed.

Lemma session_inv_same (s s' : V1.App) :
  V1.session s' = V1.session s ->
  V1.baselineZRef (V1.det s') = V1.baselineZRef (V1.det s) ->
  session_inv s -> session_inv s'.
Proof. unfold session_inv. now intros -> ->. Qed.

(** While the summary is not shown, the invariant does not read the
    detector refs. *)
Lemma session_inv_unshown (s s' : V1.App) :
  V1.session s' = V1.session s ->
  V1.resultShownRef (V1.session s) = false ->
  session_inv s -> session_inv s'.
Proof.
  unfold session_inv. intros -> Hr (H1 & H2 & H3).
  repeat split; try assumption. intros _ Hs. congruence.
Qed.

Lemma session_inv_dispatch (M : MathHost) (now : Z) (ev : V1.Event) (s : V1.App) :
  session_inv s -> session_inv (V1.dispatch M now ev s).
Proof.
  intros H. destruct ev; cbn [V1.dispatch].
  - destruct (_ && _)%bool; [|exact H].
    destruct (V1.resultShownRef (V1.session s)) eqn:Hr.
    + unfold V1.accelerometer_callback. now rewrite Hr.
    + eapply session_inv_unshown;
        [apply accelerometer_V1_session | exact Hr | exact H].
  - destruct (_ && _)%bool; [|exact H].
    eapply session_inv_same;
      [apply gyroscope_V1_session | apply gyroscope_V1_baselineZ | exact H].
  - generalize (V1.watches (V1.env s)). intros ws. revert s H.
    induction ws as [|w ws IH]; intros s H; cbn; [exact H|].
    apply IH. eapply session_inv_same;
      [apply watchPosition_V1_session
      |now rewrite watchPosition_V1_det | exact H].
  - destruct H as (H1 & H2 & H3). unfold session_inv. cbn.
    repeat split; trivial.
  - destruct (V1.tracking _); [|exact H].
    destruct H as (H1 & H2 & H3).
    destruct (stopTracking_V1_session now s) as (E1 & E2 & E3 & E4 & E5).
    cbv zeta in *. unfold session_inv. rewrite E1, E2, E3, E4, E5.
    repeat split; [exact H1 | discriminate].
  - destruct (V1.tracking _); [|exact H].
    destruct H as (H1 & H2 & H3). unfold session_inv. cbn.
    repeat split; assumption.
  - destruct (V1.showResults _); [|exact H].
    unfold session_inv. cbn. destruct H as (H1 & _).
    repeat split; [exact H1 | discriminate].
  - destruct H as (H1 & H2 & H3). unfold session_inv. cbn.
    repeat split; assumption.
Qed.

(** In every state reached from mount, [pausedRef] and [resultShownRef]
    hold the values of [paused] and [showResults], and a journey tracked
    behind the summary of the previous one has no bump baseline. *)
Lemma session_inv_run (M : MathHost) (trace : list (Z * V1.Event))
  (firstWatch : Z) :
  session_inv (V1.run M trace (V1.initial firstWatch)).
Proof.
  unfold V1.run.
  assert (session_inv (V1.initial firstWatch)) as H.
  { unfold session_inv. cbn. repeat split; trivial. }
  revert H. generalize (V1.initial firstWatch).
  induction trace as [|tev trace IH]; intros s H; cbn; [exact H|].
  apply IH. unfold V1.step. apply session_inv_dispatch.
  destruct (run_timers_V1_frame (fst tev) s) as (_ & Hx & _ & _ & Hz & _).
  eapply session_inv_same; [exact Hx | exact Hz | exact H].
Qed.

(** Without a baseline the bump stage takes the sample itself as
    baseline: the deviation [z - z] is 0 or NaN, and crosses no
    threshold. *)
Lemma sub_self_zero_or_nan (z : float) : sf_zero_or_nan (Prim2SF (z - z)).
Proof.
  rewrite sub_spec. unfold SF64sub, SFsub.
  destruct (Prim2SF z) as [sg|sg| |sg m e]; cbn; try tauto.
  - destruct sg; cbn; tauto.
  - destruct sg; cbn; tauto.
  - rewrite Z.min_id. destruct (shl_align m e e) as [m' e']. cbn.
    rewrite Z.sub_diag. cbn. tauto.
Qed.

Lemma ltb_zero_or_nan (k x : float) :
  (0 <? k)%float = true -> sf_zero_or_nan (Prim2SF x) -> (k <? x)%float = false.
Proof.
  rewrite !ltb_spec. change (Prim2SF 0) with (S754_zero false).
  destruct (Prim2SF x) as [sg|sg| |sg m e]; cbn; try tauto; intros Hk _.
  - destruct (Prim2SF k) as [sk|sk| |sk mk ek]; cbn in *;
      try discriminate; try reflexivity; destruct sk; try discriminate;
      reflexivity.
  - destruct (Prim2SF k); reflexivity.
Qed.

Lemma crosses_no_baseline (s : V1.App) (a : vec3) :
  V1.baselineZRef (V1.det s) = None -> crosses s a = false.
Proof.
  intros Hb. unfold crosses. rewrite Hb. cbn [V1.adaptBaselineZ].
  apply ltb_zero_or_nan; [reflexivity|].
  unfold Math_abs. rewrite abs_spec.
  pose proof (sub_self_zero_or_nan (vz a)) as H.
  destruct (Prim2SF (vz a - vz a)); cbn in *; tauto.
Qed.

(** So a sample that crosses the threshold in a state reached from mount,
    the journey tracked, finds the summary off screen. *)
Lemma crosses_unshown (s : V1.App) (a : vec3) :
  session_inv s ->
  V1.tracking (V1.session s) = true ->
  crosses s a = true ->
  V1.resultShownRef (V1.session s) = false.
Proof.
  intros (_ & H2 & H3) Ht Hx.
  destruct (V1.resultShownRef (V1.session s)) eqn:Hr; [|reflexivity].
  rewrite (crosses_no_baseline s a) in Hx; [discriminate|].
  apply H3; [exact Ht | congruence].
Qed.

End SessionInvariant.

Section BumpDebounceTheorem.
Import Host.

Lemma run_timers_V1_bump (now : Z) (s : V1.App) :
  let r := V1.run_timers now s in
  bumpTotal r = bumpTotal s /\ bumpEvents r = bumpEvents s /\
  V1.isFallen (V1.journey r) = V1.isFallen (V1.journey s) /\
  (forall a, crosses r a = crosses s a) /\
  V1.session r = V1.session s.
Proof.
  destruct (run_timers_V1_frame now s) as (Hj & Hx & _ & Hn & Hz & _).
  cbv zeta in *. unfold bumpTotal, bumpEvents, crosses.
  rewrite Hj, Hn, Hz, Hx. repeat split; reflexivity.
Qed.

Lemma step_accelerometer_live (M : MathHost) (now : Z) (a : vec3) (s : V1.App) :
  V1.tracking (V1.session s) = true ->
  V1.paused (V1.session s) = false ->
  V1.step M s (now, V1.Accelerometer a)
  = V1.accelerometer_callback M now a (V1.run_timers now s).
Proof.
  intros Ht Hp. unfold V1.step. cbn [fst snd V1.dispatch].
  destruct (run_timers_V1_frame now s) as (_ & Hx & _). cbv zeta in Hx.
  now rewrite Hx, Ht, Hp.
Qed.

(** C3.  In a state reached from mount in which the accelerometer
    subscriber is live, the chair is not fallen and no cooldown runs, let
    two samples arrive [d] ms apart, each crossing the bump threshold,
    the chair still not fallen at the second.  If [d < 1000] (as for 200
    ms) exactly one Bump event is emitted and the bump counters go up by
    one in total: the second sample meets the cooldown flag set by the
    first.  If [d > 1000] (as for 1200 ms) the cooldown timer has fired,
    two Bump events are emitted and the counters go up by two. *)
Theorem C3_bump_debounce (M : MathHost) (trace : list (Z * V1.Event))
  (firstWatch t1 d : Z) (a1 a2 : vec3) :
  let s := V1.run M trace (V1.initial firstWatch) in
  let s1 := V1.step M s (t1, V1.Accelerometer a1) in
  let s2 := V1.step M s1 ((t1 + d)%Z, V1.Accelerometer a2) in
  accel_live s ->
  V1.isFallen (V1.journey s) = false ->
  V1.crashCooldownInternalRef (V1.det s) = false ->
  crosses s a1 = true ->
  V1.isFallen (V1.journey s1) = false ->
  crosses s1 a2 = true ->
  bumpTotal s1 = S (bumpTotal s) /\
  bumpEvents s1 = S (bumpEvents s) /\
  ((0 <= d < 1000)%Z ->
   bumpTotal s2 = S (bumpTotal s) /\ bumpEvents s2 = S (bumpEvents s)) /\
  ((1000 < d)%Z ->
   bumpTotal s2 = S (S (bumpTotal s)) /\ bumpEvents s2 = S (S (bumpEvents s))).
Proof.
  cbv zeta. set (s := V1.run M trace (V1.initial firstWatch)).
  intros (Ht & Hp) Hf Hc Hx1.
  pose proof (session_inv_run M trace firstWatch) as Hm. fold s in Hm.
  pose proof (crosses_unshown s a1 Hm Ht Hx1) as Hrs.
  destruct Hm as (Hm1 & Hm2 & Hm3).
  assert (V1.pausedRef (V1.session s) = false) as Hpr by congruence.
  pose proof (cooldown_inv_run M trace firstWatch) as Hinv. fold s in Hinv.
  (* first sample *)
  rewrite (step_accelerometer_live M t1 a1 s Ht Hp).
  set (r := V1.run_timers t1 s).
  destruct (run_timers_V1_bump t1 s) as (R1 & R2 & R3 & R4 & R5).
  destruct (run_timers_V1_frame t1 s) as (_ & _ & _ & _ & _ & _ & _ & Rc).
  pose proof (cooldown_inv_run_timers t1 s Hinv) as (Rs & Rn & _).
  cbv zeta in *. fold r in R1, R2, R3, R4, R5, Rc, Rs, Rn.
  assert (V1.crashCooldownInternalRef (V1.det r) = false) as Hcr.
  { rewrite Rc, Hc. now destruct (existsb _ _). }
  assert (crosses r a1 = true) as Hx1' by (now rewrite R4).
  destruct (accelerometer_V1_fires M t1 a1 r) as (A1 & A2 & A3 & A4 & A5 & A6);
    try congruence.
  cbv zeta in *. set (s1 := V1.accelerometer_callback M t1 a1 r) in *.
  specialize (A5 Rs). destruct (A6 (Rn Hcr)) as [id A6']. clear A6.
  intros Hf1 Hx2.
  split; [congruence|]. split; [congruence|].
  (* second sample *)
  assert (V1.tracking (V1.session s1) = true) as Ht1 by congruence.
  assert (V1.paused (V1.session s1) = false) as Hp1 by congruence.
  rewrite (step_accelerometer_live M (t1 + d) a2 s1 Ht1 Hp1).
  set (r2 := V1.run_timers (t1 + d) s1).
  destruct (run_timers_V1_bump (t1 + d) s1) as (P1 & P2 & P3 & P4 & P5).
  destruct (run_timers_V1_frame (t1 + d) s1) as (_ & _ & _ & _ & _ & _ & _ & Pc).
  cbv zeta in *. fold r2 in P1, P2, P3, P4, P5, Pc.
  set (T := mkTimer id (t1 + 1000)%Z V1.CooldownOff) in *.
  split.
  - intros Hd.
    assert (existsb is_cooloff (due_timers (t1 + d) (V1.timers (V1.env s1)))
            = false) as E.
    { apply not_true_is_false. intros E.
      apply existsb_exists in E as (x & Hin & Hx).
      pose proof (due_timers_due _ _ _ Hin) as Hdue.
      assert (In x (V1.timers (V1.env s1))) as Hin'.
      { rewrite <- (due_pending_split (t1 + d)). apply in_or_app. now left. }
      assert (In x (filter is_cooloff (V1.timers (V1.env s1)))) as Hin''
        by (apply filter_In; now split).
      rewrite A6' in Hin''. destruct Hin'' as [<- | []]. cbn in Hdue. lia. }
    rewrite E, A4 in Pc.
    destruct (accelerometer_V1_suppressed M (t1 + d) a2 r2 Pc) as [B1 B2].
    cbv zeta in *. split; congruence.
  - intros Hd.
    assert (existsb is_cooloff (due_timers (t1 + d) (V1.timers (V1.env s1)))
            = true) as E.
    { apply existsb_exists. exists T. split; [|reflexivity].
      apply due_timers_complete; [exact A5 | | cbn; lia].
      assert (In T (filter is_cooloff (V1.timers (V1.env s1)))) as Hin
        by (rewrite A6'; now left).
      now apply filter_In in Hin as [Hin _]. }
    rewrite E in Pc.
    assert (crosses r2 a2 = true) as Hx2' by (now rewrite P4).
    destruct (accelerometer_V1_fires M (t1 + d) a2 r2) as (B1 & B2 & _);
      try congruence.
    cbv zeta in *. split; congruence.
Qed.

End BumpDebounceTheorem.

Section BumpDebounceWitness.
Import Host.

Lemma C3_witness :
  bumpEvents
    (V1.step refMath
       (V1.step refMath (V1.run refMath rolling_trace (V1.initial 1))
          (1500%Z, V1.Accelerometer kerb))
       ((1500 + 200)%Z, V1.Accelerometer kerb))
  = S (bumpEvents (V1.run refMath rolling_trace (V1.initial 1))) /\
  bumpEvents
    (V1.step refMath
       (V1.step refMath (V1.run refMath rolling_trace (V1.initial 1))
          (1500%Z, V1.Accelerometer kerb))
       ((1500 + 1200)%Z, V1.Accelerometer kerb))
  = S (S (bumpEvents (V1.run refMath rolling_trace (V1.initial 1)))).
Proof.
  assert (accel_live (V1.run refMath rolling_trace (V1.initial 1))) as H1
    by (repeat split; vm_compute; reflexivity).
  assert (V1.isFallen (V1.journey (V1.run refMath rolling_trace (V1.initial 1)))
          = false) as H2 by (vm_compute; reflexivity).
  assert (V1.crashCooldownInternalRef
            (V1.det (V1.run refMath rolling_trace (V1.initial 1))) = false) as H3
    by (vm_compute; reflexivity).
  assert (crosses (V1.run refMath rolling_trace (V1.initial 1)) kerb = true) as H4
    by (vm_compute; reflexivity).
  assert (V1.isFallen
            (V1.journey
               (V1.step refMath (V1.run refMath rolling_trace (V1.initial 1))
                  (1500%Z, V1.Accelerometer kerb))) = false) as H5
    by (vm_compute; reflexivity).
  assert (crosses
            (V1.step refMath (V1.run refMath rolling_trace (V1.initial 1))
               (1500%Z, V1.Accelerometer kerb)) kerb = true) as H6
    by (vm_compute; reflexivity).
  split.
  - refine (proj2 (proj1 (proj2 (proj2
             (C3_bump_debounce refMath rolling_trace 1 1500 200 kerb kerb
                H1 H2 H3 H4 H5 H6))) _)).
    lia.
  - refine (proj2 (proj2 (proj2 (proj2
             (C3_bump_debounce refMath rolling_trace 1 1500 1200 kerb kerb
                H1 H2 H3 H4 H5 H6))) _)).
    lia.
Defined.

End BumpDebounceWitness.

(* ------------------------------------------------------------------ *)
(** ** Orientation fall detector: degenerate vectors *)

Section DegenerateVectors.
Import Host.

Lemma eqb_zero (x : float) : (x =? 0)%float = true -> sf_zero (Prim2SF x).
Proof.
  rewrite eqb_spec. change (Prim2SF 0) with (S754_zero false).
  destruct (Prim2SF x) as [s|s| |s m e]; cbn; try discriminate; trivial.
  all: destruct s; discriminate.
Qed.

Lemma mul_zero (x y : float) :
  sf_zero (Prim2SF x) \/ sf_zero (Prim2SF y) ->
  sf_zero_or_nan (Prim2SF (x * y)).
Proof.
  rewrite mul_spec. unfold SF64mul, SFmul.
  destruct (Prim2SF x), (Prim2SF y); cbn; tauto.
Qed.

Lemma div_zero_or_nan (x y : float) :
  sf_zero_or_nan (Prim2SF y) -> sf_nan_or_inf (Prim2SF (x / y)).
Proof.
  rewrite div_spec. unfold SF64div, SFdiv.
  destruct (Prim2SF x), (Prim2SF y); cbn; tauto.
Qed.

Lemma is_nan_sf (x : float) : Prim2SF x = S754_nan -> x = nan.
Proof. intros H. apply Prim2SF_inj. rewrite H. reflexivity. Qed.

Lemma acos_nan_or_inf (M : MathHost) (x : float) :
  sf_nan_or_inf (Prim2SF x) -> Math_acos M x = nan.
Proof.
  destruct (Prim2SF x) as [s|s| |s m e] eqn:E; cbn; try contradiction; intros _.
  - destruct s.
    + apply acos_below. rewrite ltb_spec, E. reflexivity.
    + apply acos_above. rewrite ltb_spec, E. reflexivity.
  - rewrite (is_nan_sf x E). apply acos_nan.
Qed.

Lemma nan_mul (k : float) : (nan * k)%float = nan.
Proof. apply is_nan_sf. rewrite mul_spec. reflexivity. Qed.

Lemma nan_ltb (k : float) : (nan <? k)%float = false /\ (k <? nan)%float = false.
Proof.
  rewrite !ltb_spec. change (Prim2SF nan) with S754_nan. unfold SFltb.
  split; [reflexivity|]. now destruct (Prim2SF k).
Qed.

(** With a current or a baseline vector of magnitude zero, the quotient of
    line 733 is NaN or infinite and the angle is NaN. *)
Lemma fallAngle_degenerate (M : MathHost) (a b : vec3) :
  degenerate a b = true -> V1.fallAngle M a b = nan.
Proof.
  unfold degenerate, magnitude, V1.fallAngle. cbv zeta. intros H.
  rewrite acos_nan_or_inf; [apply nan_mul|].
  apply div_zero_or_nan, mul_zero.
  apply orb_prop in H as [H | H]; [left | right]; now apply eqb_zero.
Qed.

(** C5, as the code has it.  When the current acceleration vector or the
    gravity baseline has magnitude zero, the fall stage does not skip the
    sample: the angle it computes is NaN and is compared with the
    threshold; both comparisons are false, so the fall counter, the
    notifications and [isFallen] stay as they were, a fallen chair stays
    fallen, and for a chair that is not fallen the pending start of the
    500 ms gate is cleared. *)
Theorem C5_degenerate_angle_is_NaN (M : MathHost) (now : Z) (a : vec3)
  (s : V1.App) (Hdeg : degenerate a (fallBaseline s a) = true) :
  let angle := V1.fallAngle M a (fallBaseline s a) in
  let s' := V1.fallDetection M now a s in
  angle = nan /\
  (V1.FALL_ANGLE_THRESHOLD <? angle)%float = false /\
  (angle <? V1.FALL_ANGLE_THRESHOLD)%float = false /\
  V1.counts (V1.journey s') = V1.counts (V1.journey s) /\
  V1.isFallen (V1.journey s') = V1.isFallen (V1.journey s) /\
  V1.notifications (V1.env s') = V1.notifications (V1.env s) /\
  V1.fallDetectionStartRef (V1.det s')
  = if V1.isFallen (V1.journey s) then V1.fallDetectionStartRef (V1.det s)
    else None.
Proof.
  cbv zeta. pose proof (fallAngle_degenerate M a _ Hdeg) as E.
  destruct (nan_ltb V1.FALL_ANGLE_THRESHOLD) as [L1 L2].
  rewrite E. split; [reflexivity|]. split; [exact L2|]. split; [exact L1|].
  unfold V1.fallDetection, fallBaseline in *.
  destruct (V1.baselineFallRef (V1.det s)) as [b|] eqn:Hb;
    cbn [V1.det V1.with_det V1.set_baselineFallRef V1.baselineFallRef
         V1.journey V1.isFallen];
    rewrite ?Hb, E, L1, L2;
    destruct (V1.isFallen (V1.journey s)) eqn:Hf; cbn; rewrite ?Hf;
    repeat split; reflexivity.
Qed.

Lemma C5_witness :
  V1.fallAngle refMath zero_vec (fallBaseline tipping_state zero_vec) = nan.
Proof.
  assert (degenerate zero_vec (fallBaseline tipping_state zero_vec) = true) as H
    by (vm_compute; reflexivity).
  exact (proj1 (C5_degenerate_angle_is_NaN refMath 1750%Z zero_vec
                  tipping_state H)).
Defined.

(** C5 as stated fails: a sample of magnitude zero, arriving while the
    500 ms window is pending, is evaluated and clears its start. *)
Lemma C5_counterexample : ~ skips_degenerate.
Proof.
  unfold skips_degenerate. intros H.
  specialize (H refMath 1750%Z zero_vec tipping_state).
  assert (degenerate zero_vec (fallBaseline tipping_state zero_vec) = true) as Hd
    by (vm_compute; reflexivity).
  specialize (H Hd). vm_compute in H. discriminate.
Qed.

End DegenerateVectors.

(* ------------------------------------------------------------------ *)
(** ** The location filter on binary64 numbers (first screen) *)

Section LocationFilterBinary64.
Import Host.

(** [Math.sqrt] of a negative number is NaN; NaN is absorbing for [+] and
    [*] and fails every comparison. *)
Lemma sqrt_negative (x : float) : (x <? 0)%float = true -> Math_sqrt x = nan.
Proof.
  intros H. apply is_nan_sf. unfold Math_sqrt. rewrite sqrt_spec.
  rewrite ltb_spec in H. change (Prim2SF 0) with (S754_zero false) in H.
  destruct (Prim2SF x) as [s|s| |s m e]; cbn in *; try discriminate;
    destruct s; try discriminate; reflexivity.
Qed.

Lemma mul_nan (k : float) : (k * nan)%float = nan.
Proof.
  apply is_nan_sf. rewrite mul_spec. change (Prim2SF nan) with S754_nan.
  now destruct (Prim2SF k).
Qed.

Lemma add_nan (k : float) : (k + nan)%float = nan.
Proof.
  apply is_nan_sf. rewrite add_spec. change (Prim2SF nan) with S754_nan.
  now destruct (Prim2SF k).
Qed.

Lemma nan_add (k : float) : (nan + k)%float = nan.
Proof. apply is_nan_sf. rewrite add_spec. reflexivity. Qed.

Lemma lowAccuracy_binary64 (a : float) :
  (20 <? a)%float = true -> Binary64.lowAccuracy (Some a) = true.
Proof.
  intros H. unfold Binary64.lowAccuracy, Binary64.truthyF, Binary64.numF.
  rewrite H, andb_true_r. rewrite ltb_spec in H. rewrite eqb_spec.
  unfold is_nan. rewrite eqb_spec.
  set (k := Prim2SF 20) in H. vm_compute in k. subst k.
  change (Prim2SF 0) with (S754_zero false).
  destruct (Prim2SF a) as [s|s| |s m e]; try discriminate H.
  - destruct s; [discriminate H | reflexivity].
  - destruct s; [discriminate H|]. unfold SFeqb, SFcompare.
    rewrite Z.compare_refl, Pos.compare_refl. reflexivity.
Qed.

(** Line 1009: [1 - a] negative gives [Math.sqrt(1 - a)] NaN. *)
Lemma calculateDistance_nan (T : Binary64.TrigHost) (c1 c2 : Binary64.coord) :
  (1 - Binary64.haversine T c1 c2 <? 0)%float = true ->
  Binary64.calculateDistance T c1 c2 = nan.
Proof.
  intros H. unfold Binary64.calculateDistance. cbv zeta.
  rewrite (sqrt_negative _ H), Binary64.atan2_nan_x, !mul_nan. reflexivity.
Qed.

(** Lines 970-977: [deltaDistance > NOISE_THRESHOLD] is false on NaN, the
    speed test lets the NaN through. *)
Lemma watchPosition_adds_nan (T : Binary64.TrigHost) (now : Z)
  (coords : Binary64.Coords) (s : Binary64.Tracker) (f f' : Binary64.coord) :
  Binary64.resultShownRef s = false ->
  Binary64.pausedRef s = false ->
  Binary64.lowAccuracy (Binary64.c_accuracy coords) = false ->
  Binary64.filteredLocation s = Some f ->
  Binary64.filteredLocation (Binary64.watchPosition_callback T now coords s)
  = Some f' ->
  (1 - Binary64.haversine T f f' <? 0)%float = true ->
  (0.2 <? Binary64.computeSpeed T now coords s)%float = true ->
  Binary64.cumulativeDistance (Binary64.watchPosition_callback T now coords s)
  = nan.
Proof.
  intros Hr Hp Ha Hf. unfold Binary64.watchPosition_callback.
  rewrite Hr, Hp, Ha, Hf. cbv zeta. cbn [negb Binary64.filteredLocation Binary64.cumulativeDistance].
  intros Hf' Hh Hv. injection Hf' as Hf'. rewrite Hf', Hv, orb_true_r.
  rewrite (calculateDistance_nan T f f' Hh). apply add_nan.
Qed.

Lemma watchPosition_keeps_nan (T : Binary64.TrigHost) (now : Z)
  (coords : Binary64.Coords) (s : Binary64.Tracker) :
  Binary64.cumulativeDistance s = nan ->
  Binary64.cumulativeDistance (Binary64.watchPosition_callback T now coords s)
  = nan.
Proof.
  intros H. unfold Binary64.watchPosition_callback.
  destruct (Binary64.resultShownRef s); [exact H|].
  destruct (negb (Binary64.pausedRef s)); [|exact H].
  destruct (Binary64.lowAccuracy _); [exact H|]. cbv zeta.
  destruct (Binary64.filteredLocation s) as [f|]; cbn [Binary64.cumulativeDistance]; [|exact H].
  match goal with |- (if ?c then _ else _) = _ => destruct c end; [|exact H].
  rewrite H. apply nan_add.
Qed.

Lemma feed_keeps_nan (T : Binary64.TrigHost) (fixes : list (Z * Binary64.Coords))
  (s : Binary64.Tracker) :
  Binary64.cumulativeDistance s = nan ->
  Binary64.cumulativeDistance (Binary64.feed T fixes s) = nan.
Proof.
  revert s. induction fixes as [|x fixes IH]; intros s H; [exact H|].
  cbn. apply IH. now apply watchPosition_keeps_nan.
Qed.

Lemma nan_not_above (k : float) : (k <=? nan)%float = false.
Proof.
  rewrite leb_spec. change (Prim2SF nan) with S754_nan. unfold SFleb.
  now destruct (Prim2SF k).
Qed.

(** C1.  On binary64 numbers, first screen.  A fix whose accuracy is
    present and greater than 20 m leaves the whole state as it was (so
    does it in the second screen, whose callback is modelled over real
    numbers).  The accumulator, though, is not kept from harm: whenever
    the rounded haversine term of two locations exceeds 1, their distance
    is NaN; a processed fix whose filtered location is at such a distance
    from the previous one, with a speed above 0.2 m/s, makes the
    accumulator NaN; and from then on it stays NaN under every stream of
    fixes, hence is not greater than or equal to any number.  With the
    reference host this happens on two fixes whose filtered locations are
    8 N 90 W and its antipode 8 S 90 E: the term is 1 + 2^-52, the
    accumulator goes from 0 to NaN. *)
Theorem C1_distance_accuracy_gate_binary64 :
  (forall T a now lat lon sp s, (20 <? a)%float = true ->
      Binary64.watchPosition_callback T now
        (Binary64.mkCoords lat lon (Some a) sp) s = s) /\
  (forall a platform closurePaused now lat lon sp hd s, (20 < a)%R ->
      V2.watchPosition_callback platform closurePaused now
        (mkCoords lat lon (Some a) sp hd) s = s) /\
  (forall T c1 c2,
      (1 - Binary64.haversine T c1 c2 <? 0)%float = true ->
      Binary64.calculateDistance T c1 c2 = nan) /\
  (forall T now coords s f f',
      Binary64.resultShownRef s = false ->
      Binary64.pausedRef s = false ->
      Binary64.lowAccuracy (Binary64.c_accuracy coords) = false ->
      Binary64.filteredLocation s = Some f ->
      Binary64.filteredLocation
        (Binary64.watchPosition_callback T now coords s) = Some f' ->
      (1 - Binary64.haversine T f f' <? 0)%float = true ->
      (0.2 <? Binary64.computeSpeed T now coords s)%float = true ->
      Binary64.cumulativeDistance
        (Binary64.watchPosition_callback T now coords s) = nan) /\
  (forall T fixes s before,
      Binary64.cumulativeDistance s = nan ->
      Binary64.cumulativeDistance (Binary64.feed T fixes s) = nan /\
      (before <=? Binary64.cumulativeDistance (Binary64.feed T fixes s))%float
      = false) /\
  (let s0 := Binary64.beginTracking Binary64.initial in
   let s1 := Binary64.feed Binary64.refTrig (firstn 1 antipode_fixes) s0 in
   let s2 := Binary64.feed Binary64.refTrig antipode_fixes s0 in
   Binary64.cumulativeDistance s1 = 0%float /\
   Binary64.filteredLocation s1 = Some (Binary64.mkCoord 8 (-90)) /\
   Binary64.filteredLocation s2 = Some (Binary64.mkCoord (-8) 90) /\
   Binary64.haversine Binary64.refTrig
     (Binary64.mkCoord 8 (-90)) (Binary64.mkCoord (-8) 90)
   = 0x1.0000000000001p+0%float /\
   Binary64.cumulativeDistance s2 = nan /\
   (Binary64.cumulativeDistance s1 <=? Binary64.cumulativeDistance s2)%float
   = false).
Proof.
  split.
  { intros T a now lat lon sp s Hacc. unfold Binary64.watchPosition_callback.
    cbn [Binary64.c_accuracy]. rewrite (lowAccuracy_binary64 a Hacc).
    destruct (Binary64.resultShownRef s), (Binary64.pausedRef s); reflexivity. }
  split.
  { intros a platform closurePaused now lat lon sp hd s Hacc.
    unfold V2.watchPosition_callback. cbn [c_accuracy].
    rewrite (lowAccuracy_V2 a Hacc). destruct closurePaused; reflexivity. }
  split; [exact calculateDistance_nan|].
  split; [exact watchPosition_adds_nan|].
  split.
  { intros T fixes s before H. rewrite (feed_keeps_nan T fixes s H).
    split; [reflexivity | apply nan_not_above]. }
  vm_compute. repeat split; reflexivity.
Qed.

Lemma C1_witness :
  Binary64.cumulativeDistance
    (Binary64.watchPosition_callback Binary64.refTrig 3000 fix_near_8S_90E
       (Binary64.feed Binary64.refTrig (firstn 1 antipode_fixes)
          (Binary64.beginTracking Binary64.initial)))
  = nan.
Proof.
  refine (proj1 (proj2 (proj2 (proj2 C1_distance_accuracy_gate_binary64)))
            Binary64.refTrig 3000%Z fix_near_8S_90E _
            (Binary64.mkCoord 8 (-90)) (Binary64.mkCoord (-8) 90)
            _ _ _ _ _ _ _); vm_compute; reflexivity.
Defined.

End LocationFilterBinary64.

(* ------------------------------------------------------------------ *)
(** ** What is pending at Stop (first screen) *)

Section PendingAtStop.
Import Host.

Lemma incl_nil {A : Type} (l : list A) : (forall x, ~ In x l) -> l = [].
Proof.
  destruct l as [|x l]; [trivial|]. intros H. exfalso. apply (H x). now left.
Qed.

Lemma stop_inv_same (s s' : V1.App) :
  stopView_refs s' = stopView_refs s -> stop_inv s -> stop_inv s'.
Proof.
  unfold stop_inv, stopView_refs, alerts. intros E.
  injection E as E1 E2 E3 E4 E5 E6 E7.
  unfold alerts in *. now rewrite E1, E2, E3, E5, E6.
Qed.

Lemma one_watch_same (s s' : V1.App) :
  stopView_refs s' = stopView_refs s -> one_watch s -> one_watch s'.
Proof.
  unfold one_watch, stopView_refs. intros E.
  injection E as E1 E2 E3 E4 E5 E6 E7. now rewrite E4, E6.
Qed.

Lemma fire_all_refs (l : list (Timer V1.TimerAction)) (s : V1.App) :
  stopView_refs (fire_all l s) = stopView_refs s.
Proof.
  revert s. induction l as [|t l IH]; intros s; cbn; [reflexivity|].
  unfold fire_all in IH. rewrite IH. destruct (act t); reflexivity.
Qed.

Lemma stop_inv_run_timers (now : Z) (s : V1.App) :
  stop_inv s -> stop_inv (V1.run_timers now s).
Proof.
  unfold V1.run_timers. cbv zeta. intros H.
  match goal with |- stop_inv (fold_left _ ?l ?s0) =>
    apply (stop_inv_same s0 (fire_all l s0) (fire_all_refs l s0))
  end.
  destruct H as ((A1 & A2) & W). split; [|exact W].
  unfold alerts in *. cbn.
  assert (forall t, In t (filter (fun t => negb (is_cooloff t))
                            (pending_timers now (V1.timers (V1.env s)))) ->
                    In t (filter (fun t => negb (is_cooloff t))
                            (V1.timers (V1.env s)))) as Hsub.
  { intros t Ht. apply filter_In in Ht as [Ht Hp]. apply filter_In.
    split; [now apply pending_timers_In in Ht | exact Hp]. }
  split.
  - intros t Ht. apply A1, Hsub, Ht.
  - intros Hs. apply incl_nil. intros t Ht. apply Hsub in Ht.
    now rewrite (A2 Hs) in Ht.
Qed.

(** The timers that are due leave the watches and the session alone. *)
Lemma run_timers_V1_watches (now : Z) (s : V1.App) :
  V1.watches (V1.env (V1.run_timers now s)) = V1.watches (V1.env s) /\
  V1.locationSubscription (V1.session (V1.run_timers now s))
  = V1.locationSubscription (V1.session s).
Proof.
  unfold V1.run_timers. cbv zeta.
  match goal with |- context [fold_left _ ?l ?s0] =>
    pose proof (fire_all_refs l s0) as H; unfold fire_all in H
  end.
  unfold stopView_refs in H. injection H as _ _ _ E4 _ E6 _.
  split; assumption.
Qed.

(** [clearTimeout] of the referenced id leaves no stillness alert. *)
Lemma alerts_cleared (id : positive) (s : V1.App) :
  (forall t, In t (alerts s) -> Some id = Some (tid t)) ->
  filter (fun t => negb (is_cooloff t)) (clear_timer id (V1.timers (V1.env s)))
  = [].
Proof.
  intros A1. apply incl_nil. intros t Ht.
  apply filter_In in Ht as [Ht Hp]. unfold clear_timer in Ht.
  apply filter_In in Ht as [Ht Hne].
  assert (In t (alerts s)) as Hin by (apply filter_In; now split).
  specialize (A1 t Hin). injection A1 as ->.
  now rewrite Pos.eqb_refl in Hne.
Qed.

Lemma alerts_none (s : V1.App) :
  (forall t, In t (alerts s) -> None = Some (tid t)) -> alerts s = [].
Proof.
  intros A1. apply incl_nil. intros t Ht. specialize (A1 t Ht). discriminate.
Qed.

Lemma stop_inv_finalizeStop (M : MathHost) (now : Z) (s : V1.App) :
  stop_inv s -> stop_inv (V1.finalizeStop M now s).
Proof.
  intros ((A1 & A2) & W). unfold V1.finalizeStop.
  destruct (V1.stillAlertTimeoutRef (V1.det s)) as [id|] eqn:Hid.
  - pose proof (alerts_cleared id s A1) as Hc.
    split; [|destruct (V1.STILLNESS_DURATION <=? _)%Z; exact W].
    unfold alerts. cbv zeta.
    destruct (V1.STILLNESS_DURATION <=? _)%Z; cbn; rewrite Hc;
      split; intros; trivial; contradiction.
  - pose proof (alerts_none s A1) as Hc. unfold alerts in Hc.
    split; [|destruct (V1.STILLNESS_DURATION <=? _)%Z; exact W].
    unfold alerts. cbv zeta.
    destruct (V1.STILLNESS_DURATION <=? _)%Z; cbn; rewrite Hc;
      split; intros; trivial; contradiction.
Qed.

Lemma stop_inv_stillness (M : MathHost) (now : Z) (a : vec3) (s : V1.App) :
  now <> 0%Z -> stop_inv s -> stop_inv (V1.stillness M now a s).
Proof.
  intros Hnow H. unfold V1.stillness.
  destruct (V1.lastAccelRef (V1.det s)); [|exact H]. cbv zeta.
  destruct (_ && _)%bool.
  - destruct (truthyZ (V1.currentStopStartRef (V1.det s))) eqn:Hs;
      cbn [negb]; [exact H|].
    destruct H as ((A1 & A2) & W). split; [|exact W].
    specialize (A2 Hs). unfold alerts in *. cbn.
    rewrite filter_insert_timer by exact A2. cbn. split.
    + intros t [<- | []]. reflexivity.
    + destruct (Z.eqb_spec now 0); [contradiction | discriminate].
  - destruct (truthyZ _); [now apply stop_inv_finalizeStop | exact H].
Qed.

Lemma bumpDetection_V1_refs (now : Z) (a : vec3) (s : V1.App) :
  stopView_refs (V1.bumpDetection now a s) = stopView_refs s.
Proof.
  unfold V1.bumpDetection. cbv zeta.
  destruct (_ && _)%bool; [|reflexivity].
  destruct (_ <? _)%float; [|reflexivity].
  unfold V1.handleBumpEvent, stopView_refs, alerts.
  destruct (_ <=? _)%float; cbn;
    rewrite filter_insert_timer_other by reflexivity; reflexivity.
Qed.

Lemma fallDetection_V1_refs (M : MathHost) (now : Z) (a : vec3) (s : V1.App) :
  stopView_refs (V1.fallDetection M now a s) = stopView_refs s.
Proof. unfold V1.fallDetection. cbv zeta. split_tests; reflexivity. Qed.

Lemma gyroscope_V1_refs (now : Z) (g : vec3) (s : V1.App) :
  stopView_refs (V1.gyroscope_callback now g s) = stopView_refs s.
Proof.
  unfold V1.gyroscope_callback. cbv zeta.
  destruct (V1.resultShownRef _); [reflexivity|].
  destruct (V1.crashCooldownInternalRef _); [reflexivity|].
  destruct (_ && _)%bool; [reflexivity|].
  destruct (_ <? _)%float; [reflexivity|].
  unfold stopView_refs, alerts.
  split_tests; cbn; rewrite filter_insert_timer_other by reflexivity;
    reflexivity.
Qed.

Lemma watchPosition_V1_refs (now : Z) (coords : Coords) (s : V1.App) :
  stopView_refs (V1.watchPosition_callback now coords s) = stopView_refs s.
Proof. unfold V1.watchPosition_callback. cbv zeta. split_tests; reflexivity. Qed.

Lemma stop_inv_accelerometer (M : MathHost) (now : Z) (a : vec3) (s : V1.App) :
  now <> 0%Z -> stop_inv s -> stop_inv (V1.accelerometer_callback M now a s).
Proof.
  intros Hnow H. unfold V1.accelerometer_callback.
  destruct (V1.resultShownRef _); [exact H|].
  destruct (negb _); [|exact H]. cbv zeta.
  eapply stop_inv_same; [apply fallDetection_V1_refs|].
  eapply stop_inv_same; [apply bumpDetection_V1_refs|].
  eapply stop_inv_same; [|apply (stop_inv_stillness M now a s Hnow H)].
  reflexivity.
Qed.

(** The stages of the accelerometer subscriber leave the watches and
    [locationSubscription] alone. *)
Lemma stillness_V1_watches (M : MathHost) (now : Z) (a : vec3) (s : V1.App) :
  V1.watches (V1.env (V1.stillness M now a s)) = V1.watches (V1.env s) /\
  V1.session (V1.stillness M now a s) = V1.session s.
Proof.
  unfold V1.stillness, V1.finalizeStop. cbv zeta.
  split_tests; cbn; split; reflexivity.
Qed.

Lemma one_watch_accelerometer (M : MathHost) (now : Z) (a : vec3) (s : V1.App) :
  one_watch s -> one_watch (V1.accelerometer_callback M now a s).
Proof.
  intros H. unfold V1.accelerometer_callback.
  destruct (V1.resultShownRef _); [exact H|].
  destruct (negb _); [|exact H]. cbv zeta.
  eapply one_watch_same; [apply fallDetection_V1_refs|].
  eapply one_watch_same; [apply bumpDetection_V1_refs|].
  destruct (stillness_V1_watches M now a s) as [E1 E2].
  unfold one_watch in *. cbn [V1.set_lastAccelRef V1.with_det V1.env V1.session].
  now rewrite E1, E2.
Qed.

(** [stopTracking] in a state that satisfies the invariant: no stillness
    alert is left in the queue, both refs are cleared, and the watch that
    [locationSubscription] holds is cleared; any other watch stays. *)
Lemma stopTracking_V1_releases (now : Z) (s : V1.App) :
  stop_inv s ->
  let s' := V1.stopTracking now s in
  alerts s' = [] /\
  V1.locationSubscription (V1.session s') = None /\
  V1.stillAlertTimeoutRef (V1.det s') = None /\
  V1.tracking (V1.session s') = false /\
  V1.nextWatch (V1.env s') = V1.nextWatch (V1.env s) /\
  V1.currentStopStartRef (V1.det s') = V1.currentStopStartRef (V1.det s) /\
  V1.watches (V1.env s')
  = match V1.locationSubscription (V1.session s) with
    | Some id => filter (fun w => negb (w =? id)%Z) (V1.watches (V1.env s))
    | None => V1.watches (V1.env s)
    end.
Proof.
  intros ((A1 & A2) & (W3 & W4)). cbv zeta. unfold V1.stopTracking.
  cbv zeta.
  set (s1 := match V1.locationSubscription (V1.session s) with
             | Some id => _ | None => s end).
  assert (V1.watches (V1.env s1)
          = match V1.locationSubscription (V1.session s) with
            | Some id => filter (fun w => negb (w =? id)%Z) (V1.watches (V1.env s))
            | None => V1.watches (V1.env s)
            end /\
          V1.locationSubscription (V1.session s1) = None /\
          V1.det s1 = V1.det s /\
          V1.timers (V1.env s1) = V1.timers (V1.env s) /\
          V1.nextWatch (V1.env s1) = V1.nextWatch (V1.env s)) as (E1 & E2 & E3 & E4 & E5).
  { subst s1. destruct (V1.locationSubscription (V1.session s)) as [id|] eqn:Hid.
    - destruct (Z.eqb_spec id 0) as [E|E]; [exfalso; exact (W4 id eq_refl E)|].
      cbn. repeat split; reflexivity.
    - repeat split; try reflexivity. exact Hid. }
  clearbody s1.
  assert (forall t, In t (alerts s1) ->
                    V1.stillAlertTimeoutRef (V1.det s1) = Some (tid t)) as A1'.
  { unfold alerts. rewrite E3, E4. exact A1. }
  destruct (V1.stillAlertTimeoutRef (V1.det s1)) as [id|] eqn:Hid.
  - pose proof (alerts_cleared id s1 A1') as Hc.
    unfold alerts. cbn. rewrite Hc, E1, E2, E3, E5. repeat split; reflexivity.
  - pose proof (alerts_none s1 A1') as Hc.
    unfold alerts in *. cbn.
    repeat split; try assumption; try reflexivity. now rewrite E3.
Qed.

(** If every active watch is the one that is held, none is left. *)
Lemma one_watch_cleared (s : V1.App) :
  one_watch s ->
  match V1.locationSubscription (V1.session s) with
  | Some id => filter (fun w => negb (w =? id)%Z) (V1.watches (V1.env s))
  | None => V1.watches (V1.env s)
  end = [].
Proof.
  intros H. apply incl_nil. intros w Hw.
  destruct (V1.locationSubscription (V1.session s)) as [id|] eqn:Hid.
  - apply filter_In in Hw as [Hw Hne]. specialize (H w Hw).
    rewrite Hid in H. injection H as <-. now rewrite Z.eqb_refl in Hne.
  - specialize (H w Hw). rewrite Hid in H. discriminate.
Qed.

Lemma stop_inv_dispatch (M : MathHost) (now : Z) (ev : V1.Event) (s : V1.App) :
  now <> 0%Z -> stop_inv s -> stop_inv (V1.dispatch M now ev s).
Proof.
  intros Hnow H. destruct ev; cbn [V1.dispatch].
  - destruct (_ && _)%bool; [now apply stop_inv_accelerometer | exact H].
  - destruct (_ && _)%bool; [|exact H].
    eapply stop_inv_same; [apply gyroscope_V1_refs | exact H].
  - generalize (V1.watches (V1.env s)). intros ws. revert s H.
    induction ws as [|w ws IH]; intros s H; cbn; [exact H|].
    apply IH. eapply stop_inv_same; [apply watchPosition_V1_refs | exact H].
  - destruct H as ((A1 & A2) & (W3 & W4)). split; [split; assumption|].
    cbn. split; [lia|]. intros id E. injection E as <-. lia.
  - destruct (V1.tracking _); [|exact H].
    destruct (stopTracking_V1_releases now s H)
      as (E1 & E2 & E3 & E4 & E5 & _). cbv zeta in *.
    destruct H as (_ & (W3 & _)).
    unfold stop_inv. rewrite E1, E2, E3, E5. repeat split; trivial.
    + intros t [].
    + discriminate.
  - destruct (V1.tracking _); [|exact H].
    eapply stop_inv_same; [|exact H]. reflexivity.
  - destruct (V1.showResults _); [|exact H].
    eapply stop_inv_same; [|exact H]. reflexivity.
  - eapply stop_inv_same; [|exact H]. reflexivity.
Qed.

(** In every state reached from mount, with watch ids and clock readings
    that are not 0, every queued stillness alert is the one the ref
    holds, and the watch that [locationSubscription] holds is not 0. *)
Lemma stop_inv_run (M : MathHost) (trace : list (Z * V1.Event))
  (firstWatch : Z) :
  (0 < firstWatch)%Z ->
  Forall (fun tev => fst tev <> 0%Z) trace ->
  stop_inv (V1.run M trace (V1.initial firstWatch)).
Proof.
  intros Hw. unfold V1.run.
  assert (stop_inv (V1.initial firstWatch)) as H.
  { unfold stop_inv, alerts. cbn. repeat split; trivial; try contradiction.
    discriminate. }
  revert H. generalize (V1.initial firstWatch).
  induction trace as [|tev trace IH]; intros s H Ht; cbn; [exact H|].
  inversion Ht as [|? ? Hnow Ht']; subst.
  apply IH; [|exact Ht']. unfold V1.step.
  apply stop_inv_dispatch; [exact Hnow|]. now apply stop_inv_run_timers.
Qed.

(** A step keeps every active watch held, provided that beginTracking,
    if it is the step, finds no watch active. *)
Lemma one_watch_step (M : MathHost) (s : V1.App) (tev : Z * V1.Event) :
  match snd tev with
  | V1.Start _ => V1.watches (V1.env s) = []
  | _ => True
  end ->
  one_watch s -> one_watch (V1.step M s tev).
Proof.
  intros Hidle H. unfold V1.step.
  destruct (run_timers_V1_watches (fst tev) s) as [Rw Rl].
  assert (one_watch (V1.run_timers (fst tev) s)) as H1
    by (unfold one_watch; now rewrite Rw, Rl).
  rewrite <- Rw in Hidle. revert H1 Hidle.
  generalize (V1.run_timers (fst tev) s). clear H Rw Rl s.
  intros s H Hidle. destruct (snd tev); cbn [V1.dispatch].
  - destruct (_ && _)%bool; [now apply one_watch_accelerometer | exact H].
  - destruct (_ && _)%bool; [|exact H].
    eapply one_watch_same; [apply gyroscope_V1_refs | exact H].
  - generalize (V1.watches (V1.env s)). intros ws. clear Hidle. revert s H.
    induction ws as [|w ws IH]; intros s H; cbn; [exact H|].
    apply IH. eapply one_watch_same; [apply watchPosition_V1_refs | exact H].
  - unfold one_watch. cbn. rewrite Hidle. intros w [<- | []]. reflexivity.
  - destruct (V1.tracking _); [|exact H].
    unfold one_watch, V1.stopTracking. cbv zeta.
    set (s1 := match V1.locationSubscription (V1.session s) with
               | Some id => _ | None => s end).
    assert (one_watch s1) as H1.
    { subst s1.
      destruct (V1.locationSubscription (V1.session s)) as [id|] eqn:Hid;
        [|exact H].
      destruct (id =? 0)%Z; [exact H|].
      unfold one_watch. cbn. intros w Hw. exfalso.
      apply filter_In in Hw as [Hw Hne]. specialize (H w Hw).
      rewrite Hid in H. injection H as <-. now rewrite Z.eqb_refl in Hne. }
    clearbody s1. destruct (V1.stillAlertTimeoutRef (V1.det s1)); exact H1.
  - destruct (V1.tracking _); [|exact H].
    eapply one_watch_same; [|exact H]. reflexivity.
  - destruct (V1.showResults _); [|exact H].
    eapply one_watch_same; [|exact H]. reflexivity.
  - eapply one_watch_same; [|exact H]. reflexivity.
Qed.

Lemma one_watch_run (M : MathHost) (trace : list (Z * V1.Event)) (s : V1.App) :
  starts_idle M trace s -> one_watch s -> one_watch (V1.run M trace s).
Proof.
  unfold V1.run. revert s.
  induction trace as [|tev trace IH]; intros s Hi H; cbn; [exact H|].
  destruct Hi as [Hi1 Hi2]. apply IH; [exact Hi2|].
  now apply one_watch_step.
Qed.

End PendingAtStop.

(* ------------------------------------------------------------------ *)
(** ** Session controller: pause and stop *)

Section PauseAndStop.
Import Geo Host.
Local Open Scope R_scope.

Lemma calculateDistance_equator (d : R) :
  0 <= d < 180 ->
  calculateDistance (mkCoord 0 0) (mkCoord 0 d) = 6371000 * d * PI / 180.
Proof.
  intros Hd. pose proof PI_bounds as Hpi.
  unfold calculateDistance. cbn [latitude longitude]. cbv zeta.
  replace ((0 - 0) * PI / 180 / 2) with 0 by (field; lra).
  replace (0 * PI / 180) with 0 by (field; lra).
  replace ((d - 0) * PI / 180 / 2) with (d * PI / 360) by (field; lra).
  rewrite sin_0, cos_0.
  assert (0 <= d * PI / 360 < PI / 2) as Ht by (split; nra).
  assert (0 <= sin (d * PI / 360)) as Hs by (apply sin_ge_0; lra).
  assert (0 < cos (d * PI / 360)) as Hc by (apply cos_gt_0; lra).
  replace (0 ^ 2 + 1 * 1 * sin (d * PI / 360) ^ 2) with (sin (d * PI / 360))²
    by (unfold Rsqr; ring).
  rewrite sqrt_Rsqr by lra.
  replace (1 - (sin (d * PI / 360))²) with (cos (d * PI / 360))²
    by (rewrite cos2; reflexivity).
  rewrite sqrt_Rsqr by lra.
  rewrite Math_atan2_sin_cos by lra.
  field.
Qed.

Lemma accelerometer_V1_paused (M : MathHost) (now : Z) (a : vec3) (s : V1.App) :
  V1.pausedRef (V1.session s) = true -> V1.accelerometer_callback M now a s = s.
Proof.
  intros H. unfold V1.accelerometer_callback. rewrite H.
  destruct (V1.resultShownRef (V1.session s)); reflexivity.
Qed.

Lemma watchPosition_V1_paused (now : Z) (coords : Coords) (s : V1.App) :
  V1.pausedRef (V1.session s) = true -> V1.watchPosition_callback now coords s = s.
Proof.
  intros H. unfold V1.watchPosition_callback. rewrite H.
  destruct (V1.resultShownRef (V1.session s)); reflexivity.
Qed.

Lemma dispatch_V1_paused (M : MathHost) (now : Z) (ev : V1.Event) (s : V1.App) :
  V1.paused (V1.session s) = true ->
  V1.pausedRef (V1.session s) = true ->
  is_sample_V1 ev = true ->
  V1.dispatch M now ev s = s.
Proof.
  intros Hp Hr Hev. destruct ev; try discriminate; cbn [V1.dispatch].
  - rewrite Hp, andb_false_r. reflexivity.
  - rewrite Hp, andb_false_r. reflexivity.
  - induction (V1.watches (V1.env s)) as [|w ws IH]; cbn; [reflexivity|].
    rewrite (watchPosition_V1_paused now coords s Hr). exact IH.
Qed.

Lemma samples_V1_paused (M : MathHost) (samples : list (Z * V1.Event)) (s : V1.App) :
  V1.paused (V1.session s) = true ->
  V1.pausedRef (V1.session s) = true ->
  forallb (fun tev => is_sample_V1 (snd tev)) samples = true ->
  fold_left (fun s tev => V1.dispatch M (fst tev) (snd tev) s) samples s = s.
Proof.
  intros Hp Hr. induction samples as [|tev samples IH]; cbn; [reflexivity|].
  intros H. apply andb_prop in H as [H1 H2].
  rewrite (dispatch_V1_paused M (fst tev) (snd tev) s Hp Hr H1). now apply IH.
Qed.

Lemma togglePause_V1_involutive (s : V1.App) :
  V1.pausedRef (V1.session s) = V1.paused (V1.session s) ->
  V1.togglePause (V1.togglePause s) = s.
Proof.
  destruct s as [j l d x e]. destruct x. cbn. intros ->.
  unfold V1.togglePause, V1.with_session. cbn. now rewrite negb_involutive.
Qed.

(** C8, on the code.  In the first screen, in every state reached from
    mount, a sensor sample delivered while the session is paused leaves
    the state as it was (the accelerometer and location callbacks return
    at once on [pausedRef]; the gyroscope is not subscribed), and Pause,
    any samples, Resume lead back to the state before Pause.  In the
    second screen the accelerometer subscriber is not subscribed while
    paused, but the location watcher tests the [paused] its closure took
    at [beginTracking]: after Start and Pause, a fix is processed, its
    speed reading is appended, and distance accumulates. *)
Theorem C8_paused_handlers :
  (forall M trace firstWatch now ev,
     let s := V1.run M trace (V1.initial firstWatch) in
     V1.paused (V1.session s) = true ->
     is_sample_V1 ev = true ->
     V1.dispatch M now ev s = s) /\
  (forall M now a s,
     V1.pausedRef (V1.session s) = true ->
     V1.accelerometer_callback M now a s = s) /\
  (forall now coords s,
     V1.pausedRef (V1.session s) = true ->
     V1.watchPosition_callback now coords s = s) /\
  (forall M samples s,
     V1.paused (V1.session s) = false ->
     V1.pausedRef (V1.session s) = false ->
     forallb (fun tev => is_sample_V1 (snd tev)) samples = true ->
     V1.togglePause
       (fold_left (fun s tev => V1.dispatch M (fst tev) (snd tev) s) samples
          (V1.togglePause s)) = s) /\
  (forall M platform now a s,
     V2.paused (V2.session s) = true ->
     V2.dispatch M platform now (V2.Accelerometer a) s = s) /\
  (forall M,
   let s0 := V2.run M V2.ios paused_trace_V2 (V2.initial 1) in
   let s1 := V2.step M V2.ios s0 (3000%Z, V2.LocationFix fix_speed5) in
   let s2 := V2.step M V2.ios s1 (4000%Z, V2.LocationFix fix_east_speed5) in
   V2.tracking (V2.session s0) = true /\
   V2.paused (V2.session s0) = true /\
   V2.speedReadings (V2.loc s0) = [] /\
   V2.speedReadings (V2.loc s2) = [5; 5] /\
   V2.cumulativeDistance (V2.loc s0) = 0 /\
   0 < V2.cumulativeDistance (V2.loc s2)).
Proof.
  split.
  { intros M trace firstWatch now ev s Hp Hev.
    destruct (session_inv_run M trace firstWatch) as (Hm & _). fold s in Hm.
    apply dispatch_V1_paused; congruence. }
  split; [exact accelerometer_V1_paused|].
  split; [exact watchPosition_V1_paused|].
  split.
  { intros M samples s Hp Hr Hs.
    rewrite samples_V1_paused; try assumption.
    - apply togglePause_V1_involutive. congruence.
    - cbn. now rewrite Hp.
    - cbn. now rewrite Hp. }
  split.
  { intros M platform now a s Hp. cbn [V2.dispatch].
    rewrite Hp, andb_false_r. reflexivity. }
  assert (forall now l, V2.computeSpeed V2.ios now fix_speed5 l = 5) as E5.
  { intros. apply computeSpeed_V2_device; [reflexivity|lra]. }
  assert (forall now l, V2.computeSpeed V2.ios now fix_east_speed5 l = 5) as E5'.
  { intros. apply computeSpeed_V2_device; [reflexivity|lra]. }
  intros M. cbv zeta.
  repeat split; try reflexivity.
  - cbn. now rewrite E5', E5.
  - cbn. rewrite ?E5', ?E5. unfold Rltb.
    destruct (Rlt_dec (2 / 10) 5); [|lra].
    rewrite orb_true_r.
    replace (V2.LPF_ALPHA * 0 + (1 - V2.LPF_ALPHA) * 0) with 0 by ring.
    replace (V2.LPF_ALPHA * 1 + (1 - V2.LPF_ALPHA) * 0) with (95 / 100)
      by (unfold V2.LPF_ALPHA; field).
    rewrite calculateDistance_equator by lra.
    pose proof PI_bounds. lra.
Qed.

Lemma stopTracking_V1_shows (now : Z) (s : V1.App) :
  V1.showResults (V1.session (V1.stopTracking now s)) = true.
Proof. unfold V1.stopTracking. cbv zeta. split_tests; reflexivity. Qed.

(** C9, on the code.  In the first screen, in every state reached from
    mount (watch ids and clock readings not 0), Stop Journey leaves no
    stillness alert queued, clears both refs, and clears the location
    watch that [locationSubscription] holds.  That is every active watch
    when the journeys were begun one at a time.  But beginTracking run
    twice (the Start button pressed twice) starts two watches and keeps
    the id of the second: Stop leaves the first active, and once the
    summary is dismissed it processes fixes again.  Stop does not cancel
    the cooldown timer either, which fires after Stop.  In the second
    screen [stopTracking] clears the location watch only: a
    stillness-alert timer set during the journey is still queued after
    Stop, and fires.  In both screens the watch is cleared under the test
    [if (locationSubscription.current)], which a watch id of 0 fails. *)
Theorem C9_stop_releases :
  (forall M trace firstWatch now,
     (0 < firstWatch)%Z ->
     Forall (fun tev => fst tev <> 0%Z) trace ->
     let s := V1.run M trace (V1.initial firstWatch) in
     V1.tracking (V1.session s) = true ->
     let s' := V1.step M s (now, V1.StopJourney) in
     V1.tracking (V1.session s') = false /\
     V1.showResults (V1.session s') = true /\
     alerts s' = [] /\
     V1.stillAlertTimeoutRef (V1.det s') = None /\
     V1.locationSubscription (V1.session s') = None /\
     V1.watches (V1.env s')
     = match V1.locationSubscription (V1.session s) with
       | Some id => filter (fun w => negb (w =? id)%Z) (V1.watches (V1.env s))
       | None => V1.watches (V1.env s)
       end /\
     (starts_idle M trace (V1.initial firstWatch) ->
      V1.watches (V1.env s') = [])) /\
  (forall M,
   let s := V1.run M double_start_V1 (V1.initial 1) in
   let s' := V1.step M s (5000%Z, V1.LocationFix fix_speed5) in
   V1.tracking (V1.session s) = false /\
   V1.showResults (V1.session s) = false /\
   V1.locationSubscription (V1.session s) = None /\
   V1.watches (V1.env s) = [1%Z] /\
   V1.speedReadings (V1.loc s) = [] /\
   V1.speedReadings (V1.loc s') = [5]) /\
  (let s := V1.run refMath bump_then_stop_V1 (V1.initial 1) in
   let s' := V1.step refMath s (3000%Z, V1.Tick) in
   V1.tracking (V1.session s) = false /\
   V1.timers (V1.env s) = [mkTimer 1%positive 2500%Z V1.CooldownOff] /\
   V1.crashCooldownInternalRef (V1.det s) = true /\
   V1.timers (V1.env s') = [] /\
   V1.crashCooldownInternalRef (V1.det s') = false) /\
  (forall M,
   let s := V2.run M V2.ios stopped_trace_V2 (V2.initial 1) in
   let s' := V2.step M V2.ios s (17000%Z, V2.Tick) in
   V2.tracking (V2.session s) = false /\
   V2.showResults (V2.session s) = true /\
   V2.watches (V2.env s) = [] /\
   V2.timers (V2.env s) = [mkTimer 1%positive 16500%Z V2.HelpPrompt] /\
   V2.assistanceAlertVisible (V2.journey s) = false /\
   V2.assistanceAlertVisible (V2.journey s') = true /\
   V2.notifications (V2.env s')
   = [Speak "Tracking started"; Speak "Tracking stopped";
      Speak "Do you need help?"]) /\
  (forall M,
   let s := V1.run M start_stop_V1 (V1.initial 0) in
   V1.showResults (V1.session s) = true /\
   V1.watches (V1.env s) = [0%Z] /\
   V1.locationSubscription (V1.session s) = Some 0%Z).
Proof.
  split; [|split; [|split; [|split]]].
  - intros M trace firstWatch now Hw Ht s Htr. cbv zeta.
    unfold V1.step. cbn [fst snd V1.dispatch].
    pose proof (stop_inv_run_timers now s (stop_inv_run M trace firstWatch Hw Ht))
      as Hinv.
    destruct (run_timers_V1_frame now s) as (_ & Hx & _). cbv zeta in Hx.
    destruct (run_timers_V1_watches now s) as [Rw Rl].
    rewrite Hx, Htr.
    destruct (stopTracking_V1_releases now _ Hinv)
      as (E1 & E2 & E3 & E4 & _ & _ & E7).
    cbv zeta in *. rewrite stopTracking_V1_shows, Rw, Rl in *.
    repeat split; try assumption.
    intros Hi. rewrite E7. apply one_watch_cleared.
    apply (one_watch_run M trace (V1.initial firstWatch) Hi).
    intros w [].
  - intros M. cbv zeta.
    assert (forall now l, V1.computeSpeed now fix_speed5 l = 5) as E5.
    { intros. apply computeSpeed_V1_device; [reflexivity|lra]. }
    repeat split; try reflexivity.
    cbn. unfold V1.watchPosition_callback. cbn. now rewrite E5.
  - cbv zeta. repeat split; vm_compute; reflexivity.
  - intros M. cbv zeta. repeat split; vm_compute; reflexivity.
  - intros M. cbv zeta. repeat split; vm_compute; reflexivity.
Qed.

Lemma C9_witness :
  alerts (V1.step refMath (V1.run refMath (firstn 3 (still_then_move_V1 0))
                             (V1.initial 1))
            (2000%Z, V1.StopJourney)) = [] /\
  V1.watches
    (V1.env (V1.step refMath (V1.run refMath (firstn 3 (still_then_move_V1 0))
                                (V1.initial 1))
               (2000%Z, V1.StopJourney))) = [].
Proof.
  assert (Forall (fun tev : Z * V1.Event => fst tev <> 0%Z)
            (firstn 3 (still_then_move_V1 0))) as Ht
    by (repeat constructor; discriminate).
  assert (V1.tracking
            (V1.session (V1.run refMath (firstn 3 (still_then_move_V1 0))
                           (V1.initial 1))) = true) as Htr
    by (vm_compute; reflexivity).
  assert (starts_idle refMath (firstn 3 (still_then_move_V1 0)) (V1.initial 1))
    as Hi by (cbn; repeat split).
  pose proof (proj1 C9_stop_releases refMath (firstn 3 (still_then_move_V1 0))
                1%Z 2000%Z eq_refl Ht Htr) as H.
  cbv zeta in H. destruct H as (_ & _ & H3 & _ & _ & _ & H7).
  split; [exact H3 | exact (H7 Hi)].
Defined.

End PauseAndStop.

(* ------------------------------------------------------------------ *)
(** ** What the inertial handlers leave alone (first screen) *)

Section InertialFrames.
Import Host.

Lemma fire_all_loc (l : list (Timer V1.TimerAction)) (s : V1.App) :
  V1.loc (fire_all l s) = V1.loc s.
Proof.
  revert s. induction l as [|t l IH]; intros s; cbn; [reflexivity|].
  unfold fire_all in IH. rewrite IH. now destruct (act t).
Qed.

Lemma run_timers_V1_loc (now : Z) (s : V1.App) :
  V1.loc (V1.run_timers now s) = V1.loc s.
Proof.
  unfold V1.run_timers.
  match goal with |- context [fold_left _ ?l ?s0] =>
    pose proof (fire_all_loc l s0) as H; unfold fire_all in H
  end.
  exact H.
Qed.

Lemma stillness_V1_free (M : MathHost) (now : Z) (a : vec3) (s : V1.App)
  (c : V1.Counter) :
  inertial_free c = true ->
  V1.counts (V1.journey (V1.stillness M now a s)) c = V1.counts (V1.journey s) c /\
  V1.loc (V1.stillness M now a s) = V1.loc s.
Proof.
  intros Hc. unfold V1.stillness, V1.finalizeStop. cbv zeta.
  destruct c; try discriminate Hc; split_tests; cbn; split; reflexivity.
Qed.

Lemma bumpDetection_V1_free (now : Z) (a : vec3) (s : V1.App) (c : V1.Counter) :
  inertial_free c = true ->
  V1.counts (V1.journey (V1.bumpDetection now a s)) c
  = V1.counts (V1.journey s) c /\
  V1.loc (V1.bumpDetection now a s) = V1.loc s.
Proof.
  intros Hc. unfold V1.bumpDetection, V1.handleBumpEvent. cbv zeta.
  destruct c; try discriminate Hc; split_tests; cbn; split; reflexivity.
Qed.

Lemma fallDetection_V1_free (M : MathHost) (now : Z) (a : vec3) (s : V1.App)
  (c : V1.Counter) :
  inertial_free c = true ->
  V1.counts (V1.journey (V1.fallDetection M now a s)) c
  = V1.counts (V1.journey s) c /\
  V1.loc (V1.fallDetection M now a s) = V1.loc s.
Proof.
  intros Hc. unfold V1.fallDetection. cbv zeta.
  destruct c; try discriminate Hc; split_tests; cbn; split; reflexivity.
Qed.

(** The accelerometer subscriber sets no counter but the bump, stop and
    fall counters, and no location ref. *)
Lemma accelerometer_V1_free (M : MathHost) (now : Z) (a : vec3) (s : V1.App)
  (c : V1.Counter) :
  inertial_free c = true ->
  V1.counts (V1.journey (V1.accelerometer_callback M now a s)) c
  = V1.counts (V1.journey s) c /\
  V1.loc (V1.accelerometer_callback M now a s) = V1.loc s.
Proof.
  intros Hc. unfold V1.accelerometer_callback.
  destruct (V1.resultShownRef _); [split; reflexivity|].
  destruct (negb _); [|split; reflexivity]. cbv zeta.
  match goal with |- context [V1.fallDetection M now a ?x] =>
    destruct (fallDetection_V1_free M now a x c Hc) as [F1 F2]
  end.
  rewrite F1, F2.
  match goal with |- context [V1.bumpDetection now a ?x] =>
    destruct (bumpDetection_V1_free now a x c Hc) as [B1 B2]
  end.
  rewrite B1, B2. cbn [V1.set_lastAccelRef V1.with_det V1.journey V1.loc].
  apply stillness_V1_free, Hc.
Qed.

Lemma gyroscope_V1_loc (now : Z) (g : vec3) (s : V1.App) :
  V1.loc (V1.gyroscope_callback now g s) = V1.loc s.
Proof. unfold V1.gyroscope_callback. cbv zeta. split_tests; reflexivity. Qed.

Lemma watchPosition_V1_journey (now : Z) (coords : Coords) (s : V1.App) :
  V1.journey (V1.watchPosition_callback now coords s) = V1.journey s.
Proof. unfold V1.watchPosition_callback. cbv zeta. split_tests; reflexivity. Qed.

Lemma stopTracking_V1_journey_loc (now : Z) (s : V1.App) :
  V1.journey (V1.stopTracking now s) = V1.journey s /\
  V1.loc (V1.stopTracking now s) = V1.loc s.
Proof. unfold V1.stopTracking. cbv zeta. split_tests; split; reflexivity. Qed.

End InertialFrames.

(* ------------------------------------------------------------------ *)
(** ** Turns and jerks (first screen) *)

Section TurnsAndJerks.
Import Host.

(** A gyroscope sample that is delivered either counts nothing, or one
    turn and one jerk. *)
Lemma gyroscope_V1_counts (now : Z) (g : vec3) (s : V1.App) :
  let s' := V1.gyroscope_callback now g s in
  (turns s' = turns s /\ jerks s' = jerks s) \/
  (turns s' = S (turns s) /\ jerks s' = S (jerks s)).
Proof.
  cbv zeta. unfold V1.gyroscope_callback, turns, jerks. cbv zeta.
  destruct (V1.resultShownRef _); [left; split; reflexivity|].
  destruct (V1.crashCooldownInternalRef _); [left; split; reflexivity|].
  destruct (_ && _)%bool; [left; split; reflexivity|].
  destruct (_ <? _)%float; [left; split; reflexivity|].
  right. split_tests; cbn; split; lia.
Qed.

Lemma turns_dispatch (M : MathHost) (now : Z) (ev : V1.Event) (s : V1.App) :
  turns s = jerks s -> turns (V1.dispatch M now ev s) = jerks (V1.dispatch M now ev s).
Proof.
  intros H. destruct ev; cbn [V1.dispatch].
  - destruct (_ && _)%bool; [|exact H]. unfold turns, jerks in *.
    rewrite (proj1 (accelerometer_V1_free M now a s V1.sharpLeftCount eq_refl)),
      (proj1 (accelerometer_V1_free M now a s V1.sharpRightCount eq_refl)),
      (proj1 (accelerometer_V1_free M now a s V1.minorJerkCount eq_refl)),
      (proj1 (accelerometer_V1_free M now a s V1.majorJerkCount eq_refl)).
    exact H.
  - destruct (_ && _)%bool; [|exact H].
    destruct (gyroscope_V1_counts now g s) as [[E1 E2] | [E1 E2]];
      cbv zeta in *; lia.
  - generalize (V1.watches (V1.env s)). intros ws. revert s H.
    induction ws as [|w ws IH]; intros s H; cbn; [exact H|].
    apply IH. unfold turns, jerks. now rewrite watchPosition_V1_journey.
  - exact H.
  - destruct (V1.tracking _); [|exact H]. unfold turns, jerks.
    now rewrite (proj1 (stopTracking_V1_journey_loc now s)).
  - destruct (V1.tracking _); exact H.
  - destruct (V1.showResults _); [reflexivity | exact H].
  - exact H.
Qed.

(** X1.  In every state reached from mount the two turn counters add up
    to the two jerk counters: the gyroscope subscriber is the only code
    that raises any of the four, it raises one of each kind together, and
    the new-journey reset clears all four.  So the "Total Jerks" of the
    summary is the number of turns plus the number of bumps. *)
Theorem X1_turns_match_jerks (M : MathHost) (trace : list (Z * V1.Event))
  (firstWatch : Z) :
  let s := V1.run M trace (V1.initial firstWatch) in
  turns s = jerks s /\
  Summary.totalJerks (V1.journey s)
  = (turns s + Summary.totalBumps (V1.journey s))%nat /\
  Summary.totalJerks (V1.journey s)
  = (Summary.totalMajorJerks (V1.journey s)
     + Summary.totalMinorJerks (V1.journey s))%nat.
Proof.
  cbv zeta.
  assert (turns (V1.run M trace (V1.initial firstWatch))
          = jerks (V1.run M trace (V1.initial firstWatch))) as H.
  { unfold V1.run.
    assert (turns (V1.initial firstWatch) = jerks (V1.initial firstWatch)) as H
      by reflexivity.
    revert H. generalize (V1.initial firstWatch).
    induction trace as [|tev trace IH]; intros s H; cbn; [exact H|].
    apply IH. unfold V1.step. apply turns_dispatch.
    destruct (run_timers_V1_frame (fst tev) s) as (Hj & _). cbv zeta in Hj.
    unfold turns, jerks in *. now rewrite Hj. }
  split; [exact H|].
  unfold turns, jerks, Summary.totalJerks, Summary.totalBumps,
    Summary.totalMajorJerks, Summary.totalMinorJerks in *.
  split; lia.
Qed.

End TurnsAndJerks.

(* ------------------------------------------------------------------ *)
(** ** One cooldown for turns and bumps (first screen) *)

Section SharedCooldown.
Import Host.

(** While the only cooldown timer of the queue is not due, the flag
    stays set. *)
Lemma cooldown_holds (s : V1.App) (id : positive) (t d : Z) :
  filter is_cooloff (V1.timers (V1.env s))
  = [mkTimer id (t + 1000)%Z V1.CooldownOff] ->
  V1.crashCooldownInternalRef (V1.det s) = true ->
  (0 <= d < 1000)%Z ->
  V1.crashCooldownInternalRef (V1.det (V1.run_timers (t + d) s)) = true.
Proof.
  intros Hq Hc Hd.
  destruct (run_timers_V1_frame (t + d) s) as (_ & _ & _ & _ & _ & _ & _ & Pc).
  cbv zeta in Pc. rewrite Pc, Hc.
  destruct (existsb is_cooloff (due_timers (t + d) (V1.timers (V1.env s))))
    eqn:E; [|reflexivity].
  apply existsb_exists in E as (x & Hin & Hx).
  pose proof (due_timers_due _ _ _ Hin) as Hdue.
  assert (In x (V1.timers (V1.env s))) as Hin'.
  { rewrite <- (due_pending_split (t + d)). apply in_or_app. now left. }
  assert (In x (filter is_cooloff (V1.timers (V1.env s)))) as Hin''
    by (apply filter_In; now split).
  rewrite Hq in Hin''. destruct Hin'' as [<- | []]. cbn in Hdue. lia.
Qed.

(** Once it is due, the flag is cleared before the next event. *)
Lemma cooldown_released (s : V1.App) (id : positive) (t d : Z) :
  sorted_queue (V1.timers (V1.env s)) ->
  filter is_cooloff (V1.timers (V1.env s))
  = [mkTimer id (t + 1000)%Z V1.CooldownOff] ->
  (1000 < d)%Z ->
  V1.crashCooldownInternalRef (V1.det (V1.run_timers (t + d) s)) = false.
Proof.
  intros Hs Hq Hd.
  destruct (run_timers_V1_frame (t + d) s) as (_ & _ & _ & _ & _ & _ & _ & Pc).
  cbv zeta in Pc. rewrite Pc.
  assert (existsb is_cooloff (due_timers (t + d) (V1.timers (V1.env s))) = true)
    as E.
  { apply existsb_exists. exists (mkTimer id (t + 1000)%Z V1.CooldownOff).
    split; [|reflexivity].
    apply due_timers_complete; [exact Hs | | cbn; lia].
    assert (In (mkTimer id (t + 1000)%Z V1.CooldownOff)
              (filter is_cooloff (V1.timers (V1.env s)))) as Hin
      by (rewrite Hq; now left).
    now apply filter_In in Hin as [Hin _]. }
  now rewrite E.
Qed.

Lemma step_gyroscope_live (M : MathHost) (now : Z) (g : vec3) (s : V1.App) :
  V1.tracking (V1.session s) = true ->
  V1.paused (V1.session s) = false ->
  V1.step M s (now, V1.Gyroscope g)
  = V1.gyroscope_callback now g (V1.run_timers now s).
Proof.
  intros Ht Hp. unfold V1.step. cbn [fst snd V1.dispatch].
  destruct (run_timers_V1_frame now s) as (_ & Hx & _). cbv zeta in Hx.
  now rewrite Hx, Ht, Hp.
Qed.

(** A gyroscope sample that passes both thresholds while no cooldown
    runs: one turn and one jerk are counted, no bump, the cooldown flag is
    set and its timer queued. *)
Lemma gyroscope_V1_fires (now : Z) (g : vec3) (r : V1.App) :
  V1.resultShownRef (V1.session r) = false ->
  V1.crashCooldownInternalRef (V1.det r) = false ->
  is_turn g = true ->
  let s' := V1.gyroscope_callback now g r in
  turns s' = S (turns r) /\ jerks s' = S (jerks r) /\
  bumpTotal s' = bumpTotal r /\ bumpEvents s' = bumpEvents r /\
  V1.session s' = V1.session r /\
  V1.isFallen (V1.journey s') = V1.isFallen (V1.journey r) /\
  (forall a, crosses s' a = crosses r a) /\
  V1.crashCooldownInternalRef (V1.det s') = true /\
  V1.timers (V1.env s')
  = insert_timer (mkTimer (V1.nextTimer (V1.env r)) (now + 1000)%Z V1.CooldownOff)
      (V1.timers (V1.env r)).
Proof.
  intros Hr Hc Hg. cbv zeta. unfold is_turn in Hg.
  apply andb_true_iff in Hg as [Hg1 Hg2].
  apply negb_true_iff in Hg1, Hg2.
  unfold V1.gyroscope_callback, turns, jerks, bumpTotal, bumpEvents, crosses.
  rewrite Hr, Hc. cbv zeta. rewrite Hg1, Hg2.
  split_tests; cbn; rewrite filter_app, app_nil_r; repeat split; lia.
Qed.

(** A gyroscope sample during the cooldown changes nothing. *)
Lemma gyroscope_V1_suppressed (now : Z) (g : vec3) (r : V1.App) :
  V1.crashCooldownInternalRef (V1.det r) = true ->
  V1.gyroscope_callback now g r = r.
Proof.
  intros Hc. unfold V1.gyroscope_callback. rewrite Hc.
  now destruct (V1.resultShownRef _).
Qed.

Lemma run_timers_V1_turns (now : Z) (s : V1.App) :
  turns (V1.run_timers now s) = turns s /\ jerks (V1.run_timers now s) = jerks s.
Proof.
  destruct (run_timers_V1_frame now s) as (Hj & _). cbv zeta in Hj.
  unfold turns, jerks. now rewrite Hj.
Qed.

Lemma accelerometer_V1_turns (M : MathHost) (now : Z) (a : vec3) (s : V1.App) :
  turns (V1.accelerometer_callback M now a s) = turns s /\
  jerks (V1.accelerometer_callback M now a s) = jerks s.
Proof.
  unfold turns, jerks.
  rewrite (proj1 (accelerometer_V1_free M now a s V1.sharpLeftCount eq_refl)),
    (proj1 (accelerometer_V1_free M now a s V1.sharpRightCount eq_refl)),
    (proj1 (accelerometer_V1_free M now a s V1.minorJerkCount eq_refl)),
    (proj1 (accelerometer_V1_free M now a s V1.majorJerkCount eq_refl)).
  split; reflexivity.
Qed.

(** X2.  The turn detector and the bump detector share one cooldown
    flag.  In a state reached from mount with the subscribers live, the
    summary off screen and no cooldown running, a gyroscope sample that
    passes the thresholds counts one turn; an accelerometer sample less
    than 1000 ms later counts no bump and shows no Bump toast, whatever
    its reading; one more than 1000 ms later that crosses the bump
    threshold, the chair not fallen, counts a bump.  (With the summary of
    a stopped journey on screen, which a second beginTracking can find,
    both subscribers return at once.) *)
Theorem X2_turn_suppresses_bump (M : MathHost) (trace : list (Z * V1.Event))
  (firstWatch t1 d : Z) (g a : vec3) :
  let s := V1.run M trace (V1.initial firstWatch) in
  let s1 := V1.step M s (t1, V1.Gyroscope g) in
  let s2 := V1.step M s1 ((t1 + d)%Z, V1.Accelerometer a) in
  accel_live s ->
  V1.showResults (V1.session s) = false ->
  V1.crashCooldownInternalRef (V1.det s) = false ->
  is_turn g = true ->
  turns s1 = S (turns s) /\
  bumpTotal s1 = bumpTotal s /\
  ((0 <= d < 1000)%Z ->
   bumpTotal s2 = bumpTotal s /\ bumpEvents s2 = bumpEvents s) /\
  ((1000 < d)%Z ->
   V1.isFallen (V1.journey s1) = false -> crosses s1 a = true ->
   bumpTotal s2 = S (bumpTotal s) /\ bumpEvents s2 = S (bumpEvents s)).
Proof.
  cbv zeta. set (s := V1.run M trace (V1.initial firstWatch)).
  intros (Ht & Hp) Hsh Hc Hg.
  destruct (session_inv_run M trace firstWatch) as (Hm1 & Hm2 & Hm3).
  fold s in Hm1, Hm2, Hm3.
  assert (V1.resultShownRef (V1.session s) = false) as Hrs by congruence.
  pose proof (cooldown_inv_run M trace firstWatch) as Hinv. fold s in Hinv.
  rewrite (step_gyroscope_live M t1 g s Ht Hp).
  set (r := V1.run_timers t1 s).
  destruct (run_timers_V1_bump t1 s) as (R1 & R2 & R3 & R4 & R5).
  destruct (run_timers_V1_turns t1 s) as (R6 & R7).
  destruct (run_timers_V1_frame t1 s) as (_ & _ & _ & _ & _ & _ & _ & Rc).
  pose proof (cooldown_inv_run_timers t1 s Hinv) as (Rs & Rn & _).
  cbv zeta in *. fold r in R1, R2, R3, R4, R5, R6, R7, Rc, Rs, Rn.
  assert (V1.crashCooldownInternalRef (V1.det r) = false) as Hcr.
  { rewrite Rc, Hc. now destruct (existsb _ _). }
  destruct (gyroscope_V1_fires t1 g r) as (G1 & _ & G3 & G4 & G5 & G6 & G7 & G8 & G9);
    try congruence.
  cbv zeta in *. set (s1 := V1.gyroscope_callback t1 g r) in *.
  assert (sorted_queue (V1.timers (V1.env s1))) as Hs1
    by (rewrite G9; now apply insert_timer_sorted).
  assert (filter is_cooloff (V1.timers (V1.env s1))
          = [mkTimer (V1.nextTimer (V1.env r)) (t1 + 1000)%Z V1.CooldownOff])
    as Hq1 by (rewrite G9; now rewrite filter_insert_timer by now apply Rn).
  split; [congruence|]. split; [congruence|].
  assert (V1.tracking (V1.session s1) = true) as Ht1 by congruence.
  assert (V1.paused (V1.session s1) = false) as Hp1 by congruence.
  rewrite (step_accelerometer_live M (t1 + d) a s1 Ht1 Hp1).
  set (r2 := V1.run_timers (t1 + d) s1).
  destruct (run_timers_V1_bump (t1 + d) s1) as (P1 & P2 & P3 & P4 & P5).
  cbv zeta in *. fold r2 in P1, P2, P3, P4, P5.
  split.
  - intros Hd.
    pose proof (cooldown_holds s1 _ t1 d Hq1 G8 Hd) as Pc. fold r2 in Pc.
    destruct (accelerometer_V1_suppressed M (t1 + d) a r2 Pc) as [B1 B2].
    cbv zeta in *. split; congruence.
  - intros Hd Hf1 Hx.
    pose proof (cooldown_released s1 _ t1 d Hs1 Hq1 Hd) as Pc. fold r2 in Pc.
    assert (crosses r2 a = true) as Hx' by (now rewrite P4).
    destruct (accelerometer_V1_fires M (t1 + d) a r2) as (B1 & B2 & _);
      try congruence.
    cbv zeta in *. split; congruence.
Qed.

Lemma X2_witness :
  bumpEvents
    (V1.step refMath
       (V1.step refMath (V1.run refMath rolling_trace (V1.initial 1))
          (1500%Z, V1.Gyroscope swerve))
       ((1500 + 200)%Z, V1.Accelerometer kerb))
  = bumpEvents (V1.run refMath rolling_trace (V1.initial 1)).
Proof.
  assert (accel_live (V1.run refMath rolling_trace (V1.initial 1))) as H1
    by (repeat split; vm_compute; reflexivity).
  assert (V1.showResults
            (V1.session (V1.run refMath rolling_trace (V1.initial 1))) = false)
    as H0 by (vm_compute; reflexivity).
  assert (V1.crashCooldownInternalRef
            (V1.det (V1.run refMath rolling_trace (V1.initial 1))) = false) as H2
    by (vm_compute; reflexivity).
  assert (is_turn swerve = true) as H3 by (vm_compute; reflexivity).
  refine (proj2 (proj1 (proj2 (proj2
            (X2_turn_suppresses_bump refMath rolling_trace 1 1500 200 swerve kerb
               H1 H0 H2 H3))) _)).
  lia.
Defined.

(** X3.  Conversely, in such a state with the chair not fallen, an
    accelerometer sample that crosses the bump threshold counts a bump;
    a gyroscope sample less than 1000 ms later counts no turn and no
    jerk, whatever its reading; one more than 1000 ms later that passes
    the thresholds counts a turn. *)
Theorem X3_bump_suppresses_turn (M : MathHost) (trace : list (Z * V1.Event))
  (firstWatch t1 d : Z) (a g : vec3) :
  let s := V1.run M trace (V1.initial firstWatch) in
  let s1 := V1.step M s (t1, V1.Accelerometer a) in
  let s2 := V1.step M s1 ((t1 + d)%Z, V1.Gyroscope g) in
  accel_live s ->
  V1.isFallen (V1.journey s) = false ->
  V1.crashCooldownInternalRef (V1.det s) = false ->
  crosses s a = true ->
  bumpTotal s1 = S (bumpTotal s) /\
  turns s1 = turns s /\
  ((0 <= d < 1000)%Z -> turns s2 = turns s /\ jerks s2 = jerks s) /\
  ((1000 < d)%Z -> is_turn g = true ->
   turns s2 = S (turns s) /\ jerks s2 = S (jerks s)).
Proof.
  cbv zeta. set (s := V1.run M trace (V1.initial firstWatch)).
  intros (Ht & Hp) Hf Hc Hx1.
  pose proof (session_inv_run M trace firstWatch) as Hm. fold s in Hm.
  pose proof (crosses_unshown s a Hm Ht Hx1) as Hrs.
  destruct Hm as (Hm1 & Hm2 & Hm3).
  assert (V1.pausedRef (V1.session s) = false) as Hpr by congruence.
  pose proof (cooldown_inv_run M trace firstWatch) as Hinv. fold s in Hinv.
  rewrite (step_accelerometer_live M t1 a s Ht Hp).
  set (r := V1.run_timers t1 s).
  destruct (run_timers_V1_bump t1 s) as (R1 & R2 & R3 & R4 & R5).
  destruct (run_timers_V1_turns t1 s) as (R6 & R7).
  destruct (run_timers_V1_frame t1 s) as (_ & _ & _ & _ & _ & _ & _ & Rc).
  pose proof (cooldown_inv_run_timers t1 s Hinv) as (Rs & Rn & _).
  cbv zeta in *. fold r in R1, R2, R3, R4, R5, R6, R7, Rc, Rs, Rn.
  assert (V1.crashCooldownInternalRef (V1.det r) = false) as Hcr.
  { rewrite Rc, Hc. now destruct (existsb _ _). }
  assert (crosses r a = true) as Hx1' by (now rewrite R4).
  destruct (accelerometer_V1_fires M t1 a r) as (A1 & A2 & A3 & A4 & A5 & A6);
    try congruence.
  destruct (accelerometer_V1_turns M t1 a r) as (A7 & A8).
  cbv zeta in *. set (s1 := V1.accelerometer_callback M t1 a r) in *.
  specialize (A5 Rs). destruct (A6 (Rn Hcr)) as [id A6']. clear A6.
  split; [congruence|]. split; [congruence|].
  assert (V1.tracking (V1.session s1) = true) as Ht1 by congruence.
  assert (V1.paused (V1.session s1) = false) as Hp1 by congruence.
  rewrite (step_gyroscope_live M (t1 + d) g s1 Ht1 Hp1).
  set (r2 := V1.run_timers (t1 + d) s1).
  destruct (run_timers_V1_turns (t1 + d) s1) as (P6 & P7).
  destruct (run_timers_V1_frame (t1 + d) s1) as (_ & P5 & _).
  cbv zeta in *. fold r2 in P5, P6, P7.
  split.
  - intros Hd.
    pose proof (cooldown_holds s1 id t1 d A6' A4 Hd) as Pc. fold r2 in Pc.
    rewrite (gyroscope_V1_suppressed (t1 + d) g r2 Pc). split; congruence.
  - intros Hd Hg.
    pose proof (cooldown_released s1 id t1 d A5 A6' Hd) as Pc. fold r2 in Pc.
    destruct (gyroscope_V1_fires (t1 + d) g r2) as (G1 & G2 & _);
      try congruence.
    cbv zeta in *. split; congruence.
Qed.

Lemma X3_witness :
  turns
    (V1.step refMath
       (V1.step refMath (V1.run refMath rolling_trace (V1.initial 1))
          (1500%Z, V1.Accelerometer kerb))
       ((1500 + 200)%Z, V1.Gyroscope swerve))
  = turns (V1.run refMath rolling_trace (V1.initial 1)).
Proof.
  assert (accel_live (V1.run refMath rolling_trace (V1.initial 1))) as H1
    by (repeat split; vm_compute; reflexivity).
  assert (V1.isFallen (V1.journey (V1.run refMath rolling_trace (V1.initial 1)))
          = false) as H2 by (vm_compute; reflexivity).
  assert (V1.crashCooldownInternalRef
            (V1.det (V1.run refMath rolling_trace (V1.initial 1))) = false) as H3
    by (vm_compute; reflexivity).
  assert (crosses (V1.run refMath rolling_trace (V1.initial 1)) kerb = true) as H4
    by (vm_compute; reflexivity).
  refine (proj1 (proj1 (proj2 (proj2
            (X3_bump_suppresses_turn refMath rolling_trace 1 1500 200 kerb swerve
               H1 H2 H3 H4))) _)).
  lia.
Defined.

End SharedCooldown.

(* ------------------------------------------------------------------ *)
(** ** The location filter on reachable states (first screen) *)

Section ReachableLocation.
Import Geo Host.
Local Open Scope R_scope.

(** An invariant that reads only the location refs and the session is
    kept by every handler that leaves both alone. *)
Lemma reachable_by_dispatch (P : V1.App -> Prop) :
  (forall s s', V1.loc s' = V1.loc s -> V1.session s' = V1.session s ->
                P s -> P s') ->
  (forall now coords s, P s -> P (V1.watchPosition_callback now coords s)) ->
  (forall now coords s, P s -> P (V1.beginTracking now coords s)) ->
  (forall now s, P s -> P (V1.stopTracking now s)) ->
  (forall s, P s -> P (V1.togglePause s)) ->
  (forall s, P s -> P (V1.resetForNewJourney s)) ->
  (forall s, P s -> P (V1.tick s)) ->
  forall firstWatch, P (V1.initial firstWatch) ->
  forall M trace, P (V1.run M trace (V1.initial firstWatch)).
Proof.
  intros Hsame Hw Hb Hs Hp Hr Ht firstWatch H0 M trace. unfold V1.run.
  revert H0. generalize (V1.initial firstWatch).
  induction trace as [|tev trace IH]; intros s H; cbn; [exact H|].
  apply IH. unfold V1.step.
  assert (P (V1.run_timers (fst tev) s)) as H1.
  { apply (Hsame s); [apply run_timers_V1_loc | | exact H].
    now destruct (run_timers_V1_frame (fst tev) s) as (_ & Hx & _). }
  generalize dependent (V1.run_timers (fst tev) s). clear H s.
  intros s H. destruct (snd tev); cbn [V1.dispatch].
  - destruct (_ && _)%bool; [|exact H]. apply (Hsame s); [| |exact H].
    + apply (accelerometer_V1_free M _ a s V1.sharpLeftCount eq_refl).
    + apply accelerometer_V1_session.
  - destruct (_ && _)%bool; [|exact H]. apply (Hsame s); [| |exact H].
    + apply gyroscope_V1_loc.
    + apply gyroscope_V1_session.
  - generalize (V1.watches (V1.env s)). intros ws. revert s H.
    induction ws as [|w ws IHw]; intros s H; cbn; [exact H|].
    apply IHw, Hw, H.
  - apply Hb, H.
  - destruct (V1.tracking _); [apply Hs, H | exact H].
  - destruct (V1.tracking _); [apply Hp, H | exact H].
  - destruct (V1.showResults _); [apply Hr, H | exact H].
  - apply Ht, H.
Qed.

(** *** The Kalman filter *)

Lemma kalman_gain (p : R) : 0 < p -> 0 < p / (p + 1 / 10000) < 1.
Proof.
  intros Hp. assert (p / (p + 1 / 10000) * (p + 1 / 10000) = p) as E
    by (field; lra).
  split.
  - apply Rdiv_lt_0_compat; lra.
  - set (k := p / (p + 1 / 10000)) in *. nra.
Qed.

Lemma kalman_variance (p : R) :
  0 < p <= 1 -> 0 < (1 - p / (p + 1 / 10000)) * p + 1 / 10000 <= 1.
Proof.
  intros [Hp Hp1]. pose proof (kalman_gain p Hp) as [Hk0 Hk1].
  assert (p / (p + 1 / 10000) * (p + 1 / 10000) = p) as E by (field; lra).
  set (k := p / (p + 1 / 10000)) in *. split; nra.
Qed.

Lemma kalman_inv_watchPosition (now : Z) (coords : Coords) (s : V1.App) :
  kalman_inv s -> kalman_inv (V1.watchPosition_callback now coords s).
Proof.
  unfold kalman_inv, V1.watchPosition_callback.
  destruct (V1.resultShownRef _); [trivial|].
  destruct (negb _); [|trivial].
  destruct (V1.lowAccuracy _); [trivial|]. cbv zeta.
  destruct (V1.filteredLocation (V1.loc s)) as [f|]; cbn.
  - intros [Hp Hq]. split; now apply kalman_variance.
  - intros _. lra.
Qed.

Lemma kalman_inv_run (M : MathHost) (trace : list (Z * V1.Event))
  (firstWatch : Z) :
  kalman_inv (V1.run M trace (V1.initial firstWatch)).
Proof.
  apply reachable_by_dispatch.
  - unfold kalman_inv. intros s s' -> _. trivial.
  - intros. now apply kalman_inv_watchPosition.
  - intros. exact I.
  - intros now s. unfold kalman_inv.
    now rewrite (proj2 (stopTracking_V1_journey_loc now s)).
  - trivial.
  - trivial.
  - trivial.
  - exact I.
Qed.

(** X4.  In a state reached from mount that holds a filtered location, a
    fix that the location callback processes moves the filtered location
    toward the raw fix and never past it: on each axis the new filtered
    coordinate lies between the previous filtered coordinate and the raw
    one.  (The gain of the filter is in (0, 1) because its error variance
    stays in (0, 1] from the first fix on.) *)
Theorem X4_filtered_between (M : MathHost) (trace : list (Z * V1.Event))
  (firstWatch now : Z) (coords : Coords) (f : coord) :
  let s := V1.run M trace (V1.initial firstWatch) in
  let s' := V1.watchPosition_callback now coords s in
  processed_V1 coords s ->
  V1.filteredLocation (V1.loc s) = Some f ->
  exists f',
    V1.filteredLocation (V1.loc s') = Some f' /\
    Rmin (latitude f) (c_latitude coords) <= latitude f'
    <= Rmax (latitude f) (c_latitude coords) /\
    Rmin (longitude f) (c_longitude coords) <= longitude f'
    <= Rmax (longitude f) (c_longitude coords).
Proof.
  cbv zeta. intros (Hr & Hp & Ha) Hf.
  pose proof (kalman_inv_run M trace firstWatch) as Hk.
  unfold kalman_inv in Hk. rewrite Hf in Hk. destruct Hk as [[Hp0 _] [Hq0 _]].
  unfold V1.watchPosition_callback. rewrite Hr, Hp, Ha. cbn [negb]. cbv zeta.
  rewrite Hf. cbn. eexists. split; [reflexivity|]. cbn.
  pose proof (kalman_gain _ Hp0) as [K1 K2].
  pose proof (kalman_gain _ Hq0) as [L1 L2].
  set (k := numR (V1.pLat _) / _) in *. set (l := numR (V1.pLon _) / _) in *.
  unfold Rmin, Rmax.
  split; destruct (Rle_dec _ _); split; nra.
Qed.

Lemma X4_witness :
  exists f',
    V1.filteredLocation
      (V1.loc (V1.watchPosition_callback 3000 fix_east_speed5
                 (V1.run refMath
                    [(1000%Z, V1.Start fix_origin);
                     (2000%Z, V1.LocationFix fix_speed5)] (V1.initial 1))))
    = Some f' /\
    Rmin 0 0 <= latitude f' <= Rmax 0 0 /\
    Rmin 0 1 <= longitude f' <= Rmax 0 1.
Proof.
  refine (X4_filtered_between refMath
            [(1000%Z, V1.Start fix_origin); (2000%Z, V1.LocationFix fix_speed5)]
            1 3000 fix_east_speed5 (mkCoord 0 0) _ _).
  - repeat split; cbn; unfold V1.lowAccuracy; reflexivity.
  - cbn. unfold V1.watchPosition_callback. cbn. reflexivity.
Defined.

(** *** Speeds *)

Lemma computeSpeed_V1_nonneg (now : Z) (coords : Coords) (l : V1.LocationRefs) :
  0 <= V1.computeSpeed now coords l.
Proof.
  unfold V1.computeSpeed.
  destruct (c_speed coords) as [v|]; cbn [numR].
  - unfold Rleb. destruct (Rle_dec 0 v); [assumption|].
    destruct (V1.lastLocation l); [|lra]. destruct (truthyZ _); [|lra].
    cbv zeta. unfold Rltb. destruct (Rlt_dec _ _); [|lra].
    apply Rmult_le_pos; [apply calculateDistance_nonneg|].
    left. now apply Rinv_0_lt_compat.
  - destruct (V1.lastLocation l); [|lra]. destruct (truthyZ _); [|lra].
    cbv zeta. unfold Rltb. destruct (Rlt_dec _ _); [|lra].
    apply Rmult_le_pos; [apply calculateDistance_nonneg|].
    left. now apply Rinv_0_lt_compat.
Qed.

Lemma fold_left_Rplus_nonneg (l : list R) (acc : R) :
  Forall (fun v => 0 <= v) l -> 0 <= acc -> 0 <= fold_left Rplus l acc.
Proof.
  revert acc. induction l as [|x l IH]; intros acc Hl Ha; cbn; [exact Ha|].
  inversion Hl; subst. apply IH; [assumption | lra].
Qed.

Lemma mean_V1_nonneg (l : list R) :
  Forall (fun v => 0 <= v) l -> 0 <= V1.mean l.
Proof.
  intros Hl. unfold V1.mean. destruct l as [|x l]; [lra|].
  apply Rmult_le_pos; [apply fold_left_Rplus_nonneg; [assumption | lra]|].
  left. apply Rinv_0_lt_compat, lt_0_INR. cbn. lia.
Qed.

Lemma speeds_inv_watchPosition (now : Z) (coords : Coords) (s : V1.App) :
  speeds_inv s -> speeds_inv (V1.watchPosition_callback now coords s).
Proof.
  unfold speeds_inv, V1.watchPosition_callback.
  destruct (V1.resultShownRef _); [trivial|].
  destruct (negb _); [|trivial].
  destruct (V1.lowAccuracy _); [trivial|]. cbv zeta.
  pose proof (computeSpeed_V1_nonneg now coords (V1.loc s)) as Hc.
  intros (H1 & H2 & H3).
  destruct (V1.filteredLocation (V1.loc s)) as [f|]; cbn;
    (split; [apply Forall_app; split; [exact H1 | now constructor]|]);
    split; assumption.
Qed.

(** X5.  In every state reached from mount no recorded speed reading is
    negative, nor is the displayed speed, nor the average speed of the
    summary: the device speed is used only when it is at least 0, the
    derived speed is a haversine distance over a positive time, and the
    average is the mean of the readings, or 0. *)
Theorem X5_speeds_nonneg (M : MathHost) (trace : list (Z * V1.Event))
  (firstWatch : Z) :
  let s := V1.run M trace (V1.initial firstWatch) in
  Forall (fun v => 0 <= v) (V1.speedReadings (V1.loc s)) /\
  0 <= V1.speed (V1.loc s) /\
  0 <= V1.averageSpeed (V1.session s).
Proof.
  cbv zeta. change (speeds_inv (V1.run M trace (V1.initial firstWatch))).
  apply reachable_by_dispatch.
  - unfold speeds_inv. intros s s' -> ->. trivial.
  - intros. now apply speeds_inv_watchPosition.
  - unfold speeds_inv. intros now coords s (H1 & H2 & H3). cbn.
    repeat split; [constructor | assumption | assumption].
  - intros now s (H1 & H2 & H3). unfold speeds_inv.
    rewrite (proj2 (stopTracking_V1_journey_loc now s)).
    split; [exact H1|]. split; [exact H2|].
    unfold V1.stopTracking. cbv zeta.
    set (s1 := match V1.locationSubscription (V1.session s) with
               | Some id => _ | None => s end).
    assert (V1.loc s1 = V1.loc s) as E1 by (subst s1; split_tests; reflexivity).
    clearbody s1.
    assert (0 <= V1.mean (V1.speedReadings (V1.loc s1))) as Hm
      by (rewrite E1; now apply mean_V1_nonneg).
    destruct (V1.stillAlertTimeoutRef (V1.det s1)); cbn; exact Hm.
  - trivial.
  - unfold speeds_inv. intros s (H1 & H2 & H3). cbn.
    repeat split; [assumption | lra | lra].
  - trivial.
  - unfold speeds_inv. cbn. repeat split; [constructor | lra | lra].
Qed.

(** *** Distances *)

(** X6.  In every state reached from mount the distance on display (the
    "Total Distance" of the summary) is at least 0 and at most the
    distance accumulated so far: the one-second interval copies the
    accumulated distance, which only grows between the resets that set
    both to 0. *)
Theorem X6_displayed_distance (M : MathHost) (trace : list (Z * V1.Event))
  (firstWatch : Z) :
  let s := V1.run M trace (V1.initial firstWatch) in
  0 <= V1.distanceTraveled (V1.session s) <= V1.cumulativeDistance (V1.loc s).
Proof.
  cbv zeta. change (distance_inv (V1.run M trace (V1.initial firstWatch))).
  apply reachable_by_dispatch.
  - unfold distance_inv. intros s s' -> ->. trivial.
  - unfold distance_inv. intros now coords s H.
    rewrite watchPosition_V1_session.
    pose proof (watchPosition_V1_monotone now coords s). lra.
  - unfold distance_inv. intros. cbn. lra.
  - intros now s H. unfold distance_inv.
    rewrite (proj2 (stopTracking_V1_journey_loc now s)).
    unfold V1.stopTracking. cbv zeta.
    set (s1 := match V1.locationSubscription (V1.session s) with
               | Some id => _ | None => s end).
    assert (V1.distanceTraveled (V1.session s1)
            = V1.distanceTraveled (V1.session s)) as E1
      by (subst s1; split_tests; reflexivity).
    clearbody s1.
    destruct (V1.stillAlertTimeoutRef (V1.det s1)); cbn; rewrite E1; exact H.
  - trivial.
  - unfold distance_inv. intros. cbn. lra.
  - unfold distance_inv. intros s H. cbn. lra.
  - unfold distance_inv. cbn. lra.
Qed.

End ReachableLocation.

(* ------------------------------------------------------------------ *)
(** ** Over-speed count and speed alert (first screen) *)

Section SpeedEffect.
Import Host.
Local Open Scope R_scope.

(** What the effect leaves alone. *)
Lemma speedEffect_frame (now : Z) (m : SpeedMonitor.Monitor) :
  V1.loc (snd (SpeedMonitor.speedEffect now m)) = V1.loc (snd m) /\
  V1.session (snd (SpeedMonitor.speedEffect now m)) = V1.session (snd m) /\
  V1.det (snd (SpeedMonitor.speedEffect now m)) = V1.det (snd m).
Proof.
  unfold SpeedMonitor.speedEffect. cbv zeta.
  split_tests; cbn; repeat split; reflexivity.
Qed.

(** No handler of the screen shows a Speed Alert or an Over Speed toast,
    and none but the new-journey reset sets [overSpeedCount]. *)
Lemma fire_all_speed (l : list (Timer V1.TimerAction)) (s : V1.App) :
  speedAlerts (fire_all l s) = speedAlerts s /\
  overSpeedToasts (fire_all l s) = overSpeedToasts s.
Proof.
  revert s. induction l as [|t l IH]; intros s; cbn; [split; reflexivity|].
  unfold fire_all in IH. destruct (IH (V1.fire (act t) s)) as [E1 E2].
  rewrite E1, E2. unfold speedAlerts, overSpeedToasts.
  destruct (act t); cbn; rewrite ?filter_app, ?app_nil_r; split; reflexivity.
Qed.

Lemma run_timers_V1_speed (now : Z) (s : V1.App) :
  speedAlerts (V1.run_timers now s) = speedAlerts s /\
  overSpeedToasts (V1.run_timers now s) = overSpeedToasts s.
Proof.
  unfold V1.run_timers.
  match goal with |- context [fold_left _ ?l ?s0] =>
    pose proof (fire_all_speed l s0) as H; unfold fire_all in H
  end.
  exact H.
Qed.

Lemma stillness_V1_speed (M : MathHost) (now : Z) (a : vec3) (s : V1.App) :
  speedAlerts (V1.stillness M now a s) = speedAlerts s /\
  overSpeedToasts (V1.stillness M now a s) = overSpeedToasts s.
Proof.
  destruct (stillness_V1_frame M now a s) as (_ & _ & _ & _ & _ & S6 & _).
  cbv zeta in S6. unfold speedAlerts, overSpeedToasts. now rewrite S6.
Qed.

Lemma bumpDetection_V1_speed (now : Z) (a : vec3) (s : V1.App) :
  speedAlerts (V1.bumpDetection now a s) = speedAlerts s /\
  overSpeedToasts (V1.bumpDetection now a s) = overSpeedToasts s.
Proof.
  unfold V1.bumpDetection, V1.handleBumpEvent, speedAlerts, overSpeedToasts.
  cbv zeta.
  split_tests; cbn; rewrite ?filter_app, ?app_nil_r; split; reflexivity.
Qed.

Lemma fallDetection_V1_speed (M : MathHost) (now : Z) (a : vec3) (s : V1.App) :
  speedAlerts (V1.fallDetection M now a s) = speedAlerts s /\
  overSpeedToasts (V1.fallDetection M now a s) = overSpeedToasts s.
Proof.
  unfold V1.fallDetection, speedAlerts, overSpeedToasts. cbv zeta.
  split_tests; cbn; rewrite ?filter_app, ?app_nil_r; split; reflexivity.
Qed.

Lemma accelerometer_V1_speed (M : MathHost) (now : Z) (a : vec3) (s : V1.App) :
  speedAlerts (V1.accelerometer_callback M now a s) = speedAlerts s /\
  overSpeedToasts (V1.accelerometer_callback M now a s) = overSpeedToasts s.
Proof.
  unfold V1.accelerometer_callback.
  destruct (V1.resultShownRef _); [split; reflexivity|].
  destruct (negb _); [|split; reflexivity]. cbv zeta.
  match goal with |- context [V1.fallDetection M now a ?x] =>
    destruct (fallDetection_V1_speed M now a x) as [F1 F2]
  end.
  rewrite F1, F2.
  match goal with |- context [V1.bumpDetection now a ?x] =>
    destruct (bumpDetection_V1_speed now a x) as [B1 B2]
  end.
  rewrite B1, B2. apply (stillness_V1_speed M now a s).
Qed.

Lemma gyroscope_V1_speed (now : Z) (g : vec3) (s : V1.App) :
  speedAlerts (V1.gyroscope_callback now g s) = speedAlerts s /\
  overSpeedToasts (V1.gyroscope_callback now g s) = overSpeedToasts s /\
  V1.counts (V1.journey (V1.gyroscope_callback now g s)) V1.overSpeedCount
  = V1.counts (V1.journey s) V1.overSpeedCount.
Proof.
  unfold V1.gyroscope_callback, speedAlerts, overSpeedToasts. cbv zeta.
  split_tests; cbn; rewrite ?filter_app, ?app_nil_r; repeat split; reflexivity.
Qed.

Lemma watchPosition_V1_env (now : Z) (coords : Coords) (s : V1.App) :
  V1.env (V1.watchPosition_callback now coords s) = V1.env s.
Proof. unfold V1.watchPosition_callback. cbv zeta. split_tests; reflexivity. Qed.

Lemma stopTracking_V1_notifications (now : Z) (s : V1.App) :
  V1.notifications (V1.env (V1.stopTracking now s)) = V1.notifications (V1.env s).
Proof. unfold V1.stopTracking. cbv zeta. split_tests; reflexivity. Qed.

Lemma step_V1_speed (M : MathHost) (s : V1.App) (tev : Z * V1.Event) :
  speedAlerts (V1.step M s tev) = speedAlerts s /\
  overSpeedToasts (V1.step M s tev) = overSpeedToasts s.
Proof.
  unfold V1.step. destruct (run_timers_V1_speed (fst tev) s) as [E1 E2].
  rewrite <- E1, <- E2. generalize (V1.run_timers (fst tev) s). clear E1 E2 s.
  intros s. destruct (snd tev); cbn [V1.dispatch].
  - destruct (_ && _)%bool; [apply accelerometer_V1_speed | split; reflexivity].
  - destruct (_ && _)%bool; [|split; reflexivity].
    destruct (gyroscope_V1_speed (fst tev) g s) as (G1 & G2 & _). now split.
  - generalize (V1.watches (V1.env s)). intros ws. revert s.
    induction ws as [|w ws IH]; intros s; cbn; [split; reflexivity|].
    destruct (IH (V1.watchPosition_callback (fst tev) coords s)) as [E1 E2].
    rewrite E1, E2. unfold speedAlerts, overSpeedToasts.
    rewrite watchPosition_V1_env. split; reflexivity.
  - split; reflexivity.
  - destruct (V1.tracking _); [|split; reflexivity].
    unfold speedAlerts, overSpeedToasts.
    rewrite stopTracking_V1_notifications. split; reflexivity.
  - destruct (V1.tracking _); split; reflexivity.
  - destruct (V1.showResults _); split; reflexivity.
  - split; reflexivity.
Qed.

End SpeedEffect.

Section SpeedAlerts.
Import Host.
Local Open Scope R_scope.

(** The screen part of a monitored step is the step of the screen, up to
    what the effect adds: a counter and toasts. *)
Lemma step_monitor_frame (M : MathHost) (m : SpeedMonitor.Monitor)
  (tev : Z * V1.Event) :
  V1.loc (snd (SpeedMonitor.step M m tev)) = V1.loc (V1.step M (snd m) tev) /\
  V1.session (snd (SpeedMonitor.step M m tev))
  = V1.session (V1.step M (snd m) tev).
Proof.
  unfold SpeedMonitor.step. cbv zeta.
  destruct (SpeedMonitor.deps_changed _ _); [|split; reflexivity].
  match goal with |- context [SpeedMonitor.speedEffect ?n ?x] =>
    destruct (speedEffect_frame n x) as (E1 & E2 & _)
  end.
  rewrite E1, E2. split; reflexivity.
Qed.

(** The effect shows at most one Speed Alert, and only when more than
    30000 ms have passed since the time it last recorded. *)
Lemma speedEffect_alerts (now : Z) (m : SpeedMonitor.Monitor) :
  let m' := SpeedMonitor.speedEffect now m in
  (speedAlerts (snd m') = speedAlerts (snd m) /\
   SpeedMonitor.lastSpeedAlertTimeRef (fst m')
   = SpeedMonitor.lastSpeedAlertTimeRef (fst m)) \/
  (speedAlerts (snd m') = S (speedAlerts (snd m)) /\
   SpeedMonitor.lastSpeedAlertTimeRef (fst m') = now /\
   (30000 < now - SpeedMonitor.lastSpeedAlertTimeRef (fst m))%Z).
Proof.
  cbv zeta. unfold SpeedMonitor.speedEffect. cbv zeta.
  destruct (_ && _)%bool; [|left; split; reflexivity].
  match goal with |- context [if (?a && ?b)%bool then V1.showToastNotification _ _ _ else _] =>
    set (s1 := if (a && b)%bool then _ else snd m)
  end.
  assert (speedAlerts s1 = speedAlerts (snd m)) as E1.
  { subst s1. unfold speedAlerts. split_tests; cbn;
      rewrite ?filter_app, ?app_nil_r; reflexivity. }
  clearbody s1.
  destruct (Geo.Rltb _ _); cbn [andb]; [|left; split; [exact E1 | reflexivity]].
  destruct (Z.ltb_spec SpeedMonitor.SPEED_ALERT_COOLDOWN
              (now - SpeedMonitor.lastSpeedAlertTimeRef (fst m))) as [L|L].
  - right. unfold speedAlerts in *. cbn. rewrite filter_app, length_app. cbn.
    unfold SpeedMonitor.SPEED_ALERT_COOLDOWN in L. repeat split; lia.
  - left. split; [exact E1 | reflexivity].
Qed.

Lemma step_monitor_alerts (M : MathHost) (m : SpeedMonitor.Monitor)
  (tev : Z * V1.Event) :
  let m' := SpeedMonitor.step M m tev in
  (speedAlerts (snd m') = speedAlerts (snd m) /\
   SpeedMonitor.lastSpeedAlertTimeRef (fst m')
   = SpeedMonitor.lastSpeedAlertTimeRef (fst m)) \/
  (speedAlerts (snd m') = S (speedAlerts (snd m)) /\
   SpeedMonitor.lastSpeedAlertTimeRef (fst m') = fst tev /\
   (30000 < fst tev - SpeedMonitor.lastSpeedAlertTimeRef (fst m))%Z).
Proof.
  cbv zeta. unfold SpeedMonitor.step. cbv zeta.
  destruct (step_V1_speed M (snd m) tev) as [E _].
  set (r := match snd tev with V1.Start _ => _ | _ => fst m end).
  assert (SpeedMonitor.lastSpeedAlertTimeRef r
          = SpeedMonitor.lastSpeedAlertTimeRef (fst m)) as Er.
  { subst r. destruct (snd tev); reflexivity. }
  clearbody r.
  destruct (SpeedMonitor.deps_changed _ _).
  - destruct (speedEffect_alerts (fst tev) (r, V1.step M (snd m) tev))
      as [[A1 A2] | (A1 & A2 & A3)]; cbv zeta in *; cbn [fst snd] in *.
    + left. split; congruence.
    + right. rewrite <- Er. repeat split; congruence.
  - left. cbn [fst snd]. split; congruence.
Qed.

(** X7.  Speed alerts are more than 30 s apart: over any run whose events
    all fall within a window of 30000 ms, from any state of the screen
    and of the refs, at most one Speed Alert toast is shown. *)
Theorem X7_speed_alert_cooldown (M : MathHost) (trace : list (Z * V1.Event))
  (m : SpeedMonitor.Monitor) (T : Z) :
  Forall (fun tev => (T <= fst tev <= T + 30000)%Z) trace ->
  (speedAlerts (snd (SpeedMonitor.run M trace m)) <= S (speedAlerts (snd m)))%nat.
Proof.
  intros Hw.
  assert (forall m',
    (speedAlerts (snd m') = speedAlerts (snd m) \/
     (speedAlerts (snd m') = S (speedAlerts (snd m)) /\
      (T <= SpeedMonitor.lastSpeedAlertTimeRef (fst m'))%Z)) ->
    (speedAlerts (snd (SpeedMonitor.run M trace m'))
     <= S (speedAlerts (snd m)))%nat) as H.
  { unfold SpeedMonitor.run.
    induction Hw as [|tev trace Ht Hw IH]; intros m' Hm'; cbn.
    - destruct Hm' as [E | [E _]]; lia.
    - apply IH.
      destruct (step_monitor_alerts M m' tev) as [[A1 A2] | (A1 & A2 & A3)];
        cbv zeta in *.
      + destruct Hm' as [E | [E L]]; [left | right; split]; congruence.
      + destruct Hm' as [E | [E L]]; [right; split; [congruence | lia] | lia]. }
  apply H. now left.
Qed.

Lemma X7_witness :
  (speedAlerts
     (snd (SpeedMonitor.run refMath
             [(2000%Z, V1.PauseResume); (3000%Z, V1.PauseResume)] racing))
   <= S (speedAlerts (snd racing)))%nat.
Proof.
  apply (X7_speed_alert_cooldown refMath
           [(2000%Z, V1.PauseResume); (3000%Z, V1.PauseResume)] racing 1000).
  repeat constructor; cbn; lia.
Defined.

(** *** Over-speed *)

Lemma step_V1_overSpeed (M : MathHost) (s : V1.App) (tev : Z * V1.Event) :
  V1.counts (V1.journey (V1.step M s tev)) V1.overSpeedCount
  = V1.counts (V1.journey s) V1.overSpeedCount \/
  V1.speed (V1.loc (V1.step M s tev)) = 0.
Proof.
  unfold V1.step.
  destruct (run_timers_V1_frame (fst tev) s) as (Hj & _). cbv zeta in Hj.
  rewrite <- Hj. generalize (V1.run_timers (fst tev) s). clear Hj s.
  intros s. destruct (snd tev); cbn [V1.dispatch].
  - destruct (_ && _)%bool; [|now left]. left.
    apply (accelerometer_V1_free M _ a s V1.overSpeedCount eq_refl).
  - destruct (_ && _)%bool; [|now left]. left.
    apply (gyroscope_V1_speed (fst tev) g s).
  - left. generalize (V1.watches (V1.env s)). intros ws. revert s.
    induction ws as [|w ws IH]; intros s; cbn; [reflexivity|].
    rewrite IH. now rewrite watchPosition_V1_journey.
  - now left.
  - destruct (V1.tracking _); [|now left]. left.
    now rewrite (proj1 (stopTracking_V1_journey_loc (fst tev) s)).
  - destruct (V1.tracking _); now left.
  - destruct (V1.showResults _); [now right | now left].
  - now left.
Qed.

(** The effect when the previous speed it recorded is above the
    threshold: nothing is counted, and the speed it records is the
    previous one or the current one. *)
Lemma speedEffect_seen (now : Z) (m : SpeedMonitor.Monitor) :
  SpeedMonitor.OVERSPEED_THRESHOLD < SpeedMonitor.previousSpeedRef (fst m) ->
  let m' := SpeedMonitor.speedEffect now m in
  V1.counts (V1.journey (snd m')) V1.overSpeedCount
  = V1.counts (V1.journey (snd m)) V1.overSpeedCount /\
  overSpeedToasts (snd m') = overSpeedToasts (snd m) /\
  (SpeedMonitor.previousSpeedRef (fst m') = SpeedMonitor.previousSpeedRef (fst m)
   \/ SpeedMonitor.previousSpeedRef (fst m') = V1.speed (V1.loc (snd m))).
Proof.
  intros Hp. cbv zeta. unfold SpeedMonitor.speedEffect. cbv zeta.
  destruct (V1.tracking _ && _)%bool;
    [|split; [reflexivity | split; [reflexivity | now left]]].
  unfold Geo.Rleb.
  destruct (Rle_dec _ _) as [L|_]; [lra|]. cbn [andb].
  unfold overSpeedToasts.
  destruct (_ && _)%bool; cbn; rewrite ?filter_app, ?app_nil_r;
    (split; [reflexivity | split; [reflexivity | now right]]).
Qed.

(** X8.  An excursion above 1.5 m/s is counted once.  Once the effect
    has recorded a speed above the threshold, [overSpeedCount] does not
    move and no Over Speed toast is shown for as long as the journey is
    tracked, the speed stays above the threshold, and beginTracking does
    not run again (it sets [previousSpeedRef] back to 0, line 924, so
    that the next change of speed would be counted anew). *)
Theorem X8_over_speed_counted_once (M : MathHost) (trace : list (Z * V1.Event))
  (m : SpeedMonitor.Monitor) :
  SpeedMonitor.OVERSPEED_THRESHOLD < SpeedMonitor.previousSpeedRef (fst m) ->
  Forall (fun tev => is_start (snd tev) = false) trace ->
  Forall speeding (SpeedMonitor.states M trace m) ->
  V1.counts (V1.journey (snd (SpeedMonitor.run M trace m))) V1.overSpeedCount
  = V1.counts (V1.journey (snd m)) V1.overSpeedCount /\
  overSpeedToasts (snd (SpeedMonitor.run M trace m)) = overSpeedToasts (snd m).
Proof.
  unfold SpeedMonitor.run. revert m.
  induction trace as [|tev trace IH]; intros m Hp Hn Hs; cbn;
    [split; reflexivity|].
  cbn in Hs. inversion Hs as [|x l [Ht' Hv'] Hs']; subst.
  inversion Hn as [|y l' Hn1 Hn']; subst.
  destruct (step_monitor_frame M m tev) as [El Ex].
  rewrite El in Hv'.
  assert (V1.counts (V1.journey (snd (SpeedMonitor.step M m tev))) V1.overSpeedCount
          = V1.counts (V1.journey (snd m)) V1.overSpeedCount /\
          overSpeedToasts (snd (SpeedMonitor.step M m tev))
          = overSpeedToasts (snd m) /\
          SpeedMonitor.OVERSPEED_THRESHOLD
          < SpeedMonitor.previousSpeedRef (fst (SpeedMonitor.step M m tev)))
    as (E1 & E2 & E3).
  { unfold SpeedMonitor.step. cbv zeta.
    set (r := match snd tev with V1.Start _ => _ | _ => fst m end).
    assert (r = fst m) as Er.
    { subst r. destruct (snd tev); try reflexivity. discriminate Hn1. }
    clearbody r. subst r.
    destruct (step_V1_overSpeed M (snd m) tev) as [Ec | Ez];
      [|unfold SpeedMonitor.OVERSPEED_THRESHOLD in Hv'; lra].
    destruct (step_V1_speed M (snd m) tev) as [_ Eo].
    destruct (SpeedMonitor.deps_changed _ _).
    - destruct (speedEffect_seen (fst tev) (fst m, V1.step M (snd m) tev) Hp)
        as (S1 & S2 & S3). cbv zeta in *. cbn [fst snd] in *.
      split; [congruence|]. split; [congruence|].
      destruct S3 as [-> | ->]; assumption.
    - cbn [fst snd]. repeat split; assumption. }
  destruct (IH (SpeedMonitor.step M m tev)) as [I1 I2];
    [exact E3 | exact Hn' | exact Hs' |].
  split; congruence.
Qed.

Lemma X8_witness :
  V1.counts
    (V1.journey
       (snd (SpeedMonitor.run refMath [(2000%Z, V1.LocationFix fix_speed13)]
               racing_seen)))
    V1.overSpeedCount
  = V1.counts (V1.journey (snd racing_seen)) V1.overSpeedCount.
Proof.
  assert (SpeedMonitor.OVERSPEED_THRESHOLD
          < SpeedMonitor.previousSpeedRef (fst racing_seen)) as H2
    by (cbn; unfold SpeedMonitor.OVERSPEED_THRESHOLD; lra).
  assert (Forall (fun tev : Z * V1.Event => is_start (snd tev) = false)
            [(2000%Z, V1.LocationFix fix_speed13)]) as H1
    by (repeat constructor).
  assert (Forall speeding
            (SpeedMonitor.states refMath [(2000%Z, V1.LocationFix fix_speed13)]
               racing_seen)) as H3.
  { cbn [SpeedMonitor.states]. repeat constructor.
    - rewrite (proj2 (step_monitor_frame refMath racing_seen
                        (2000%Z, V1.LocationFix fix_speed13))).
      reflexivity.
    - rewrite (proj1 (step_monitor_frame refMath racing_seen
                        (2000%Z, V1.LocationFix fix_speed13))).
      assert (forall now l, V1.computeSpeed now fix_speed13 l = 13) as E13.
      { intros. apply computeSpeed_V1_device; [reflexivity|lra]. }
      cbn. unfold V1.watchPosition_callback. cbn. rewrite E13.
      unfold SpeedMonitor.OVERSPEED_THRESHOLD. lra. }
  exact (proj1 (X8_over_speed_counted_once refMath
                  [(2000%Z, V1.LocationFix fix_speed13)] racing_seen H2 H1 H3)).
Defined.

End SpeedAlerts.

(* ------------------------------------------------------------------ *)
(** ** Favorites of the web player *)

Section FavoritesFacts.
Import Favorites.

Lemma some_id_In (i : string) (l : list Track) :
  some_id i l = true <-> In i (map id l).
Proof.
  unfold some_id. rewrite existsb_exists. split.
  - intros (t & Hin & He). apply String.eqb_eq in He. subst i.
    now apply in_map.
  - intros Hin. apply in_map_iff in Hin as (t & <- & Hin).
    exists t. split; [assumption | apply String.eqb_refl].
Qed.

Lemma some_id_false (i : string) (l : list Track) :
  some_id i l = false <-> ~ In i (map id l).
Proof.
  rewrite <- some_id_In. destruct (some_id i l); split; intros H;
    try discriminate; try reflexivity; try (intros E; discriminate).
  now contradiction H.
Qed.

Lemma filter_keeps_distinct {A B : Type} (key : A -> B) (keep : A -> bool)
  (items : list A) :
  NoDup (map key items) -> NoDup (map key (filter keep items)).
Proof.
  induction items as [|x items IH]; cbn; [trivial|].
  intros H. inversion H as [|y m Hn Hd]; subst.
  destruct (keep x); cbn; [|now apply IH]. constructor; [|now apply IH].
  intros Hin. apply Hn. apply in_map_iff in Hin as (z & E & Hz).
  apply filter_In in Hz as [Hz _]. rewrite <- E. now apply in_map.
Qed.

Lemma filter_absent (i : string) (l : list Track) :
  ~ In i (map id l) ->
  filter (fun track => negb (String.eqb (id track) i)) l = l.
Proof.
  induction l as [|x l IH]; cbn; [trivial|]. intros H.
  destruct (String.eqb_spec (id x) i) as [E|E]; cbn.
  - contradiction H. now left.
  - f_equal. apply IH. intros Hin. apply H. now right.
Qed.

Lemma favs_loadFavorites (p : Page) : favs (loadFavorites p) = favs p.
Proof. reflexivity. Qed.

Lemma distinct_apply (p : Page) (o : Op) :
  NoDup (favoriteIds p) -> NoDup (favoriteIds (apply p o)).
Proof.
  unfold favoriteIds. intros H. destruct o as [t|i]; cbn [apply].
  - unfold addFavorite. destruct (some_id (id t) (favs p)) eqn:E; cbn [negb];
      [exact H|].
    rewrite favs_loadFavorites. cbn [favs storage].
    rewrite map_app. cbn. apply some_id_false in E.
    apply NoDup_app; [exact H | repeat constructor; intros [] |].
    intros x Hx [<- | []]. now apply E.
  - unfold removeFavorite. rewrite favs_loadFavorites. cbn [favs storage].
    now apply filter_keeps_distinct.
Qed.

Lemma shows_apply (p : Page) (o : Op) :
  shows_storage p -> shows_storage (apply p o).
Proof.
  unfold shows_storage. intros H. destruct o as [t|i]; cbn [apply].
  - unfold addFavorite. destruct (some_id _ _); cbn [negb]; [exact H | reflexivity].
  - reflexivity.
Qed.

(** X9.  The stored favorites never hold two tracks with the same id,
    and the favorites container shows what is stored: both hold on a
    page with nothing stored and the favorites tab loaded, and every
    sequence of Add and Remove clicks keeps them. *)
Theorem X9_favorites_distinct (ops : list Op) (p : Page) :
  NoDup (favoriteIds p) -> shows_storage p ->
  NoDup (favoriteIds (run ops p)) /\ shows_storage (run ops p).
Proof.
  unfold run. revert p. induction ops as [|o ops IH]; intros p Hd Hs; cbn;
    [now split|].
  apply IH; [now apply distinct_apply | now apply shows_apply].
Qed.

Lemma X9_witness :
  NoDup (favoriteIds (run [Add song; Add song; Remove "x"%string] fresh_page)) /\
  shows_storage (run [Add song; Add song; Remove "x"%string] fresh_page).
Proof.
  apply (X9_favorites_distinct [Add song; Add song; Remove "x"%string] fresh_page).
  - constructor.
  - reflexivity.
Defined.

(** X10.  Add and Remove toggle membership.  After [addFavorite] the
    button built for the track's id is the Remove button; after
    [removeFavorite] it is the Add button; adding a track whose id is
    stored changes nothing (the stored entry is kept, no alert is shown);
    and removing a track just added to a page that did not hold its id
    restores the stored list. *)
Theorem X10_favorites_toggle (t : Track) (p : Page) :
  (forall a b c d,
      favoriteButton (id t) a b c d (addFavorite t p) = RemoveFavorite (id t)) /\
  (forall i a b c d,
      favoriteButton i a b c d (removeFavorite i p)
      = AddFavorite (mkTrack i a b c d)) /\
  (some_id (id t) (favs p) = true -> addFavorite t p = p) /\
  (some_id (id t) (favs p) = false ->
   favs (removeFavorite (id t) (addFavorite t p)) = favs p).
Proof.
  repeat split.
  - intros a b c d. unfold favoriteButton, addFavorite.
    destruct (some_id (id t) (favs p)) eqn:E; cbn [negb].
    + now rewrite E.
    + rewrite favs_loadFavorites. cbn [favs storage].
      unfold some_id. rewrite existsb_app. cbn.
      now rewrite String.eqb_refl, orb_true_r.
  - intros i a b c d. unfold favoriteButton, removeFavorite.
    rewrite favs_loadFavorites. cbn [favs storage].
    assert (some_id i (filter (fun track => negb (String.eqb (id track) i)) (favs p))
            = false) as E.
    { apply not_true_is_false. unfold some_id. rewrite existsb_exists.
      intros (x & Hin & He). apply filter_In in Hin as [_ Hn].
      now rewrite He in Hn. }
    now rewrite E.
  - intros E. unfold addFavorite. now rewrite E.
  - intros E. unfold addFavorite. rewrite E. cbn [negb].
    unfold removeFavorite. rewrite !favs_loadFavorites. cbn [favs storage].
    rewrite filter_app. cbn. rewrite String.eqb_refl. cbn.
    rewrite app_nil_r. apply filter_absent. now apply some_id_false.
Qed.

Lemma X10_witness :
  Favorites.favs
    (Favorites.removeFavorite (Favorites.id song)
       (Favorites.addFavorite song fresh_page))
  = Favorites.favs fresh_page.
Proof.
  exact (proj2 (proj2 (proj2 (X10_favorites_toggle song fresh_page))) eq_refl).
Defined.

End FavoritesFacts.

(* ------------------------------------------------------------------ *)
(** ** Hook "back_sensor" *)

Section BackSensorFacts.
Import Host BackSensor.

Lemma subscriber_calls (now : Z) (a : vec3) (h : Hook) :
  let h' := subscriber now a h in
  (onBackwardCalls h' = onBackwardCalls h /\
   (backwardStartTimeRef h' = backwardStartTimeRef h \/
    backwardStartTimeRef h' = Some now \/
    backwardStartTimeRef h' = None)) \/
  (exists t0, backwardStartTimeRef h = Some t0 /\ t0 <> 0%Z /\
              (300 < now - t0)%Z /\
              backwardStartTimeRef h' = Some t0).
Proof.
  cbv zeta. unfold subscriber, detectMovement. cbv zeta.
  cbn [filteredAcc backwardNotifiedRef backwardStartTimeRef onBackwardCalls
       notifications vy].
  destruct (_ <? BACKWARD_THRESHOLD)%float; [|left; cbn; auto].
  destruct (backwardStartTimeRef h) as [t0|] eqn:E; cbn [truthyZ numZ negb];
    [|left; cbn; auto].
  destruct (Z.eqb_spec t0 0) as [Z0|Z0]; cbn [negb]; [left; cbn; auto|].
  destruct (Z.ltb_spec SUSTAINED_TIME_THRESHOLD (now - t0)) as [L|L];
    cbn [andb]; [|left; cbn; auto].
  destruct (backwardNotifiedRef h); cbn [negb]; [left; cbn; auto|].
  right. exists t0. cbn. unfold SUSTAINED_TIME_THRESHOLD in L. auto.
Qed.

(** X11.  A backward notification needs the condition to have lasted more
    than 300 ms: if no timing of the condition began before [T], then no
    run of samples delivered between [T] and [T + 300] calls
    [onBackward]. *)
Theorem X11_backward_needs_300ms (samples : list (Z * vec3)) (h : Hook) (T : Z) :
  timed_since T h ->
  Forall (fun x => (T <= fst x <= T + 300)%Z) samples ->
  onBackwardCalls (run samples h) = onBackwardCalls h.
Proof.
  unfold run. intros Hh Hs. revert h Hh.
  induction Hs as [|x samples Hx Hs IH]; intros h Hh; cbn; [reflexivity|].
  unfold step at 2.
  destruct (subscriber_calls (fst x) (snd x) h)
    as [[E1 E2] | (t0 & E1 & E2 & E3 & E4)]; cbv zeta in *.
  - rewrite IH; [exact E1|].
    intros t0 Ht0. destruct E2 as [E2 | [E2 | E2]].
    + apply Hh. congruence.
    + right. assert (t0 = fst x) by congruence. lia.
    + congruence.
  - destruct (Hh t0 E1) as [? | ?]; [contradiction | lia].
Qed.

Lemma X11_witness :
  onBackwardCalls (run [(1000%Z, pull_back); (1100%Z, pull_back);
                        (1200%Z, pull_back); (1300%Z, pull_back)] initial)
  = onBackwardCalls initial.
Proof.
  apply (X11_backward_needs_300ms _ initial 1000).
  - intros t0 E. discriminate E.
  - repeat constructor; cbn; lia.
Defined.

Lemma detectMovement_filtered (now : Z) (h : Hook) :
  filteredAcc (detectMovement now h) = filteredAcc h.
Proof. unfold detectMovement. cbv zeta. split_tests; reflexivity. Qed.

Lemma subscriber_below (now : Z) (a : vec3) (h : Hook) :
  backwardNotifiedRef h = true ->
  below (subscriber now a h) = true ->
  onBackwardCalls (subscriber now a h) = onBackwardCalls h /\
  backwardNotifiedRef (subscriber now a h) = true.
Proof.
  unfold below, subscriber. cbv zeta.
  match goal with |- context [detectMovement now ?x] => set (h0 := x) end.
  rewrite detectMovement_filtered. intros Hn Hb.
  unfold detectMovement. rewrite Hb. cbv zeta.
  replace (backwardNotifiedRef h0) with true by (symmetry; exact Hn).
  cbn [negb]. rewrite andb_false_r.
  destruct (negb _); cbn; split; assumption || reflexivity.
Qed.

(** X12.  One notification per sustained backward movement: once the
    hook has notified, [onBackward] is not called again for as long as
    the filtered reading stays below the threshold. *)
Theorem X12_backward_notified_once (samples : list (Z * vec3)) (h : Hook) :
  backwardNotifiedRef h = true ->
  Forall (fun h' => below h' = true) (states samples h) ->
  onBackwardCalls (run samples h) = onBackwardCalls h /\
  backwardNotifiedRef (run samples h) = true.
Proof.
  unfold run. revert h. induction samples as [|x samples IH]; intros h Hn Hs; cbn;
    [now split|].
  cbn in Hs. inversion Hs as [|y l Hb Hs']; subst.
  unfold step in Hb. destruct (subscriber_below (fst x) (snd x) h Hn Hb) as [E1 E2].
  destruct (IH (step h x) E2 Hs') as [I1 I2]. split; [|exact I2].
  rewrite I1. exact E1.
Qed.

Lemma X12_witness :
  onBackwardCalls (run [(1400%Z, pull_back); (1500%Z, pull_back)] reversing)
  = onBackwardCalls reversing.
Proof.
  refine (proj1 (X12_backward_notified_once
                   [(1400%Z, pull_back); (1500%Z, pull_back)] reversing
                   eq_refl _)).
  repeat constructor; vm_compute; reflexivity.
Defined.

End BackSensorFacts.

(* ------------------------------------------------------------------ *)
(** ** The Start button *)

Section CountdownFacts.
Import Countdown.

Lemma find_interval_In (i : positive) (l : list Interval) (x : Interval) :
  find (fun y => Pos.eqb (iid y) i) l = Some x -> In x l /\ iid x = i.
Proof.
  intros H. apply find_some in H as [H1 H2]. apply Pos.eqb_eq in H2. now split.
Qed.

Lemma map_iid_update (i : positive) (c : Z) (l : list Interval) :
  map iid (map (fun y => if Pos.eqb (iid y) i then mkInterval i c else y) l)
  = map iid l.
Proof.
  induction l as [|y l IH]; cbn; [reflexivity|]. rewrite IH. f_equal.
  destruct (Pos.eqb_spec (iid y) i) as [E|E]; [now rewrite E | reflexivity].
Qed.

Lemma filter_absent_interval (i : positive) (l : list Interval) :
  ~ In i (map iid l) ->
  filter (fun y => negb (Pos.eqb (iid y) i)) l = l.
Proof.
  induction l as [|y l IH]; cbn; [trivial|]. intros H.
  destruct (Pos.eqb_spec (iid y) i) as [E|E]; cbn.
  - contradiction H. now left.
  - f_equal. apply IH. intros Hin. apply H. now right.
Qed.

Lemma filter_one_out (i : positive) (l : list Interval) (x : Interval) :
  NoDup (map iid l) -> In x l -> iid x = i ->
  S (List.length (filter (fun y => negb (Pos.eqb (iid y) i)) l)) = List.length l.
Proof.
  induction l as [|y l IH]; cbn; [intros _ []|].
  intros Hd Hin Hx. inversion Hd as [|z m Hn Hd']; subst.
  destruct (Pos.eqb_spec (iid y) (iid x)) as [E|E]; cbn.
  - f_equal. rewrite filter_absent_interval; [reflexivity|]. now rewrite <- E.
  - destruct Hin as [-> | Hin]; [contradiction E; reflexivity|].
    f_equal. now apply IH.
Qed.

Lemma untouched_below (i : positive) (c : Z) (l : list Interval) :
  Forall (fun y => (iid y < i)%positive) l ->
  find (fun y => Pos.eqb (iid y) i) l = None /\
  map (fun y => if Pos.eqb (iid y) i then mkInterval i c else y) l = l /\
  filter (fun y => negb (Pos.eqb (iid y) i)) l = l.
Proof.
  induction 1 as [|y l Hy Hl (I1 & I2 & I3)]; cbn; [repeat split|].
  destruct (Pos.eqb_spec (iid y) i) as [E|E]; [lia|]. cbn.
  rewrite I1, I2, I3. repeat split.
Qed.

Lemma countdown_inv_step (b : Button) (ev : Event) :
  countdown_inv b ->
  countdown_inv (step b ev) /\
  (started (step b ev) + List.length (intervals (step b ev))
   = started b + List.length (intervals b) + presses [ev])%nat.
Proof.
  intros [Hd Hf]. destruct ev as [|i]; cbn [step presses filter List.length].
  - unfold handleStartButton, countdown_inv. cbn.
    rewrite map_app, length_app. cbn. split; [split|lia].
    + apply NoDup_app; [exact Hd | repeat constructor; intros [] |].
      intros x Hx [<- | []]. apply in_map_iff in Hx as (y & E & Hy).
      rewrite Forall_forall in Hf. destruct (Hf y Hy) as [L _]. lia.
    + apply Forall_app. split.
      * eapply Forall_impl; [|exact Hf]. cbn. intros y [L C]. split; lia.
      * repeat constructor; cbn; lia.
  - unfold interval_callback.
    destruct (find _ (intervals b)) as [x|] eqn:E; [|split; [now split | lia]].
    apply find_interval_In in E as [Hin Hx]. cbv zeta.
    pose proof (proj1 (Forall_forall _ _) Hf x Hin) as [Lx Cx].
    destruct (Z.eqb_spec (count x - 1) 0) as [Z0|Z0]; unfold countdown_inv; cbn.
    + pose proof (filter_one_out i (intervals b) x Hd Hin Hx).
      split; [split|lia].
      * now apply filter_keeps_distinct.
      * rewrite Forall_forall in *. intros y Hy.
        apply filter_In in Hy as [Hy _]. now apply Hf.
    + rewrite map_iid_update, length_map. split; [split|lia]; [exact Hd|].
      rewrite Forall_forall in *. intros y Hy.
      apply in_map_iff in Hy as (z & <- & Hz).
      destruct (Pos.eqb_spec (iid z) i) as [F|F]; [|now apply Hf].
      cbn. split; lia.
Qed.

Lemma presses_cons (ev : Event) (trace : list Event) :
  presses (ev :: trace) = (presses [ev] + presses trace)%nat.
Proof. unfold presses. cbn. now destruct ev. Qed.

(** X13.  No countdown is lost and none starts tracking twice: after any
    sequence of presses and interval ticks from mount, the number of
    presses is the number of calls of [startTrackingFunc] so far plus the
    number of countdowns still running, and each of those has an id of
    its own and 1 to 3 seconds left.  (So every press leads to a call of
    its own: the button stays on screen during a countdown, and a second
    press starts a second countdown.) *)
Theorem X13_countdown_conservation (trace : list Countdown.Event) :
  let b := Countdown.run trace Countdown.initial in
  (started b + List.length (intervals b) = presses trace)%nat /\
  countdown_inv b.
Proof.
  cbv zeta.
  assert (forall b0, countdown_inv b0 ->
            (started (run trace b0) + List.length (intervals (run trace b0))
             = started b0 + List.length (intervals b0) + presses trace)%nat /\
            countdown_inv (run trace b0)) as H.
  { unfold run. induction trace as [|ev trace IH]; intros b0 H0.
    - cbn. split; [lia | exact H0].
    - cbn [fold_left]. destruct (countdown_inv_step b0 ev H0) as [H1 H2].
      destruct (IH _ H1) as [I1 I2]. split; [|exact I2].
      rewrite presses_cons. lia. }
  destruct (H initial) as [H1 H2].
  - split; cbn; constructor.
  - split; [exact H1 | exact H2].
Qed.

(** One tick of the newest interval. *)
Lemma interval_callback_newest (cd : option Z) (l : list Interval)
  (i n : positive) (c : Z) (st : nat) :
  Forall (fun y => (iid y < i)%positive) l ->
  interval_callback i (mkButton cd (l ++ [mkInterval i c]) n st)
  = if (c - 1 =? 0)%Z then mkButton None l n (S st)
    else mkButton (Some (c - 1)%Z) (l ++ [mkInterval i (c - 1)%Z]) n st.
Proof.
  intros Hl. destruct (untouched_below i (c - 1)%Z l Hl) as (U1 & U2 & U3).
  unfold interval_callback. cbn [intervals].
  assert (find (fun y => Pos.eqb (iid y) i) (l ++ [mkInterval i c])
          = Some (mkInterval i c)) as Hfind.
  { clear U2 U3. induction Hl as [|y l Hy Hl IH]; cbn.
    - now rewrite Pos.eqb_refl.
    - cbn in U1. destruct (Pos.eqb_spec (iid y) i); [lia|]. now apply IH. }
  rewrite Hfind. cbv zeta. cbn [count nextInterval started].
  rewrite filter_app, map_app, U2, U3. cbn.
  now rewrite Pos.eqb_refl, app_nil_r.
Qed.

(** X14.  The countdown takes three ticks.  After a press, the first tick
    of the new interval shows 2, the second shows 1, and the third clears
    the display, cancels the interval and calls [startTrackingFunc] once;
    the other countdowns are left as they were, and a further tick of the
    cancelled interval does nothing. *)
Theorem X14_countdown_three_ticks (b : Countdown.Button) :
  countdown_inv b ->
  let i := nextInterval b in
  let b0 := handleStartButton b in
  let b1 := interval_callback i b0 in
  let b2 := interval_callback i b1 in
  let b3 := interval_callback i b2 in
  countdown b0 = Some 3%Z /\ countdown b1 = Some 2%Z /\ countdown b2 = Some 1%Z /\
  countdown b3 = None /\
  started b1 = started b /\ started b2 = started b /\
  started b3 = S (started b) /\
  intervals b3 = intervals b /\
  interval_callback i b3 = b3.
Proof.
  intros [Hd Hf]. cbv zeta.
  assert (Forall (fun y => (iid y < nextInterval b)%positive) (intervals b)) as Hl
    by (eapply Forall_impl; [|exact Hf]; cbn; tauto).
  unfold handleStartButton. cbv zeta.
  repeat (rewrite (interval_callback_newest _ _ _ _ _ _ Hl);
          cbn [Z.sub Z.add Z.opp Z.pos_sub Pos.pred_double Z.eqb]).
  cbn [countdown started intervals].
  repeat split. unfold interval_callback. cbn [intervals].
  now rewrite (proj1 (untouched_below (nextInterval b) 0%Z _ Hl)).
Qed.

Lemma X14_witness :
  started
    (interval_callback 1
       (interval_callback 1
          (interval_callback 1 (handleStartButton initial))))
  = S (started initial).
Proof.
  assert (countdown_inv initial) as H by (split; cbn; constructor).
  exact (proj1 (proj2 (proj2 (proj2 (proj2 (proj2 (proj2
           (X14_countdown_three_ticks initial H)))))))).
Defined.

End CountdownFacts.

(* ------------------------------------------------------------------ *)
(** ** Hook "backward": motion along a meridian *)

Section MeridianFacts.
Import Geo.
Local Open Scope R_scope.

Lemma js_rem_small (a : R) : 0 <= a < 360 -> js_rem a 360 = a.
Proof.
  intros Ha. unfold js_rem, Rtrunc.
  assert (0 <= a / 360 < 1) as Hq by (split; lra).
  destruct (Rle_dec 0 (a / 360)) as [_|N]; [|lra].
  rewrite (Int_part_bounds (a / 360) 0) by (cbn; lra). lra.
Qed.

Lemma js_rem_once (a : R) : 360 <= a < 720 -> js_rem a 360 = a - 360.
Proof.
  intros Ha. unfold js_rem, Rtrunc.
  assert (1 <= a / 360 < 2) as Hq by (split; lra).
  destruct (Rle_dec 0 (a / 360)) as [_|N]; [|lra].
  rewrite (Int_part_bounds (a / 360) 1) by (cbn; lra). lra.
Qed.

Lemma Math_atan2_0_neg (x : R) : x < 0 -> Math_atan2 0 x = PI.
Proof.
  intros Hx. unfold Math_atan2.
  destruct (Rlt_dec 0 x); [lra|]. destruct (Rlt_dec x 0); [|lra].
  destruct (Rle_dec 0 0); [|lra].
  unfold Rdiv. rewrite Rmult_0_l, atan_0. lra.
Qed.

Lemma toDegrees_PI : toDegrees PI = 180.
Proof. unfold toDegrees. pose proof PI_RGT_0. field. lra. Qed.

Lemma toRadians_180 : toRadians 180 = PI.
Proof. unfold toRadians. field. Qed.

(** Along a meridian the haversine distance is the arc of the latitude
    difference. *)
Lemma computeDistance_meridian (lat1 lat2 lon : R) :
  -180 < lat2 - lat1 < 180 ->
  computeDistance lat1 lon lat2 lon
  = 6371000 * (Rabs (lat2 - lat1) * (PI / 180)).
Proof.
  intros Hd. pose proof PI_bounds as Hpi.
  unfold computeDistance, toRadians. cbv zeta.
  replace ((lon - lon) * (PI / 180) / 2) with 0 by (field; lra).
  rewrite sin_0.
  set (t := (lat2 - lat1) * (PI / 180) / 2).
  replace (sin t ^ 2 + cos (lat1 * (PI / 180)) * cos (lat2 * (PI / 180)) * 0 ^ 2)
    with (sin t)² by (unfold Rsqr; ring).
  assert (- (PI / 2) < t < PI / 2) as Ht by (subst t; split; nra).
  assert (0 < cos t) as Hc by (apply cos_gt_0; lra).
  replace (1 - (sin t)²) with (cos t)² by (rewrite cos2; reflexivity).
  rewrite (sqrt_Rsqr (cos t)) by lra.
  rewrite sqrt_Rsqr_abs.
  unfold Rabs at 2. destruct (Rcase_abs (lat2 - lat1)) as [N|N].
  - assert (t < 0) as Hneg by (subst t; nra).
    assert (sin t < 0) as Hs by (apply sin_lt_0_var; lra).
    rewrite Rabs_left by exact Hs.
    rewrite <- sin_neg, <- (cos_neg t).
    rewrite Math_atan2_sin_cos by lra. subst t. field.
  - assert (0 <= t) as Hpos by (subst t; nra).
    assert (0 <= sin t) as Hs by (apply sin_ge_0; lra).
    rewrite Rabs_right by lra.
    rewrite Math_atan2_sin_cos by lra. subst t. field.
Qed.

Lemma bearing_x_meridian (lat1 lat2 : R) :
  cos (toRadians lat1) * sin (toRadians lat2)
  - sin (toRadians lat1) * cos (toRadians lat2) * cos (toRadians 0)
  = sin (toRadians (lat2 - lat1)).
Proof.
  unfold toRadians. rewrite Rmult_0_l, cos_0.
  replace ((lat2 - lat1) * (PI / 180))
    with (lat2 * (PI / 180) - lat1 * (PI / 180)) by ring.
  rewrite sin_minus. ring.
Qed.

(** Due south the bearing is 180 degrees, due north 0. *)
Lemma computeBearing_south (lat1 lat2 lon : R) :
  -180 < lat2 - lat1 < 0 -> computeBearing lat1 lon lat2 lon = 180.
Proof.
  intros Hd. pose proof PI_bounds as Hpi.
  unfold computeBearing. cbv zeta.
  replace (lon - lon) with 0 by ring.
  rewrite bearing_x_meridian.
  replace (sin (toRadians 0)) with 0 by (unfold toRadians; now rewrite Rmult_0_l, sin_0).
  rewrite Rmult_0_l.
  rewrite Math_atan2_0_neg by (apply sin_lt_0_var; unfold toRadians; nra).
  rewrite toDegrees_PI, js_rem_once by lra. lra.
Qed.

Lemma computeBearing_due_north (lat1 lat2 lon : R) :
  0 < lat2 - lat1 < 180 -> computeBearing lat1 lon lat2 lon = 0.
Proof.
  intros Hd. pose proof PI_bounds as Hpi.
  unfold computeBearing. cbv zeta.
  replace (lon - lon) with 0 by ring.
  rewrite bearing_x_meridian.
  replace (sin (toRadians 0)) with 0 by (unfold toRadians; now rewrite Rmult_0_l, sin_0).
  rewrite Rmult_0_l.
  rewrite Math_atan2_0_pos by (apply sin_gt_0; unfold toRadians; nra).
  unfold toDegrees. rewrite Rmult_0_l, Rplus_0_l. apply js_rem_self. lra.
Qed.

End MeridianFacts.

Section BackwardFacts.
Import Geo Host BackwardDetection.
Local Open Scope R_scope.

(** The displacement of one segment along a meridian, at least 5 cm
    long: [d] metres due south or due north. *)
Lemma displacement_meridian (lat1 lat2 lon : R) (t1 t2 : Z) :
  -180 < lat2 - lat1 < 180 -> lat2 <> lat1 ->
  5 / 100 <= 6371000 * (Rabs (lat2 - lat1) * (PI / 180)) ->
  displacement (mkTimedCoord lat1 lon t1) [mkTimedCoord lat2 lon t2] 0 0
  = (0, if Rlt_dec lat2 lat1
        then - (6371000 * (Rabs (lat2 - lat1) * (PI / 180)))
        else 6371000 * (Rabs (lat2 - lat1) * (PI / 180))).
Proof.
  intros Hd Hne Hlen. cbn [displacement tc_latitude tc_longitude].
  rewrite (computeDistance_meridian lat1 lat2 lon Hd).
  set (d := 6371000 * (Rabs (lat2 - lat1) * (PI / 180))) in *.
  unfold Rltb. destruct (Rlt_dec d (5 / 100)) as [L|_]; [lra|].
  destruct (Rlt_dec lat2 lat1) as [S|N].
  - rewrite computeBearing_south by lra.
    rewrite toRadians_180, sin_PI, cos_PI. f_equal; ring.
  - rewrite computeBearing_due_north by lra.
    unfold toRadians. rewrite Rmult_0_l, sin_0, cos_0. f_equal; ring.
Qed.

(** The effect on a buffer of one fix and a second fix on the same
    meridian, both in the window, the chair moving. *)
Lemma effect_meridian (lat1 lat2 lon fh speed : R) (t1 t2 now : Z) (h : Hook) :
  coordBufferRef h = [mkTimedCoord lat1 lon t1] ->
  (now - t1 <= 3000)%Z -> (now - t2 <= 3000)%Z ->
  -180 < lat2 - lat1 < 180 -> lat2 <> lat1 ->
  3 / 10 <= 6371000 * (Rabs (lat2 - lat1) * (PI / 180)) ->
  1 / 10 <= speed ->
  let buffer := [mkTimedCoord lat1 lon t1; mkTimedCoord lat2 lon t2] in
  let overallBearing := if Rlt_dec lat2 lat1 then 180 else 0 in
  effect now (Some (mkTimedCoord lat2 lon t2)) speed (Some fh) h
  = if Rleb (angleDiff overallBearing (js_rem (fh + 180) 360))
            BACKWARD_ANGLE_THRESHOLD
    then
      if negb (backwardNotifiedRef h) then
        mkHook buffer true (S (onBackwardCalls h))
          (notifications h ++ [Toast "Backward Movement" (Label "Detected")])
      else mkHook buffer (backwardNotifiedRef h) (onBackwardCalls h)
             (notifications h)
    else mkHook buffer false (onBackwardCalls h) (notifications h).
Proof.
  intros Hb H1 H2 Hd Hne Hlen Hsp. cbv zeta. pose proof PI_bounds as Hpi.
  unfold effect. rewrite Hb.
  unfold Rltb at 1, MIN_SPEED_THRESHOLD.
  destruct (Rlt_dec speed (1 / 10)) as [L|_]; [lra|].
  cbn [app filter tc_timestamp]. unfold WINDOW_DURATION.
  destruct (Z.leb_spec (now - t1) 3000) as [_|L]; [|lia].
  destruct (Z.leb_spec (now - t2) 3000) as [_|L]; [|lia].
  cbv zeta.
  rewrite (displacement_meridian lat1 lat2 lon t1 t2 Hd Hne) by lra.
  cbn [fst snd backwardNotifiedRef onBackwardCalls notifications].
  set (d := 6371000 * (Rabs (lat2 - lat1) * (PI / 180))) in *.
  assert (sqrt (0 ^ 2 + (if Rlt_dec lat2 lat1 then - d else d) ^ 2) = d) as Et.
  { replace (0 ^ 2 + (if Rlt_dec lat2 lat1 then - d else d) ^ 2) with d²
      by (unfold Rsqr; destruct (Rlt_dec lat2 lat1); ring).
    apply sqrt_Rsqr. lra. }
  rewrite Et. unfold Rltb at 1, MIN_TOTAL_DISTANCE.
  destruct (Rlt_dec d (3 / 10)) as [L|_]; [lra|].
  assert (js_rem (toDegrees (Math_atan2 0 (if Rlt_dec lat2 lat1 then - d else d))
                  + 360) 360
          = if Rlt_dec lat2 lat1 then 180 else 0) as Eo.
  { destruct (Rlt_dec lat2 lat1).
    - rewrite Math_atan2_0_neg by lra. rewrite toDegrees_PI, js_rem_once by lra.
      lra.
    - rewrite Math_atan2_0_pos by lra. unfold toDegrees.
      rewrite Rmult_0_l, Rplus_0_l. apply js_rem_self. lra. }
  rewrite Eo. unfold set_notified.
  cbn [coordBufferRef backwardNotifiedRef onBackwardCalls notifications].
  reflexivity.
Qed.

Lemma expected_backward (fh : R) :
  heading_north fh ->
  (0 <= fh <= 30 /\ js_rem (fh + 180) 360 = fh + 180) \/
  (330 <= fh < 360 /\ js_rem (fh + 180) 360 = fh - 180).
Proof.
  intros [H | H]; [left | right]; (split; [exact H|]).
  - apply js_rem_small. lra.
  - rewrite js_rem_once by lra. lra.
Qed.

(** Due south of the first fix the displacement is in the backward cone;
    due north it is not. *)
Lemma effect_south (lat1 lat2 lon fh speed : R) (t1 t2 now : Z) (h : Hook) :
  coordBufferRef h = [mkTimedCoord lat1 lon t1] ->
  (now - t1 <= 3000)%Z -> (now - t2 <= 3000)%Z ->
  -180 < lat2 - lat1 < 0 ->
  3 / 10 <= 6371000 * (Rabs (lat2 - lat1) * (PI / 180)) ->
  1 / 10 <= speed ->
  heading_north fh ->
  let buffer := [mkTimedCoord lat1 lon t1; mkTimedCoord lat2 lon t2] in
  effect now (Some (mkTimedCoord lat2 lon t2)) speed (Some fh) h
  = if negb (backwardNotifiedRef h) then
      mkHook buffer true (S (onBackwardCalls h))
        (notifications h ++ [Toast "Backward Movement" (Label "Detected")])
    else mkHook buffer (backwardNotifiedRef h) (onBackwardCalls h)
           (notifications h).
Proof.
  intros Hb H1 H2 Hd Hlen Hsp Hfh. cbv zeta.
  rewrite (effect_meridian lat1 lat2 lon fh speed t1 t2 now h Hb H1 H2)
    by (assumption || lra).
  unfold angleDiff, BACKWARD_ANGLE_THRESHOLD, Rleb, Rltb. cbv zeta.
  destruct (Rlt_dec lat2 lat1) as [_|N]; [|lra].
  destruct (expected_backward fh Hfh) as [[Hr ->] | [Hr ->]].
  - replace (180 - (fh + 180)) with (- fh) by ring.
    rewrite Rabs_Ropp, Rabs_right by lra.
    destruct (Rlt_dec 180 fh); [lra|].
    destruct (Rle_dec fh 30); [reflexivity | lra].
  - replace (180 - (fh - 180)) with (360 - fh) by ring.
    rewrite Rabs_right by lra.
    destruct (Rlt_dec 180 (360 - fh)); [lra|].
    destruct (Rle_dec (360 - fh) 30); [reflexivity | lra].
Qed.

Lemma effect_north (lat1 lat2 lon fh speed : R) (t1 t2 now : Z) (h : Hook) :
  coordBufferRef h = [mkTimedCoord lat1 lon t1] ->
  (now - t1 <= 3000)%Z -> (now - t2 <= 3000)%Z ->
  0 < lat2 - lat1 < 180 ->
  3 / 10 <= 6371000 * (Rabs (lat2 - lat1) * (PI / 180)) ->
  1 / 10 <= speed ->
  heading_north fh ->
  effect now (Some (mkTimedCoord lat2 lon t2)) speed (Some fh) h
  = mkHook [mkTimedCoord lat1 lon t1; mkTimedCoord lat2 lon t2] false
      (onBackwardCalls h) (notifications h).
Proof.
  intros Hb H1 H2 Hd Hlen Hsp Hfh.
  rewrite (effect_meridian lat1 lat2 lon fh speed t1 t2 now h Hb H1 H2)
    by (assumption || lra).
  unfold angleDiff, BACKWARD_ANGLE_THRESHOLD, Rleb, Rltb. cbv zeta.
  destruct (Rlt_dec lat2 lat1) as [L|_]; [lra|].
  destruct (expected_backward fh Hfh) as [[Hr ->] | [Hr ->]].
  - replace (0 - (fh + 180)) with (- (fh + 180)) by ring.
    rewrite Rabs_Ropp, Rabs_right by lra.
    destruct (Rlt_dec 180 (fh + 180)).
    + destruct (Rle_dec (360 - (fh + 180)) 30); [lra | reflexivity].
    + destruct (Rle_dec (fh + 180) 30); [lra | reflexivity].
  - replace (0 - (fh - 180)) with (- (fh - 180)) by ring.
    rewrite Rabs_Ropp, Rabs_right by lra.
    destruct (Rlt_dec 180 (fh - 180)); [lra|].
    destruct (Rle_dec (fh - 180) 30); [lra | reflexivity].
Qed.

(** X15.  Rolling back is detected.  With a forward heading within 30
    degrees of north, a buffer that holds one fix, and the chair moving
    at 0.1 m/s or more, a second fix in the window that lies due south of
    the first by 0.3 m or more makes the hook call [onBackward] once and
    set its flag, if the flag was clear; a second fix that lies due north
    by as much calls nothing and clears the flag. *)
Theorem X15_reverse_detected (lat1 lat2 lon fh speed : R) (t1 t2 now : Z)
  (h : Hook) :
  coordBufferRef h = [mkTimedCoord lat1 lon t1] ->
  (now - t1 <= 3000)%Z -> (now - t2 <= 3000)%Z ->
  -180 < lat2 - lat1 < 180 ->
  3 / 10 <= 6371000 * (Rabs (lat2 - lat1) * (PI / 180)) ->
  1 / 10 <= speed ->
  heading_north fh ->
  let h' := effect now (Some (mkTimedCoord lat2 lon t2)) speed (Some fh) h in
  (lat2 < lat1 -> backwardNotifiedRef h = false ->
   onBackwardCalls h' = S (onBackwardCalls h) /\ backwardNotifiedRef h' = true) /\
  (lat1 < lat2 ->
   onBackwardCalls h' = onBackwardCalls h /\ backwardNotifiedRef h' = false).
Proof.
  intros Hb H1 H2 Hd Hlen Hsp Hfh. cbv zeta. split.
  - intros Hs Hn.
    rewrite (effect_south lat1 lat2 lon fh speed t1 t2 now h Hb H1 H2)
      by (assumption || lra).
    rewrite Hn. cbn. split; reflexivity.
  - intros Hs.
    rewrite (effect_north lat1 lat2 lon fh speed t1 t2 now h Hb H1 H2)
      by (assumption || lra).
    cbn. split; reflexivity.
Qed.

Lemma X15_witness :
  onBackwardCalls
    (effect 2000 (Some fix_b) 1 (Some 0)
       (mkHook [fix_a] false O []))
  = 1%nat.
Proof.
  pose proof PI_bounds as Hpi.
  assert (0 - 1 / 100000 < 0) as Hneg by lra.
  refine (proj1 (proj1 (X15_reverse_detected (1 / 100000) 0 0 0 1 1000 2000 2000
                          (mkHook [fix_a] false O []) eq_refl _ _ _ _ _ _) _ _)).
  - lia.
  - lia.
  - lra.
  - rewrite Rabs_left by exact Hneg. lra.
  - lra.
  - left. lra.
  - lra.
  - reflexivity.
Defined.

(** What one run of the effect can do to the flag and the calls. *)
Lemma effect_calls (now : Z) (c : option TimedCoord) (speed : R)
  (fh : option R) (h : Hook) :
  let h' := effect now c speed fh h in
  (onBackwardCalls h' = onBackwardCalls h /\
   notifications h' = notifications h) \/
  (backwardNotifiedRef h = false /\ backwardNotifiedRef h' = true /\
   onBackwardCalls h' = S (onBackwardCalls h)).
Proof.
  cbv zeta. unfold effect, set_notified.
  destruct c as [c|]; [|now left]. destruct fh as [fh|]; [|now left].
  destruct (Rltb speed _); [now left|]. cbv zeta.
  destruct (filter _ _) as [|first [|second others]]; [now left | now left |].
  destruct (Rltb _ _); [now left|].
  destruct (Rleb _ _); [|now left].
  cbn [backwardNotifiedRef]. destruct (backwardNotifiedRef h); cbn;
    [now left | right; repeat split].
Qed.

(** X16.  One notification per backward movement: once the flag of the
    hook is set, [onBackward] is not called again and no toast is shown
    for as long as the flag stays set, that is until the chair slows
    below 0.1 m/s or its displacement leaves the backward cone. *)
Theorem X16_reverse_notified_once (rs : list Render) (h : Hook) :
  backwardNotifiedRef h = true ->
  Forall (fun h' => backwardNotifiedRef h' = true) (states rs h) ->
  onBackwardCalls (run rs h) = onBackwardCalls h /\
  notifications (run rs h) = notifications h.
Proof.
  unfold run. revert h. induction rs as [|r rs IH]; intros h Hn Hs; cbn;
    [now split|].
  cbn in Hs. inversion Hs as [|y l Hb Hs']; subst.
  destruct (IH (step h r) Hb Hs') as [I1 I2]. rewrite I1, I2.
  unfold step.
  destruct (effect_calls (r_now r) (r_currentCoord r) (r_speed r)
              (r_forwardHeading r) h) as [E | (E & _)]; cbv zeta in *;
    [exact E | congruence].
Qed.

Lemma X16_witness :
  onBackwardCalls
    (run [mkRender 2000 (Some fix_b) 1 (Some 0)] (mkHook [fix_a] true 1%nat []))
  = 1%nat.
Proof.
  pose proof PI_bounds as Hpi.
  assert (0 - 1 / 100000 < 0) as Hneg by lra.
  assert (3 / 10 <= 6371000 * (Rabs (0 - 1 / 100000) * (PI / 180))) as Hlen
    by (rewrite Rabs_left by exact Hneg; lra).
  assert (heading_north 0) as Hfh by (left; lra).
  assert (1 / 10 <= 1) as Hsp by lra.
  assert (-180 < 0 - 1 / 100000 < 0) as Hd by lra.
  assert ((2000 - 1000 <= 3000)%Z) as H1 by lia.
  assert ((2000 - 2000 <= 3000)%Z) as H2 by lia.
  refine (proj1 (X16_reverse_notified_once
                   [mkRender 2000 (Some fix_b) 1 (Some 0)]
                   (mkHook [fix_a] true 1%nat []) eq_refl _)).
  repeat constructor. unfold step, fix_b.
  cbn [r_now r_currentCoord r_speed r_forwardHeading].
  rewrite (effect_south (1 / 100000) 0 0 0 1 1000 2000 2000
             (mkHook [fix_a] true 1%nat []) eq_refl H1 H2 Hd Hlen Hsp Hfh).
  reflexivity.
Defined.

End BackwardFacts.

(* ------------------------------------------------------------------ *)
(** ** The fall detector: its 500 ms gate and its latch (first screen) *)

Section FallGate.
Import Host.

Lemma fire_all_gate (l : list (Timer V1.TimerAction)) (s : V1.App) :
  fallEvents (fire_all l s) = fallEvents s.
Proof.
  revert s. induction l as [|t l IH]; intros s; cbn; [reflexivity|].
  unfold fire_all in IH. rewrite IH. unfold fallEvents.
  destruct (act t); cbn; rewrite ?filter_app, ?app_nil_r; reflexivity.
Qed.

Lemma run_timers_V1_gate (now : Z) (s : V1.App) :
  fallEvents (V1.run_timers now s) = fallEvents s.
Proof.
  unfold V1.run_timers.
  match goal with |- context [fold_left _ ?l ?s0] =>
    pose proof (fire_all_gate l s0) as H; unfold fire_all in H
  end.
  exact H.
Qed.

Lemma bumpDetection_V1_gate (now : Z) (a : vec3) (s : V1.App) :
  let s' := V1.bumpDetection now a s in
  V1.counts (V1.journey s') V1.fallCount = V1.counts (V1.journey s) V1.fallCount /\
  fallEvents s' = fallEvents s /\
  V1.isFallen (V1.journey s') = V1.isFallen (V1.journey s) /\
  V1.fallDetectionStartRef (V1.det s') = V1.fallDetectionStartRef (V1.det s).
Proof.
  cbv zeta. unfold V1.bumpDetection, V1.handleBumpEvent, fallEvents. cbv zeta.
  split_tests; cbn; rewrite ?filter_app, ?app_nil_r; repeat split; reflexivity.
Qed.

Lemma gyroscope_V1_gate (now : Z) (g : vec3) (s : V1.App) :
  let s' := V1.gyroscope_callback now g s in
  V1.counts (V1.journey s') V1.fallCount = V1.counts (V1.journey s) V1.fallCount /\
  fallEvents s' = fallEvents s /\
  V1.fallDetectionStartRef (V1.det s') = V1.fallDetectionStartRef (V1.det s).
Proof.
  cbv zeta. unfold V1.gyroscope_callback, fallEvents. cbv zeta.
  split_tests; cbn; rewrite ?filter_app, ?app_nil_r; repeat split; reflexivity.
Qed.

(** The fall stage: it counts a fall only when its gate has been open
    for 500 ms, and otherwise leaves the gate, opens it now, or closes
    it. *)
Lemma fallDetection_V1_gate (M : MathHost) (now : Z) (a : vec3) (s : V1.App) :
  let s' := V1.fallDetection M now a s in
  (V1.counts (V1.journey s') V1.fallCount = V1.counts (V1.journey s) V1.fallCount /\
   fallEvents s' = fallEvents s /\
   (V1.fallDetectionStartRef (V1.det s') = V1.fallDetectionStartRef (V1.det s) \/
    V1.fallDetectionStartRef (V1.det s') = Some now \/
    V1.fallDetectionStartRef (V1.det s') = None)) \/
  (exists t0, V1.fallDetectionStartRef (V1.det s) = Some t0 /\
              (500 <= now - t0)%Z /\ V1.isFallen (V1.journey s) = false).
Proof.
  cbv zeta. unfold V1.fallDetection, fallEvents. cbv zeta.
  set (s1 := match V1.baselineFallRef (V1.det s) with
             | Some _ => s | None => _ end).
  assert (V1.journey s1 = V1.journey s /\ V1.env s1 = V1.env s /\
          V1.fallDetectionStartRef (V1.det s1)
          = V1.fallDetectionStartRef (V1.det s)) as (E1 & E2 & E3)
    by (subst s1; split_tests; repeat split; reflexivity).
  clearbody s1. rewrite <- E1, <- E2, <- E3.
  destruct (V1.isFallen (V1.journey s1)) eqn:Hf; cbn [negb].
  - left. split_tests; cbn; repeat split; auto.
  - destruct (_ <? _)%float; [|left; cbn; repeat split; auto].
    destruct (V1.fallDetectionStartRef (V1.det s1)) as [t0|] eqn:Hs;
      [|left; cbn; repeat split; auto].
    destruct (Z.leb_spec V1.FALL_DETECTION_DURATION (now - t0)) as [L|L].
    + right. exists t0. unfold V1.FALL_DETECTION_DURATION in L.
      repeat split; assumption.
    + left. rewrite Hs. repeat split; auto.
Qed.

Lemma accelerometer_V1_gate (M : MathHost) (now : Z) (a : vec3) (s : V1.App) :
  let s' := V1.accelerometer_callback M now a s in
  (V1.counts (V1.journey s') V1.fallCount = V1.counts (V1.journey s) V1.fallCount /\
   fallEvents s' = fallEvents s /\
   (V1.fallDetectionStartRef (V1.det s') = V1.fallDetectionStartRef (V1.det s) \/
    V1.fallDetectionStartRef (V1.det s') = Some now \/
    V1.fallDetectionStartRef (V1.det s') = None)) \/
  (exists t0, V1.fallDetectionStartRef (V1.det s) = Some t0 /\
              (500 <= now - t0)%Z /\ V1.isFallen (V1.journey s) = false).
Proof.
  cbv zeta. unfold V1.accelerometer_callback.
  destruct (V1.resultShownRef _); [left; repeat split; auto|].
  destruct (negb _); [|left; repeat split; auto]. cbv zeta.
  destruct (stillness_V1_frame M now a s)
    as (_ & _ & S3 & S4 & _ & S6 & _ & _ & S9 & _).
  cbv zeta in *.
  set (s2 := V1.set_lastAccelRef (Some a) (V1.stillness M now a s)).
  destruct (bumpDetection_V1_gate now a s2) as (B1 & B2 & B3 & B4).
  cbv zeta in *.
  assert (V1.counts (V1.journey s2) V1.fallCount
          = V1.counts (V1.journey s) V1.fallCount) as T1 by (subst s2; exact S3).
  assert (fallEvents s2 = fallEvents s) as T2
    by (subst s2; unfold fallEvents; cbn; now rewrite S6).
  assert (V1.isFallen (V1.journey s2) = V1.isFallen (V1.journey s)) as T3
    by (subst s2; exact S4).
  assert (V1.fallDetectionStartRef (V1.det s2)
          = V1.fallDetectionStartRef (V1.det s)) as T4 by (subst s2; exact S9).
  clearbody s2.
  destruct (fallDetection_V1_gate M now a (V1.bumpDetection now a s2))
    as [(F1 & F2 & F3) | (t0 & F1 & F2 & F3)]; cbv zeta in *.
  - left. rewrite F1, F2, B1, B2, T1, T2. repeat split.
    rewrite <- T4, <- B4. exact F3.
  - right. exists t0. repeat split; congruence.
Qed.

Lemma fold_watchPosition_same (P : V1.App -> Prop) (now : Z) (coords : Coords)
  (ws : list Z) (s : V1.App) :
  (forall s s', V1.journey s' = V1.journey s -> V1.env s' = V1.env s ->
                V1.det s' = V1.det s -> P s -> P s') ->
  P s -> P (fold_left (fun s _ => V1.watchPosition_callback now coords s) ws s).
Proof.
  intros Hsame. revert s. induction ws as [|w ws IH]; intros s H; cbn; [exact H|].
  apply IH. apply (Hsame s); [| | |exact H].
  - apply watchPosition_V1_journey.
  - apply watchPosition_V1_env.
  - unfold V1.watchPosition_callback. cbv zeta. split_tests; reflexivity.
Qed.

(** A step of the screen: it shows a Fall toast only when the gate has
    been open for 500 ms. *)
Lemma step_V1_gate (M : MathHost) (s : V1.App) (tev : Z * V1.Event) :
  let s' := V1.step M s tev in
  (fallEvents s' = fallEvents s /\
   (V1.counts (V1.journey s') V1.fallCount = V1.counts (V1.journey s) V1.fallCount
    \/ V1.isFallen (V1.journey s') = false) /\
   (V1.fallDetectionStartRef (V1.det s') = V1.fallDetectionStartRef (V1.det s) \/
    V1.fallDetectionStartRef (V1.det s') = Some (fst tev) \/
    V1.fallDetectionStartRef (V1.det s') = None)) \/
  (exists t0, V1.fallDetectionStartRef (V1.det s) = Some t0 /\
              (500 <= fst tev - t0)%Z /\ V1.isFallen (V1.journey s) = false).
Proof.
  cbv zeta. unfold V1.step.
  destruct (run_timers_V1_frame (fst tev) s) as (Rj & _ & _ & _ & _ & _ & Rs & _).
  pose proof (run_timers_V1_gate (fst tev) s) as Rg. cbv zeta in *.
  rewrite <- Rj, <- Rs, <- Rg. generalize (V1.run_timers (fst tev) s).
  clear Rj Rs Rg s. intros s. destruct (snd tev); cbn [V1.dispatch].
  - destruct (_ && _)%bool; [|left; repeat split; auto].
    destruct (accelerometer_V1_gate M (fst tev) a s)
      as [(F1 & F2 & F3) | F]; cbv zeta in *; [left | right; exact F].
    repeat split; auto.
  - destruct (_ && _)%bool; [|left; repeat split; auto].
    destruct (gyroscope_V1_gate (fst tev) g s) as (G1 & G2 & G3). cbv zeta in *.
    left. rewrite G1, G2, G3. repeat split; auto.
  - left.
    apply (fold_watchPosition_same
             (fun s' => fallEvents s' = fallEvents s /\
                (V1.counts (V1.journey s') V1.fallCount
                 = V1.counts (V1.journey s) V1.fallCount \/
                 V1.isFallen (V1.journey s') = false) /\
                (V1.fallDetectionStartRef (V1.det s')
                 = V1.fallDetectionStartRef (V1.det s) \/
                 V1.fallDetectionStartRef (V1.det s') = Some (fst tev) \/
                 V1.fallDetectionStartRef (V1.det s') = None))).
    + unfold fallEvents. intros s1 s2 -> -> ->. trivial.
    + repeat split; auto.
  - left. repeat split; auto.
  - left. destruct (V1.tracking _); [|repeat split; auto].
    unfold fallEvents. rewrite stopTracking_V1_notifications.
    rewrite (proj1 (stopTracking_V1_journey_loc (fst tev) s)).
    repeat split; auto. left.
    unfold V1.stopTracking. cbv zeta. split_tests; reflexivity.
  - left. destruct (V1.tracking _); repeat split; auto.
  - left. destruct (V1.showResults _); repeat split; auto.
  - left. repeat split; auto.
Qed.

(** X18.  A fall needs 500 ms.  If no gate of the fall detector was
    opened before [T], no run whose events all fall between [T] and
    [T + 499] shows a Fall toast. *)
Theorem X18_fall_needs_500ms (M : MathHost) (trace : list (Z * V1.Event))
  (s : V1.App) (T : Z) :
  gate_since T s ->
  Forall (fun tev => (T <= fst tev <= T + 499)%Z) trace ->
  fallEvents (V1.run M trace s) = fallEvents s.
Proof.
  unfold V1.run. intros Hg Hw. revert s Hg.
  induction Hw as [|tev trace Ht Hw IH]; intros s Hg; cbn; [reflexivity|].
  destruct (step_V1_gate M s tev) as [(E1 & _ & E3) | (t0 & E1 & E2 & _)];
    cbv zeta in *.
  - rewrite IH; [exact E1|].
    intros t0 Ht0. destruct E3 as [E3 | [E3 | E3]].
    + apply Hg. congruence.
    + assert (t0 = fst tev) by congruence. lia.
    + congruence.
  - specialize (Hg t0 E1). lia.
Qed.

Lemma X18_witness :
  fallEvents
    (V1.run refMath
       [(1600%Z, V1.Accelerometer on_side); (1900%Z, V1.Accelerometer on_side)]
       tipping_state)
  = fallEvents tipping_state.
Proof.
  apply (X18_fall_needs_500ms refMath
           [(1600%Z, V1.Accelerometer on_side); (1900%Z, V1.Accelerometer on_side)]
           tipping_state 1500).
  - intros t0 E. vm_compute in E. injection E as <-. lia.
  - repeat constructor; cbn; lia.
Defined.

(** X19.  A fall is counted once.  While [isFallen] stays set, whatever
    the events, [fallCount] does not move and no Fall toast is shown: the
    next fall can be counted only after an accelerometer sample within 45
    degrees of the baseline, or the new-journey reset, has cleared
    [isFallen]. *)
Theorem X19_fall_counted_once (M : MathHost) (trace : list (Z * V1.Event))
  (s : V1.App) :
  V1.isFallen (V1.journey s) = true ->
  Forall (fun s' => V1.isFallen (V1.journey s') = true) (states_V1 M trace s) ->
  V1.counts (V1.journey (V1.run M trace s)) V1.fallCount
  = V1.counts (V1.journey s) V1.fallCount /\
  fallEvents (V1.run M trace s) = fallEvents s.
Proof.
  unfold V1.run. revert s. induction trace as [|tev trace IH]; intros s Hf Hs;
    cbn; [now split|].
  cbn in Hs. inversion Hs as [|y l Hb Hs']; subst.
  destruct (IH (V1.step M s tev) Hb Hs') as [I1 I2]. rewrite I1, I2.
  destruct (step_V1_gate M s tev) as [(E1 & E2 & _) | (t0 & _ & _ & E)];
    cbv zeta in *; [|congruence].
  destruct E2 as [E2 | E2]; [now split | congruence].
Qed.

Lemma X19_witness :
  fallEvents
    (V1.run refMath
       [(2250%Z, V1.Accelerometer on_side); (2500%Z, V1.Accelerometer jolt)]
       fallen_state)
  = fallEvents fallen_state.
Proof.
  refine (proj2 (X19_fall_counted_once refMath
                   [(2250%Z, V1.Accelerometer on_side);
                    (2500%Z, V1.Accelerometer jolt)] fallen_state _ _)).
  - vm_compute. reflexivity.
  - repeat constructor; vm_compute; reflexivity.
Defined.

End FallGate.

(* ------------------------------------------------------------------ *)
(** ** The help prompt (first screen) *)

Section HelpPrompt.
Import Host.

Lemma alerts_from_insert (T : Z) (t : Timer V1.TimerAction)
  (q : list (Timer V1.TimerAction)) :
  (is_cooloff t = false -> (T <= due t)%Z) ->
  Forall (fun u => (T <= due u)%Z) (filter (fun u => negb (is_cooloff u)) q) ->
  Forall (fun u => (T <= due u)%Z)
    (filter (fun u => negb (is_cooloff u)) (insert_timer t q)).
Proof.
  intros Ht Hq. rewrite Forall_forall in *. intros u Hu.
  apply filter_In in Hu as [Hin Hc]. apply insert_timer_In in Hin as [-> | Hin].
  - apply Ht. now apply negb_true_iff in Hc.
  - apply Hq. apply filter_In. now split.
Qed.

Lemma alerts_from_sub (T : Z) (q q' : list (Timer V1.TimerAction)) :
  (forall u, In u q' -> In u q) ->
  Forall (fun u => (T <= due u)%Z) (filter (fun u => negb (is_cooloff u)) q) ->
  Forall (fun u => (T <= due u)%Z) (filter (fun u => negb (is_cooloff u)) q').
Proof.
  intros Hsub Hq. rewrite Forall_forall in *. intros u Hu.
  apply filter_In in Hu as [Hin Hc]. apply Hq. apply filter_In.
  split; [now apply Hsub | exact Hc].
Qed.

(** Timers that are all cooldown timers show no help prompt. *)
Lemma fire_all_cooloff (l : list (Timer V1.TimerAction)) (s : V1.App) :
  Forall (fun t => is_cooloff t = true) l ->
  helpPrompts (fire_all l s) = helpPrompts s.
Proof.
  intros Hl. revert s. induction Hl as [|t l Ht Hl IH]; intros s; cbn;
    [reflexivity|].
  unfold fire_all in IH. rewrite IH. unfold is_cooloff in Ht.
  destruct (act t); [discriminate | reflexivity].
Qed.

Lemma run_timers_V1_help (T now : Z) (s : V1.App) :
  alerts_from T s -> (now < T)%Z ->
  helpPrompts (V1.run_timers now s) = helpPrompts s /\
  alerts_from T (V1.run_timers now s).
Proof.
  intros Ha Hn. unfold alerts_from, alerts in *. split.
  - unfold V1.run_timers.
    match goal with |- context [fold_left _ ?l ?s0] =>
      pose proof (fire_all_cooloff l s0) as H; unfold fire_all in H
    end.
    rewrite H; [reflexivity|].
    rewrite Forall_forall in *. intros t Ht.
    pose proof (due_timers_due _ _ _ Ht) as Hd.
    destruct (is_cooloff t) eqn:E; [reflexivity|].
    assert (In t (V1.timers (V1.env s))) as Hin.
    { rewrite <- (due_pending_split now). apply in_or_app. now left. }
    specialize (Ha t). rewrite filter_In, E in Ha. specialize (Ha (conj Hin eq_refl)).
    lia.
  - destruct (run_timers_V1_frame now s) as (_ & _ & Rt & _). cbv zeta in Rt.
    rewrite Rt. eapply alerts_from_sub; [|exact Ha].
    intros u Hu. rewrite <- (due_pending_split now). apply in_or_app. now right.
Qed.

Lemma bumpDetection_V1_help (now : Z) (a : vec3) (s : V1.App) :
  let s' := V1.bumpDetection now a s in
  helpPrompts s' = helpPrompts s /\
  (V1.timers (V1.env s') = V1.timers (V1.env s) \/
   exists id, V1.timers (V1.env s')
              = insert_timer (mkTimer id (now + 1000)%Z V1.CooldownOff)
                  (V1.timers (V1.env s))).
Proof.
  cbv zeta. unfold V1.bumpDetection, V1.handleBumpEvent, helpPrompts. cbv zeta.
  split_tests; cbn; rewrite ?filter_app, ?app_nil_r;
    (split; [reflexivity|]); (now left) || (right; eexists; reflexivity).
Qed.

Lemma gyroscope_V1_help (now : Z) (g : vec3) (s : V1.App) :
  let s' := V1.gyroscope_callback now g s in
  helpPrompts s' = helpPrompts s /\
  (V1.timers (V1.env s') = V1.timers (V1.env s) \/
   exists id, V1.timers (V1.env s')
              = insert_timer (mkTimer id (now + 1000)%Z V1.CooldownOff)
                  (V1.timers (V1.env s))).
Proof.
  cbv zeta. unfold V1.gyroscope_callback, helpPrompts. cbv zeta.
  split_tests; cbn; rewrite ?filter_app, ?app_nil_r;
    (split; [reflexivity|]); (now left) || (right; eexists; reflexivity).
Qed.

Lemma clear_timer_sub (id : positive) (q : list (Timer V1.TimerAction)) :
  forall u, In u (clear_timer id q) -> In u q.
Proof. intros u Hu. unfold clear_timer in Hu. now apply filter_In in Hu. Qed.

Lemma accelerometer_V1_help (M : MathHost) (T now : Z) (a : vec3) (s : V1.App) :
  alerts_from T s -> (T <= now + 15000)%Z ->
  helpPrompts (V1.accelerometer_callback M now a s) = helpPrompts s /\
  alerts_from T (V1.accelerometer_callback M now a s).
Proof.
  intros Ha Hn. unfold V1.accelerometer_callback.
  destruct (V1.resultShownRef _); [now split|].
  destruct (negb _); [|now split]. cbv zeta.
  destruct (stillness_V1_frame M now a s) as (_ & _ & _ & _ & _ & S6 & _).
  pose proof (stillness_V1_timers M now a s) as St. cbv zeta in *.
  set (s2 := V1.set_lastAccelRef (Some a) (V1.stillness M now a s)).
  assert (helpPrompts s2 = helpPrompts s) as T1
    by (subst s2; unfold helpPrompts; cbn; now rewrite S6).
  assert (alerts_from T s2) as T2.
  { unfold alerts_from, alerts in *. subst s2.
    cbn [V1.set_lastAccelRef V1.with_det V1.env].
    destruct St as [E | [[id E] | [id E]]]; rewrite E.
    - exact Ha.
    - apply alerts_from_insert; [cbn; intros _; lia | exact Ha].
    - eapply alerts_from_sub; [apply clear_timer_sub | exact Ha]. }
  clearbody s2.
  destruct (bumpDetection_V1_help now a s2) as (B1 & B2). cbv zeta in *.
  destruct (fallDetection_V1_frame M now a (V1.bumpDetection now a s2))
    as (_ & _ & _ & F4 & _). cbv zeta in F4.
  split.
  - unfold helpPrompts in *. rewrite <- T1, <- B1.
    unfold V1.fallDetection. cbv zeta.
    split_tests; cbn; rewrite ?filter_app, ?app_nil_r; reflexivity.
  - unfold alerts_from, alerts in *. rewrite F4.
    destruct B2 as [E | [id E]]; rewrite E; [exact T2|].
    apply alerts_from_insert; [cbn; discriminate | exact T2].
Qed.

(** X20.  The help prompt needs 15 s.  If no stillness alert of the queue
    is due before [T + 15000], no run whose events all fall between [T]
    and [T + 14999] shows the "Do you need any help?" toast: an alert set
    during the run is due 15000 ms after the sample that set it. *)
Theorem X20_help_prompt_needs_15s (M : MathHost) (trace : list (Z * V1.Event))
  (s : V1.App) (T : Z) :
  alerts_from (T + 15000) s ->
  Forall (fun tev => (T <= fst tev <= T + 14999)%Z) trace ->
  helpPrompts (V1.run M trace s) = helpPrompts s.
Proof.
  unfold V1.run. intros Ha Hw. revert s Ha.
  induction Hw as [|tev trace Ht Hw IH]; intros s Ha; cbn; [reflexivity|].
  assert (helpPrompts (V1.step M s tev) = helpPrompts s /\
          alerts_from (T + 15000) (V1.step M s tev)) as [E1 E2].
  { unfold V1.step.
    destruct (run_timers_V1_help (T + 15000) (fst tev) s Ha) as [R1 R2]; [lia|].
    rewrite <- R1. revert R2. generalize (V1.run_timers (fst tev) s).
    clear R1 Ha s. intros s Ha. destruct (snd tev); cbn [V1.dispatch].
    - destruct (_ && _)%bool; [|now split].
      apply accelerometer_V1_help; [exact Ha | lia].
    - destruct (_ && _)%bool; [|now split].
      destruct (gyroscope_V1_help (fst tev) g s) as (G1 & G2). cbv zeta in *.
      split; [exact G1|]. unfold alerts_from, alerts in *.
      destruct G2 as [E | [id E]]; rewrite E; [exact Ha|].
      apply alerts_from_insert; [cbn; discriminate | exact Ha].
    - apply (fold_watchPosition_same
               (fun s' => helpPrompts s' = helpPrompts s /\
                          alerts_from (T + 15000) s')).
      + unfold helpPrompts, alerts_from, alerts. intros s1 s2 _ -> _. trivial.
      + now split.
    - now split.
    - destruct (V1.tracking _); [|now split]. split.
      + unfold helpPrompts. now rewrite stopTracking_V1_notifications.
      + unfold alerts_from, alerts in *. eapply alerts_from_sub; [|exact Ha].
        unfold V1.stopTracking. cbv zeta. intros u.
        split_tests; cbn; try apply clear_timer_sub; trivial.
    - destruct (V1.tracking _); now split.
    - destruct (V1.showResults _); now split.
    - now split. }
  rewrite IH; [exact E1 | exact E2].
Qed.

Lemma X20_witness :
  helpPrompts (V1.run refMath (still_then_move_V1 14000) (V1.initial 1))
  = helpPrompts (V1.initial 1).
Proof.
  apply (X20_help_prompt_needs_15s refMath (still_then_move_V1 14000)
           (V1.initial 1) 1000).
  - constructor.
  - repeat constructor; cbn; lia.
Defined.

End HelpPrompt.

(* ------------------------------------------------------------------ *)
(** ** The low-pass filter (second screen) *)

Section LowPass.
Import Geo Host.
Local Open Scope R_scope.

Lemma watchPosition_V2_low_pass (platform : V2.OS) (now : Z) (coords : Coords)
  (f : coord) (s : V2.App) :
  V2.lowAccuracy (c_accuracy coords) = false ->
  V2.filteredLocation (V2.loc s) = Some f ->
  exists f',
    V2.filteredLocation
      (V2.loc (V2.watchPosition_callback platform false now coords s)) = Some f' /\
    latitude f' - c_latitude coords = 5 / 100 * (latitude f - c_latitude coords) /\
    longitude f' - c_longitude coords
    = 5 / 100 * (longitude f - c_longitude coords).
Proof.
  intros Ha Hf. unfold V2.watchPosition_callback. cbn [negb]. rewrite Ha.
  cbv zeta. rewrite Hf. cbn. eexists. split; [reflexivity|].
  cbn. unfold V2.LPF_ALPHA. split; field.
Qed.

(** X17.  The low-pass filter of the second screen keeps a twentieth of
    its history.  While fixes arrive at one raw position, each processed
    fix divides the offset of the filtered location from that position
    by 20 on both axes: after [n] fixes the offset is [(1/20)^n] times
    what it was. *)
Theorem X17_low_pass_converges (platform : V2.OS) (fixes : list (Z * Coords))
  (rawLat rawLon : R) (f : coord) (s : V2.App) :
  Forall (fix_at rawLat rawLon) fixes ->
  V2.filteredLocation (V2.loc s) = Some f ->
  exists f',
    V2.filteredLocation (V2.loc (feed_V2 platform false fixes s)) = Some f' /\
    latitude f' - rawLat
    = (5 / 100) ^ List.length fixes * (latitude f - rawLat) /\
    longitude f' - rawLon
    = (5 / 100) ^ List.length fixes * (longitude f - rawLon).
Proof.
  intros Hfix. revert f s. unfold feed_V2.
  induction Hfix as [|x fixes (H1 & H2 & H3) Hfix IH]; intros f s Hf;
    cbn [fold_left List.length pow].
  - exists f. split; [exact Hf|]. split; ring.
  - destruct (watchPosition_V2_low_pass platform (fst x) (snd x) f s H3 Hf)
      as (f1 & E1 & E2 & E3).
    destruct (IH f1 _ E1) as (f' & I1 & I2 & I3).
    exists f'. split; [exact I1|]. rewrite H1 in E2. rewrite H2 in E3.
    rewrite I2, I3, E2, E3. split; ring.
Qed.

Lemma X17_witness :
  exists f',
    V2.filteredLocation
      (V2.loc (feed_V2 V2.android false
                 [(2000%Z, fix_origin); (3000%Z, fix_origin)] off_by_one_V2))
    = Some f' /\
    latitude f' - 0 = (5 / 100) ^ 2 * (1 - 0) /\
    longitude f' - 0 = (5 / 100) ^ 2 * (1 - 0).
Proof.
  apply (X17_low_pass_converges V2.android
           [(2000%Z, fix_origin); (3000%Z, fix_origin)] 0 0 (mkCoord 1 1)
           off_by_one_V2).
  - repeat constructor.
  - reflexivity.
Defined.

End LowPass.

(* ------------------------------------------------------------------ *)
(** ** A stillness period outlives Pause and Stop (first screen) *)

Section StaleStillness.
Import Host.

Lemma fire_all_stillnessRefs (l : list (Timer V1.TimerAction)) (s : V1.App) :
  stillnessRefs (fire_all l s) = stillnessRefs s.
Proof.
  revert s. induction l as [|t l IH]; intros s; cbn; [reflexivity|].
  unfold fire_all in IH. rewrite IH. destruct (act t); reflexivity.
Qed.

Lemma run_timers_V1_stillnessRefs (now : Z) (s : V1.App) :
  stillnessRefs (V1.run_timers now s) = stillnessRefs s.
Proof.
  unfold V1.run_timers.
  match goal with |- context [fold_left _ ?l ?s0] =>
    pose proof (fire_all_stillnessRefs l s0) as H; unfold fire_all in H
  end.
  exact H.
Qed.

(** Stop Journey shows the summary and leaves the stillness refs. *)
Lemma step_stop_stale (M : MathHost) (now : Z) (s : V1.App) :
  V1.tracking (V1.session s) = true ->
  let s' := V1.step M s (now, V1.StopJourney) in
  V1.tracking (V1.session s') = false /\
  V1.showResults (V1.session s') = true /\
  stillnessRefs s' = stillnessRefs s.
Proof.
  intros Ht. cbv zeta. unfold V1.step. cbn [fst snd V1.dispatch].
  destruct (run_timers_V1_frame now s) as (_ & Hx & _). cbv zeta in Hx.
  rewrite Hx, Ht, <- (run_timers_V1_stillnessRefs now s).
  generalize (V1.run_timers now s). intros r.
  unfold V1.stopTracking, stillnessRefs. cbv zeta.
  split_tests; cbn; repeat split.
Qed.

(** Back clears the aggregates and the summary, and leaves the stillness
    refs. *)
Lemma step_back_stale (M : MathHost) (now : Z) (s : V1.App) :
  V1.showResults (V1.session s) = true ->
  let s' := V1.step M s (now, V1.Back) in
  V1.tracking (V1.session s') = V1.tracking (V1.session s) /\
  V1.showResults (V1.session s') = false /\
  V1.resultShownRef (V1.session s') = false /\
  stopView_V1 s' = (O, [], 0%Z) /\
  stillnessRefs s' = stillnessRefs s.
Proof.
  intros Hr. cbv zeta. unfold V1.step. cbn [fst snd V1.dispatch].
  destruct (run_timers_V1_frame now s) as (_ & Hx & _). cbv zeta in Hx.
  rewrite Hx, Hr, <- (run_timers_V1_stillnessRefs now s), <- Hx.
  generalize (V1.run_timers now s). intros r. repeat split.
Qed.

(** Start begins a journey and leaves the aggregates and the stillness
    refs. *)
Lemma step_start_stale (M : MathHost) (now : Z) (coords : Coords) (s : V1.App) :
  let s' := V1.step M s (now, V1.Start coords) in
  V1.tracking (V1.session s') = true /\
  V1.paused (V1.session s') = false /\
  V1.pausedRef (V1.session s') = false /\
  V1.resultShownRef (V1.session s') = V1.resultShownRef (V1.session s) /\
  V1.startTime (V1.session s') = Some now /\
  stopView_V1 s' = stopView_V1 s /\
  stillnessRefs s' = stillnessRefs s.
Proof.
  cbv zeta. unfold V1.step. cbn [fst snd V1.dispatch].
  destruct (run_timers_V1_frame now s) as (_ & Hx & _). cbv zeta in Hx.
  rewrite <- (run_timers_V1_stillnessRefs now s),
    <- (run_timers_V1_view now s), <- Hx.
  generalize (V1.run_timers now s). intros r. cbn. repeat split.
Qed.

(** The first moving sample after a stillness period that began at
    [t0]. *)
Lemma step_sample_stale (M : MathHost) (now t0 : Z) (l a : vec3) (s : V1.App) :
  V1.tracking (V1.session s) = true ->
  V1.paused (V1.session s) = false ->
  V1.pausedRef (V1.session s) = false ->
  V1.resultShownRef (V1.session s) = false ->
  stillnessRefs s = (Some l, Some t0) -> t0 <> 0%Z ->
  still l a = false ->
  (15000 <= now - t0)%Z ->
  let s' := V1.step M s (now, V1.Accelerometer a) in
  V1.session s' = V1.session s /\
  stopDurations_V1 s'
  = (S (V1.counts (V1.journey s) V1.stopCount),
     map V1.duration (V1.stops (V1.journey s)) ++ [(now - t0)%Z],
     (V1.totalStopTime (V1.journey s) + (now - t0))%Z).
Proof.
  intros Ht Hp Hpr Hrs Hrefs H0 Hm Hd. cbv zeta.
  rewrite (step_accelerometer_live M now a s Ht Hp).
  destruct (run_timers_V1_frame now s) as (Hj & Hx & _). cbv zeta in Hj, Hx.
  rewrite accelerometer_V1_session, Hx. split; [reflexivity|].
  pose proof (run_timers_V1_stillnessRefs now s) as Hr.
  rewrite Hrefs in Hr. unfold stillnessRefs in Hr. injection Hr as Hl Hs.
  rewrite (accelerometer_V1_ends_period M now t0 l a (V1.run_timers now s));
    try assumption; try congruence.
  destruct (Z.leb_spec 15000 (now - t0)) as [_|L]; [|lia].
  now rewrite Hj.
Qed.

(** X21.  A stillness period that is open when the journey is stopped is
    carried into the next journey.  Stop Journey, Back and Start leave
    [currentStopStartRef] and [lastAccelRef] as they are, so the first
    moving sample of the next journey, if it comes 15 s or more after the
    old period began at [t0], records a stop for a stillness that began
    before the journey did: the new journey, started at [t3], shows one
    stop, of duration [t4 - t0]. *)
Theorem X21_stillness_outlives_stop (M : MathHost) (s : V1.App)
  (t0 t1 t2 t3 t4 : Z) (l a : vec3) (coords : Coords) :
  V1.tracking (V1.session s) = true ->
  stillnessRefs s = (Some l, Some t0) -> t0 <> 0%Z ->
  still l a = false ->
  (15000 <= t4 - t0)%Z ->
  let s' := V1.run M (next_journey t1 t2 t3 t4 coords a) s in
  V1.tracking (V1.session s') = true /\
  V1.startTime (V1.session s') = Some t3 /\
  stopDurations_V1 s' = (1%nat, [(t4 - t0)%Z], (t4 - t0)%Z).
Proof.
  intros Ht Hrefs H0 Hm Hd. cbv zeta. unfold V1.run, next_journey.
  cbn [fold_left].
  destruct (step_stop_stale M t1 s Ht) as (A1 & A2 & A3). cbv zeta in *.
  set (s1 := V1.step M s (t1, V1.StopJourney)) in *.
  destruct (step_back_stale M t2 s1 A2) as (B1 & B2 & B3 & B4 & B5).
  cbv zeta in *. set (s2 := V1.step M s1 (t2, V1.Back)) in *.
  destruct (step_start_stale M t3 coords s2) as (C1 & C2 & C3 & C4 & C5 & C6 & C7).
  cbv zeta in *. set (s3 := V1.step M s2 (t3, V1.Start coords)) in *.
  destruct (step_sample_stale M t4 t0 l a s3) as (D1 & D2);
    try assumption; try congruence.
  cbv zeta in *. rewrite D1, D2. clearbody s1 s2 s3.
  unfold stopView_V1 in C6, B4. rewrite B4 in C6. injection C6 as E1 E2 E3.
  rewrite E1, E2, E3. repeat split; assumption.
Qed.

Lemma X21_witness :
  stopDurations_V1
    (V1.run refMath (next_journey 2000 3000 60000 60250 fix_origin moved)
       resting_state)
  = (1%nat, [(60250 - 1500)%Z], (60250 - 1500)%Z).
Proof.
  refine (proj2 (proj2 (X21_stillness_outlives_stop refMath resting_state
                          1500 2000 3000 60000 60250 at_rest moved fix_origin
                          _ _ _ _ _))).
  - vm_compute. reflexivity.
  - vm_compute. reflexivity.
  - lia.
  - vm_compute. reflexivity.
  - lia.
Defined.

Lemma step_pause_stale (M : MathHost) (now : Z) (s : V1.App) :
  V1.tracking (V1.session s) = true ->
  let s' := V1.step M s (now, V1.PauseResume) in
  V1.tracking (V1.session s') = true /\
  V1.paused (V1.session s') = negb (V1.paused (V1.session s)) /\
  V1.pausedRef (V1.session s') = negb (V1.paused (V1.session s)) /\
  V1.resultShownRef (V1.session s') = V1.resultShownRef (V1.session s) /\
  stopView_V1 s' = stopView_V1 s /\
  stillnessRefs s' = stillnessRefs s.
Proof.
  intros Ht. cbv zeta. unfold V1.step. cbn [fst snd V1.dispatch].
  destruct (run_timers_V1_frame now s) as (_ & Hx & _). cbv zeta in Hx.
  pose proof Ht as Ht'. rewrite <- Hx in Ht'. rewrite Ht'.
  rewrite <- (run_timers_V1_stillnessRefs now s),
    <- (run_timers_V1_view now s), <- Hx.
  revert Ht'. generalize (V1.run_timers now s). intros r Hr. cbn.
  repeat split. exact Hr.
Qed.

(** X22.  A pause is counted as stop time.  Pause does not close a
    stillness period: in a state reached from mount with the journey
    under way and the summary off screen, if a period began at [t0]
    before the journey was paused, the first moving sample after Resume,
    15 s or more after [t0], records a stop of duration [t3 - t0], the
    time spent paused included. *)
Theorem X22_pause_counts_as_stop (M : MathHost) (trace : list (Z * V1.Event))
  (firstWatch t0 t1 t2 t3 : Z) (l a : vec3) :
  let s := V1.run M trace (V1.initial firstWatch) in
  let s' := V1.run M (pause_resume t1 t2 t3 a) s in
  accel_live s ->
  V1.showResults (V1.session s) = false ->
  stillnessRefs s = (Some l, Some t0) -> t0 <> 0%Z ->
  still l a = false ->
  (15000 <= t3 - t0)%Z ->
  stopDurations_V1 s'
  = (S (V1.counts (V1.journey s) V1.stopCount),
     map V1.duration (V1.stops (V1.journey s)) ++ [(t3 - t0)%Z],
     (V1.totalStopTime (V1.journey s) + (t3 - t0))%Z).
Proof.
  cbv zeta. set (s := V1.run M trace (V1.initial firstWatch)).
  intros (Ht & Hp) Hsh Hrefs H0 Hm Hd.
  destruct (session_inv_run M trace firstWatch) as (_ & Hm2 & _).
  fold s in Hm2.
  assert (V1.resultShownRef (V1.session s) = false) as Hrs by congruence.
  unfold V1.run, pause_resume. cbn [fold_left].
  destruct (step_pause_stale M t1 s Ht) as (A1 & A2 & A3 & A4 & A5 & A6).
  cbv zeta in *. set (s1 := V1.step M s (t1, V1.PauseResume)) in *.
  destruct (step_pause_stale M t2 s1 A1) as (B1 & B2 & B3 & B4 & B5 & B6).
  cbv zeta in *. set (s2 := V1.step M s1 (t2, V1.PauseResume)) in *.
  rewrite A2, Hp in B2, B3. cbn in B2, B3.
  destruct (step_sample_stale M t3 t0 l a s2) as (_ & D2);
    try assumption; try congruence.
  cbv zeta in D2. rewrite D2. clearbody s1 s2.
  unfold stopView_V1 in A5, B5. rewrite A5 in B5. injection B5 as E1 E2 E3.
  now rewrite E1, E2, E3.
Qed.

Lemma X22_witness :
  stopDurations_V1
    (V1.run refMath (pause_resume 2000 16000 16500 moved)
       (V1.run refMath resting_trace (V1.initial 1)))
  = (S (V1.counts (V1.journey (V1.run refMath resting_trace (V1.initial 1)))
          V1.stopCount),
     map V1.duration
       (V1.stops (V1.journey (V1.run refMath resting_trace (V1.initial 1))))
       ++ [(16500 - 1500)%Z],
     (V1.totalStopTime (V1.journey (V1.run refMath resting_trace (V1.initial 1)))
      + (16500 - 1500))%Z).
Proof.
  assert (accel_live (V1.run refMath resting_trace (V1.initial 1))) as H1
    by (repeat split; vm_compute; reflexivity).
  assert (V1.showResults
            (V1.session (V1.run refMath resting_trace (V1.initial 1))) = false)
    as H0 by (vm_compute; reflexivity).
  assert (stillnessRefs (V1.run refMath resting_trace (V1.initial 1))
          = (Some at_rest, Some 1500%Z)) as H2
    by (vm_compute; reflexivity).
  assert (still at_rest moved = false) as H3 by (vm_compute; reflexivity).
  refine (X22_pause_counts_as_stop refMath resting_trace 1 1500 2000 16000 16500
            at_rest moved H1 H0 H2 _ H3 _); lia.
Defined.

Lemma fire_all_help (l : list (Timer V1.TimerAction)) (s : V1.App) :
  helpPrompts (fire_all l s)
  = (helpPrompts s
     + List.length (filter (fun t => negb (is_cooloff t)) l))%nat.
Proof.
  revert s. induction l as [|t l IH]; intros s; cbn; [lia|].
  unfold fire_all in IH. rewrite IH. unfold is_cooloff at 2, helpPrompts.
  destruct (act t); cbn; rewrite ?filter_app, ?length_app; cbn; lia.
Qed.

Lemma run_timers_V1_fires (now : Z) (t : Timer V1.TimerAction) (s : V1.App) :
  sorted_queue (V1.timers (V1.env s)) ->
  In t (alerts s) -> (due t <= now)%Z ->
  (helpPrompts s < helpPrompts (V1.run_timers now s))%nat.
Proof.
  intros Hs Hin Hd. unfold alerts in Hin. apply filter_In in Hin as [Hin Hc].
  unfold V1.run_timers.
  match goal with |- context [fold_left _ ?l ?s0] =>
    pose proof (fire_all_help l s0) as H; unfold fire_all in H
  end.
  rewrite H. clear H.
  assert (In t (filter (fun t => negb (is_cooloff t))
                  (due_timers now (V1.timers (V1.env s))))) as Hf.
  { apply filter_In. split; [|exact Hc]. now apply due_timers_complete. }
  destruct (filter _ (due_timers now (V1.timers (V1.env s)))); [contradiction|].
  unfold helpPrompts. cbn. lia.
Qed.

(** X23.  Pause does not cancel the pending help prompt.  In a state
    reached from mount with the journey under way, if a stillness alert
    is queued that is due after the Pause at [t1], then by the tick of the
    one-second interval at [t2], on or after its due time, the "Do you
    need any help?" toast has been shown while the journey was paused. *)
Theorem X23_help_prompt_while_paused (M : MathHost)
  (trace : list (Z * V1.Event)) (firstWatch t1 t2 : Z)
  (t : Timer V1.TimerAction) :
  let s := V1.run M trace (V1.initial firstWatch) in
  let s1 := V1.step M s (t1, V1.PauseResume) in
  let s2 := V1.step M s1 (t2, V1.Tick) in
  accel_live s ->
  In t (alerts s) -> (t1 < due t <= t2)%Z ->
  V1.paused (V1.session s1) = true /\
  V1.paused (V1.session s2) = true /\
  (helpPrompts s1 < helpPrompts s2)%nat.
Proof.
  cbv zeta. set (s := V1.run M trace (V1.initial firstWatch)).
  intros (Ht & Hp) Hin Hd.
  pose proof (cooldown_inv_run M trace firstWatch) as (Hs & _). fold s in Hs.
  destruct (step_pause_stale M t1 s Ht) as (A1 & A2 & _). cbv zeta in *.
  set (s1 := V1.step M s (t1, V1.PauseResume)) in *.
  rewrite Hp in A2. cbn in A2.
  assert (V1.timers (V1.env s1) = pending_timers t1 (V1.timers (V1.env s))) as Eq.
  { subst s1. unfold V1.step. cbn [fst snd V1.dispatch].
    destruct (run_timers_V1_frame t1 s) as (_ & Hx & Rt & _). cbv zeta in *.
    rewrite Hx, Ht, <- Rt. reflexivity. }
  assert (In t (alerts s1)) as Hin1.
  { unfold alerts in *. rewrite Eq. apply filter_In in Hin as [Hin Hc].
    apply filter_In. split; [|exact Hc].
    rewrite <- (due_pending_split t1) in Hin. apply in_app_or in Hin as [Hin|Hin];
      [|exact Hin].
    apply due_timers_due in Hin. lia. }
  assert (sorted_queue (V1.timers (V1.env s1))) as Hs1
    by (rewrite Eq; now apply pending_timers_sorted).
  pose proof (run_timers_V1_fires t2 t s1 Hs1 Hin1 (proj2 Hd)) as Hf.
  destruct (run_timers_V1_frame t2 s1) as (_ & Hx2 & _). cbv zeta in Hx2.
  split; [exact A2|]. unfold V1.step. cbn [fst snd V1.dispatch].
  split.
  - unfold V1.tick. cbn [V1.session V1.with_session V1.paused].
    now rewrite Hx2.
  - exact Hf.
Qed.

Lemma X23_witness :
  (helpPrompts
     (V1.step refMath (V1.run refMath resting_trace (V1.initial 1))
        (2000%Z, V1.PauseResume))
   < helpPrompts
       (V1.step refMath
          (V1.step refMath (V1.run refMath resting_trace (V1.initial 1))
             (2000%Z, V1.PauseResume))
          (17000%Z, V1.Tick)))%nat.
Proof.
  assert (accel_live (V1.run refMath resting_trace (V1.initial 1))) as H1
    by (repeat split; vm_compute; reflexivity).
  assert (In (mkTimer 1%positive 16500%Z V1.StillAlert)
             (alerts (V1.run refMath resting_trace (V1.initial 1)))) as H2
    by (vm_compute; left; reflexivity).
  assert ((2000 < due (mkTimer 1%positive 16500%Z V1.StillAlert) <= 17000)%Z)
    as H3 by (cbn; lia).
  exact (proj2 (proj2 (X23_help_prompt_while_paused refMath resting_trace
                         1 2000 17000
                         (mkTimer 1%positive 16500%Z V1.StillAlert) H1 H2 H3))).
Defined.

End StaleStillness.
